(** * A shallow embedding of [model/base_model.py]

    The module implements a schema-driven record layer: value wrappers
    ([BaseValueModel] and its subclasses) and record classes
    ([BaseDataModel] and its subclasses).  Python objects are mutable and
    shared by reference, so the embedding keeps an explicit object store:
    every list, dict, wrapper and record instance lives at an address, and
    the methods of the module are state-passing functions over that store.

    Scope of the embedding.  Scalars are [None], [bool], [int] and [str];
    floats and [datetime] values are not embedded, so the two timestamp
    wrappers are present with their class and attributes but stop where they
    would parse, format or read the clock.  Dict keys are strings.  A class
    of the program is described by its [class_def]; user overrides of methods
    (for instance of [pre_new]) are not embedded, and a method is always the
    one of the class.  The data attributes that the methods read through the
    instance ([self.STRICT_MODE], [self.DATA_DEFAULT_FORMAT],
    [a.EQUALS_IGNORE_KEYS]) are looked up in the instance first, as Python
    does: an entry of that name in [self.__dict__], which only [upgrade] can
    write, shadows the class attribute, and the model does not follow the
    shadowing value.  The operator proxies of
    [LimitedValueModel] ([__eq__], [__bool__], ...) are not followed, and a
    [for] loop runs over the elements its container holds when the loop
    starts.  Whenever a run leaves this fragment the model answers [Beyond],
    never a made-up Python result. *)

From Stdlib Require Import ZArith String List Bool Lia Ascii DecimalString.
From stdpp Require Import base list.
Import ListNotations.

Local Open Scope string_scope.
Local Open Scope list_scope.

(** ** Values, types and objects *)

Definition addr := nat.
Definition cname := string.

(** The wrapper classes of the module. *)
Inductive wclass :=
| C_BaseValueModel
| C_BaseDBValueModel
| C_LimitedValueModel
| C_BetweenValueModel
| C_ComplexValueModel
| C_DateTimeValueModel
| C_DateTimeIntValueModel
| C_FixedValueModel
| C_ListComplexValueModel
| C_NumberBetweenValueModel
| C_ListBetweenValueModel.

(** Runtime types: what [type(v)] can be. *)
Inductive pytype :=
| T_NoneType
| T_bool
| T_int
| T_str
| T_list
| T_dict
| T_type
| T_wrapper (w : wclass)
| T_record (c : cname).

(** A Python value: an immutable scalar, a class object, or a reference to
    a mutable object of the store. *)
Inductive val :=
| VNone
| VBool (b : bool)
| VInt (z : Z)
| VStr (s : string)
| VType (t : pytype)
| VRef (a : addr).

(** Wrapper instances, one constructor per class, carrying the instance
    attributes set by the class's [__init__]. *)
Inductive wrapper :=
| BaseValueModel
| BaseDBValueModel
| LimitedValueModel (default_value : val)
| BetweenValueModel (default_value : val)
| ComplexValueModel (default_value : val) (required : bool)
| DateTimeValueModel (formatter : string) (default_value : val)
    (required : bool)
| DateTimeIntValueModel (default_value : val) (required : bool)
| FixedValueModel (default_value : val) (required : bool)
    (value_cls : option pytype)
| ListComplexValueModel (default_value : val) (required need_size : bool)
    (value_cls : option pytype) (support_dict_value : bool)
| NumberBetweenValueModel (default_value : val) (min max : Z)
| ListBetweenValueModel (default_value : val) (value_list : list val).

(** Objects of the store.  A record instance points to its [__dict__], which
    is a dict object of its own. *)
Inductive obj :=
| OList (items : list val)
| ODict (items : list (string * val))
| OWrapper (w : wrapper)
| ORecord (cls : cname) (dict : addr).

Definition heap := list obj.

(** A record class: its method resolution order (the class itself first),
    its class attributes, and the reserved names that the first call of
    [_check_key_format] caches in [_keys_limited] ([dir(cls)] at that time,
    or the list of a base class that was used before). *)
Record class_def := {
  mro : list cname;
  DATA_DEFAULT_FORMAT : list (string * val);
  STRICT_MODE : bool;
  EQUALS_IGNORE_KEYS : list string;
  _keys_limited : list string
}.

(** Calls of the wrapper contract, recorded in call order (most recent
    first), so that statements can say which of [apply] and [value] ran. *)
Inductive event :=
| CallApply (a : addr) (value : val)
| CallValue (a : addr).

Record state := {
  classes : list (cname * class_def);
  store : heap;
  calls : list event
}.

(** ** Outcomes and the state monad *)

Inductive exn :=
| AssertionError
| ValueError
| RuntimeError
| TypeError
| AttributeError
| KeyError.

(** [OutOfFuel]: the recursion bound of the model was reached.
    [Beyond]: the run left the embedded fragment. *)
Inductive outcome (A : Type) :=
| Ok (a : A)
| Raise (e : exn)
| OutOfFuel
| Beyond.
Arguments Ok {A} a.
Arguments Raise {A} e.
Arguments OutOfFuel {A}.
Arguments Beyond {A}.

Definition M (S A : Type) := S -> outcome A * S.

Definition ret {S A} (a : A) : M S A := fun s => (Ok a, s).
Definition raise {S A} (e : exn) : M S A := fun s => (Raise e, s).
Definition beyond {S A} : M S A := fun s => (Beyond, s).
Definition out_of_fuel {S A} : M S A := fun s => (OutOfFuel, s).

Definition bind {S A B} (c : M S A) (k : A -> M S B) : M S B :=
  fun s =>
    match c s with
    | (Ok a, s') => k a s'
    | (Raise e, s') => (Raise e, s')
    | (OutOfFuel, s') => (OutOfFuel, s')
    | (Beyond, s') => (Beyond, s')
    end.

Notation "'let*' x ':=' c 'in' k" := (bind c (fun x => k))
  (at level 10, x pattern, c at level 100, k at level 200).
Notation "c ';;' k" := (bind c (fun _ => k))
  (at level 100, k at level 200, right associativity).

(** [assert cond] *)
Definition assert {S} (b : bool) : M S unit :=
  if b then ret tt else raise AssertionError.

(** Heap-only computations run inside the program state. *)
Definition lift_heap {A} (c : M heap A) : M state A :=
  fun st =>
    let (r, h) := c (store st) in
    (r, {| classes := classes st; store := h; calls := calls st |}).

Definition hderef (a : addr) : M heap obj :=
  fun h => match h !! a with Some o => (Ok o, h) | None => (Beyond, h) end.
Definition halloc (o : obj) : M heap addr :=
  fun h => (Ok (length h), h ++ [o]).
Definition hstore (a : addr) (o : obj) : M heap unit :=
  fun h => (Ok tt, <[a:=o]> h).

Definition set_store (st : state) (h : heap) : state :=
  {| classes := classes st; store := h; calls := calls st |}.

Definition deref (a : addr) : M state obj :=
  fun st =>
    match store st !! a with
    | Some o => (Ok o, st)
    | None => (Beyond, st)
    end.
Definition alloc (o : obj) : M state addr :=
  fun st => (Ok (length (store st)), set_store st (store st ++ [o])).
Definition put (a : addr) (o : obj) : M state unit :=
  fun st => (Ok tt, set_store st (<[a:=o]> (store st))).

Definition log (e : event) : M state unit :=
  fun st =>
    (Ok tt, {| classes := classes st; store := store st; calls := e :: calls st |}).

(** ** Dicts: insertion-ordered association lists with unique keys *)

Fixpoint dict_get {A} (k : string) (d : list (string * A)) : option A :=
  match d with
  | [] => None
  | (k', v) :: r => if String.eqb k k' then Some v else dict_get k r
  end.

Definition dict_mem {A} (k : string) (d : list (string * A)) : bool :=
  match dict_get k d with Some _ => true | None => false end.

(** [d[k] = v]: overwrite in place, or append a new key. *)
Fixpoint dict_set {A} (k : string) (v : A) (d : list (string * A))
  : list (string * A) :=
  match d with
  | [] => [(k, v)]
  | (k', v') :: r =>
      if String.eqb k k' then (k, v) :: r else (k', v') :: dict_set k v r
  end.

Definition dict_keys {A} (d : list (string * A)) : list string := map fst d.

(** [d.update(e)] *)
Definition dict_update {A} (d e : list (string * A)) : list (string * A) :=
  fold_left (fun acc kv => dict_set (fst kv) (snd kv) acc) e d.

(** [sorted(keys)]: insertion sort under the code-point order of [str]. *)
Fixpoint insert_sorted (k : string) (l : list string) : list string :=
  match l with
  | [] => [k]
  | k' :: r => if String.leb k k' then k :: l else k' :: insert_sorted k r
  end.

Definition sorted (l : list string) : list string :=
  fold_right insert_sorted [] l.

Fixpoint strings_eqb (a b : list string) : bool :=
  match a, b with
  | [], [] => true
  | x :: a', y :: b' => String.eqb x y && strings_eqb a' b'
  | _, _ => false
  end.

(** [str(n)] for the path strings built by the walkers. *)
Definition str_of_nat (n : nat) : string :=
  NilZero.string_of_uint (Nat.to_uint n).

(** ** Runtime types, [isinstance], truthiness and [==] *)

Definition wclass_of (w : wrapper) : wclass :=
  match w with
  | BaseValueModel => C_BaseValueModel
  | BaseDBValueModel => C_BaseDBValueModel
  | LimitedValueModel _ => C_LimitedValueModel
  | BetweenValueModel _ => C_BetweenValueModel
  | ComplexValueModel _ _ => C_ComplexValueModel
  | DateTimeValueModel _ _ _ => C_DateTimeValueModel
  | DateTimeIntValueModel _ _ => C_DateTimeIntValueModel
  | FixedValueModel _ _ _ => C_FixedValueModel
  | ListComplexValueModel _ _ _ _ _ => C_ListComplexValueModel
  | NumberBetweenValueModel _ _ _ => C_NumberBetweenValueModel
  | ListBetweenValueModel _ _ => C_ListBetweenValueModel
  end.

(** The class statements of the module, as method resolution orders. *)
Definition wclass_mro (w : wclass) : list wclass :=
  match w with
  | C_BaseValueModel => [C_BaseValueModel]
  | C_BaseDBValueModel => [C_BaseDBValueModel; C_BaseValueModel]
  | C_LimitedValueModel => [C_LimitedValueModel; C_BaseValueModel]
  | C_BetweenValueModel =>
      [C_BetweenValueModel; C_LimitedValueModel; C_BaseValueModel]
  | C_ComplexValueModel =>
      [C_ComplexValueModel; C_LimitedValueModel; C_BaseValueModel]
  | C_DateTimeValueModel =>
      [C_DateTimeValueModel; C_ComplexValueModel; C_LimitedValueModel;
       C_BaseValueModel]
  | C_DateTimeIntValueModel =>
      [C_DateTimeIntValueModel; C_ComplexValueModel; C_LimitedValueModel;
       C_BaseValueModel]
  | C_FixedValueModel =>
      [C_FixedValueModel; C_ComplexValueModel; C_LimitedValueModel;
       C_BaseValueModel]
  | C_ListComplexValueModel =>
      [C_ListComplexValueModel; C_ComplexValueModel; C_LimitedValueModel;
       C_BaseValueModel]
  | C_NumberBetweenValueModel =>
      [C_NumberBetweenValueModel; C_BetweenValueModel; C_LimitedValueModel;
       C_BaseValueModel]
  | C_ListBetweenValueModel =>
      [C_ListBetweenValueModel; C_BetweenValueModel; C_LimitedValueModel;
       C_BaseValueModel]
  end.

Definition wclass_eqb (a b : wclass) : bool :=
  match a, b with
  | C_BaseValueModel, C_BaseValueModel
  | C_BaseDBValueModel, C_BaseDBValueModel
  | C_LimitedValueModel, C_LimitedValueModel
  | C_BetweenValueModel, C_BetweenValueModel
  | C_ComplexValueModel, C_ComplexValueModel
  | C_DateTimeValueModel, C_DateTimeValueModel
  | C_DateTimeIntValueModel, C_DateTimeIntValueModel
  | C_FixedValueModel, C_FixedValueModel
  | C_ListComplexValueModel, C_ListComplexValueModel
  | C_NumberBetweenValueModel, C_NumberBetweenValueModel
  | C_ListBetweenValueModel, C_ListBetweenValueModel => true
  | _, _ => false
  end.

Definition pytype_eqb (t u : pytype) : bool :=
  match t, u with
  | T_NoneType, T_NoneType | T_bool, T_bool | T_int, T_int | T_str, T_str
  | T_list, T_list | T_dict, T_dict | T_type, T_type => true
  | T_wrapper a, T_wrapper b => wclass_eqb a b
  | T_record a, T_record b => String.eqb a b
  | _, _ => false
  end.

(** [type(v)]; [None] for a dangling reference. *)
Definition type_of (h : heap) (v : val) : option pytype :=
  match v with
  | VNone => Some T_NoneType
  | VBool _ => Some T_bool
  | VInt _ => Some T_int
  | VStr _ => Some T_str
  | VType _ => Some T_type
  | VRef a =>
      match h !! a with
      | Some (OList _) => Some T_list
      | Some (ODict _) => Some T_dict
      | Some (OWrapper w) => Some (T_wrapper (wclass_of w))
      | Some (ORecord c _) => Some (T_record c)
      | None => None
      end
  end.

(** [issubclass(t, u)]: [bool] derives from [int], wrapper classes follow
    [wclass_mro], record classes follow the [mro] of their definition. *)
Definition issubclass (cs : list (cname * class_def)) (t u : pytype) : bool :=
  pytype_eqb t u ||
  match t, u with
  | T_bool, T_int => true
  | T_wrapper a, T_wrapper b => existsb (wclass_eqb b) (wclass_mro a)
  | T_record a, T_record b =>
      match dict_get a cs with
      | Some c => existsb (String.eqb b) (mro c)
      | None => false
      end
  | _, _ => false
  end.

Definition typeof (v : val) : M state pytype :=
  fun st =>
    match type_of (store st) v with
    | Some t => (Ok t, st)
    | None => (Beyond, st)
    end.

(** [isinstance(v, u)] *)
Definition isinstance (v : val) (u : pytype) : M state bool :=
  fun st =>
    match type_of (store st) v with
    | Some t => (Ok (issubclass (classes st) t u), st)
    | None => (Beyond, st)
    end.

Definition T_BaseDataModel : pytype := T_record "BaseDataModel".
Definition T_BaseMGDBDataModel : pytype := T_record "BaseMGDBDataModel".
Definition T_LimitedValueModel : pytype := T_wrapper C_LimitedValueModel.
Definition T_BaseValueModel : pytype := T_wrapper C_BaseValueModel.

Definition str_nonempty (s : string) : bool :=
  match s with EmptyString => false | _ => true end.

Definition nonempty {A} (l : list A) : bool :=
  match l with [] => false | _ => true end.

(** [bool(v)].  A wrapper below [LimitedValueModel] answers through its
    [__bool__] proxy, which the model does not follow. *)
Definition truthy (h : heap) (v : val) : option bool :=
  match v with
  | VNone => Some false
  | VBool b => Some b
  | VInt z => Some (negb (z =? 0)%Z)
  | VStr s => Some (str_nonempty s)
  | VType _ => Some true
  | VRef a =>
      match h !! a with
      | Some (OList l) => Some (nonempty l)
      | Some (ODict d) => Some (nonempty d)
      | Some (ORecord _ _) => Some true
      | Some (OWrapper BaseValueModel) | Some (OWrapper BaseDBValueModel) =>
          Some true
      | Some (OWrapper _) => None
      | None => None
      end
  end.

Definition py_bool (v : val) : M state bool :=
  fun st =>
    match truthy (store st) v with
    | Some b => (Ok b, st)
    | None => (Beyond, st)
    end.

(** The number a value stands for in arithmetic comparisons. *)
Definition as_number (v : val) : option Z :=
  match v with
  | VInt z => Some z
  | VBool b => Some (if b then 1%Z else 0%Z)
  | _ => None
  end.

Definition is_proxy (h : heap) (a : addr) : option bool :=
  match h !! a with
  | Some (OWrapper w) =>
      Some (existsb (wclass_eqb C_LimitedValueModel) (wclass_mro (wclass_of w)))
  | Some _ => Some false
  | None => None
  end.

(** [x == y].  Numbers compare by value, strings and classes by equality,
    record instances by identity.  Structural equality of two distinct
    containers and the [__eq__] proxy of the wrappers are not followed. *)
Definition py_eq (h : heap) (x y : val) : option bool :=
  match x, y with
  | VNone, VNone => Some true
  | VStr a, VStr b => Some (String.eqb a b)
  | VType a, VType b => Some (pytype_eqb a b)
  | VRef a, VRef b =>
      match h !! a, h !! b with
      | Some (ORecord _ _), Some (ORecord _ _) => Some (Nat.eqb a b)
      | Some (ORecord _ _), Some (OList _ | ODict _)
      | Some (OList _ | ODict _), Some (ORecord _ _)
      | Some (OList _), Some (ODict _)
      | Some (ODict _), Some (OList _) => Some false
      | _, _ => None
      end
  | VRef a, _ | _, VRef a =>
      match is_proxy h a with
      | Some false => Some false
      | _ => None
      end
  | _, _ =>
      match as_number x, as_number y with
      | Some a, Some b => Some (a =? b)%Z
      | _, _ => Some false
      end
  end.

Definition val_is (x y : val) : bool :=
  match x, y with
  | VNone, VNone => true
  | VRef a, VRef b => Nat.eqb a b
  | VType a, VType b => pytype_eqb a b
  | _, _ => false
  end.

(** [x in l] for a list [l]: identity first, then [==], element by element. *)
Fixpoint py_in (h : heap) (x : val) (l : list val) : option bool :=
  match l with
  | [] => Some false
  | e :: r =>
      if val_is e x then Some true
      else match py_eq h e x with
           | Some true => Some true
           | Some false => py_in h x r
           | None => None
           end
  end.

(** [lo <= value] against an integer bound. *)
Definition le_bound (lo : Z) (value : val) : M state bool :=
  fun st =>
    match as_number value with
    | Some z => (Ok (lo <=? z)%Z, st)
    | None =>
        match value with
        | VRef a =>
            match is_proxy (store st) a with
            | Some false => (Raise TypeError, st)
            | _ => (Beyond, st)
            end
        | _ => (Raise TypeError, st)
        end
    end.

(** [value <= hi] against an integer bound. *)
Definition ge_bound (value : val) (hi : Z) : M state bool :=
  fun st =>
    match as_number value with
    | Some z => (Ok (z <=? hi)%Z, st)
    | None =>
        match value with
        | VRef a =>
            match is_proxy (store st) a with
            | Some false => (Raise TypeError, st)
            | _ => (Beyond, st)
            end
        | _ => (Raise TypeError, st)
        end
    end.

(** ** The value wrappers: [apply] *)

(** [self.default_value = v] on an instance of a class below
    [LimitedValueModel]. *)
Definition set_default_value (w : wrapper) (v : val) : wrapper :=
  match w with
  | BaseValueModel => BaseValueModel
  | BaseDBValueModel => BaseDBValueModel
  | LimitedValueModel _ => LimitedValueModel v
  | BetweenValueModel _ => BetweenValueModel v
  | ComplexValueModel _ r => ComplexValueModel v r
  | DateTimeValueModel f _ r => DateTimeValueModel f v r
  | DateTimeIntValueModel _ r => DateTimeIntValueModel v r
  | FixedValueModel _ r c => FixedValueModel v r c
  | ListComplexValueModel _ r n c s => ListComplexValueModel v r n c s
  | NumberBetweenValueModel _ lo hi => NumberBetweenValueModel v lo hi
  | ListBetweenValueModel _ l => ListBetweenValueModel v l
  end.

(** [value in self.value_list] *)
Definition contains (value : val) (l : list val) : M state bool :=
  fun st =>
    match py_in (store st) value l with
    | Some b => (Ok b, st)
    | None => (Beyond, st)
    end.

(** [lst.append(value)] on the list object that [lst] refers to. *)
Definition list_append (lst : val) (value : val) : M state unit :=
  match lst with
  | VRef l =>
      let* o := deref l in
      match o with
      | OList items => put l (OList (items ++ [value]))
      | _ => beyond
      end
  | _ => beyond
  end.

(** [LimitedValueModel.apply], inherited by every class that does not
    override it. *)
Definition LimitedValueModel_apply (a : addr) (w : wrapper) (value : val)
  : M state val :=
  put a (OWrapper (set_default_value w value));;
  ret value.

(** [NumberBetweenValueModel.apply]:
    [if self.min <= value <= self.min: ... else: raise ValueError]. *)
Definition NumberBetweenValueModel_apply (a : addr) (w : wrapper)
  (min max : Z) (value : val) : M state val :=
  let* lower := le_bound min value in
  let* inside := (if lower then ge_bound value min else ret false) in
  if inside then
    put a (OWrapper (set_default_value w value));;
    ret value
  else raise ValueError.

(** [ListBetweenValueModel.apply] *)
Definition ListBetweenValueModel_apply (a : addr) (default_value : val)
  (value_list : list val) (value : val) : M state val :=
  let* allowed :=
    (if nonempty value_list then contains value value_list else ret false) in
  if allowed then
    let* is_list := isinstance default_value T_list in
    (if is_list then list_append default_value value
     else
       let* l := alloc (OList [value]) in
       put a (OWrapper (ListBetweenValueModel (VRef l) value_list)));;
    ret value
  else raise ValueError.

(** [DateTimeValueModel.apply] and [DateTimeIntValueModel.apply]: no value
    of the model is a [datetime]; a [str] is parsed with [strptime], which
    is not embedded; anything else runs [raise NotImplemented(...)]. *)
Definition DateTime_apply (value : val) : M state val :=
  match value with
  | VStr _ => beyond
  | _ => raise TypeError
  end.

(** [w.apply(value)] for the wrapper stored at [a], by the class of [w].
    [raise NotImplemented(...)] is a [TypeError], because [NotImplemented]
    is not callable. *)
Definition wrapper_apply (a : addr) (value : val) : M state val :=
  let* o := deref a in
  match o with
  | OWrapper w =>
      log (CallApply a value);;
      match w with
      | BaseValueModel | BaseDBValueModel => raise TypeError
      | NumberBetweenValueModel _ min max =>
          NumberBetweenValueModel_apply a w min max value
      | ListBetweenValueModel d l => ListBetweenValueModel_apply a d l value
      | DateTimeValueModel _ _ _ | DateTimeIntValueModel _ _ =>
          DateTime_apply value
      | LimitedValueModel _ | BetweenValueModel _ | ComplexValueModel _ _
      | FixedValueModel _ _ _ | ListComplexValueModel _ _ _ _ _ =>
          LimitedValueModel_apply a w value
      end
  | OList _ | ODict _ => raise AttributeError
  | ORecord _ _ => beyond
  end.

(** [target.apply(value)] for an arbitrary receiver. *)
Definition call_apply (target : val) (value : val) : M state val :=
  match target with
  | VRef a => wrapper_apply a value
  | VType _ => beyond
  | _ => raise AttributeError
  end.

(** ** [copy.deepcopy] *)

Definition memo := list (addr * addr).

Fixpoint memo_get (a : addr) (m : memo) : option addr :=
  match m with
  | [] => None
  | (x, y) :: r => if Nat.eqb a x then Some y else memo_get a r
  end.

Fixpoint copy_vals (rec : val -> memo -> M heap (val * memo))
  (l : list val) (m : memo) : M heap (list val * memo) :=
  match l with
  | [] => ret ([], m)
  | x :: r =>
      let* (x', m1) := rec x m in
      let* (r', m2) := copy_vals rec r m1 in
      ret (x' :: r', m2)
  end.

Fixpoint copy_items (rec : val -> memo -> M heap (val * memo))
  (l : list (string * val)) (m : memo) : M heap (list (string * val) * memo) :=
  match l with
  | [] => ret ([], m)
  | (k, x) :: r =>
      let* (x', m1) := rec x m in
      let* (r', m2) := copy_items rec r m1 in
      ret ((k, x') :: r', m2)
  end.

(** The attributes of a wrapper, copied in the order its [__init__] set
    them. *)
Definition copy_wrapper (rec : val -> memo -> M heap (val * memo))
  (w : wrapper) (m : memo) : M heap (wrapper * memo) :=
  match w with
  | BaseValueModel | BaseDBValueModel => ret (w, m)
  | ListBetweenValueModel d l =>
      let* (l', m1) := copy_vals rec l m in
      let* (d', m2) := rec d m1 in
      ret (ListBetweenValueModel d' l', m2)
  | LimitedValueModel d | BetweenValueModel d | ComplexValueModel d _
  | DateTimeValueModel _ d _ | DateTimeIntValueModel d _
  | FixedValueModel d _ _ | ListComplexValueModel d _ _ _ _
  | NumberBetweenValueModel d _ _ =>
      let* (d', m1) := rec d m in
      ret (set_default_value w d', m1)
  end.

(** [copy.deepcopy(x, memo)]: scalars and classes are returned as they are;
    an object is rebuilt at a fresh address, which the memo records before
    its contents are copied. *)
Fixpoint deepcopy (fuel : nat) (x : val) (m : memo) : M heap (val * memo) :=
  match fuel with
  | O => out_of_fuel
  | S n =>
      match x with
      | VRef a =>
          match memo_get a m with
          | Some y => ret (VRef y, m)
          | None =>
              let* o := hderef a in
              match o with
              | OList items =>
                  let* y := halloc (OList []) in
                  let* (items', m') := copy_vals (deepcopy n) items ((a, y) :: m) in
                  hstore y (OList items');;
                  ret (VRef y, m')
              | ODict items =>
                  let* y := halloc (ODict []) in
                  let* (items', m') := copy_items (deepcopy n) items ((a, y) :: m) in
                  hstore y (ODict items');;
                  ret (VRef y, m')
              | OWrapper w =>
                  let* y := halloc (OWrapper w) in
                  let* (w', m') := copy_wrapper (deepcopy n) w ((a, y) :: m) in
                  hstore y (OWrapper w');;
                  ret (VRef y, m')
              | ORecord c d =>
                  let* yd := halloc (ODict []) in
                  let* y := halloc (ORecord c yd) in
                  let* (state, m') := deepcopy n (VRef d) ((a, y) :: m) in
                  match state with
                  | VRef sd =>
                      let* so := hderef sd in
                      match so with
                      | ODict items =>
                          hstore yd (ODict items);;
                          ret (VRef y, m')
                      | _ => beyond
                      end
                  | _ => beyond
                  end
              end
          end
      | _ => ret (x, m)
      end
  end.

(** ** Record instances: the key guard, assignment and construction *)

Definition get_class (c : cname) : M state class_def :=
  fun st =>
    match dict_get c (classes st) with
    | Some cls => (Ok cls, st)
    | None => (Beyond, st)
    end.

(** [type(self)] and [self.__dict__] of a record instance. *)
Definition record_parts (self : addr) : M state (cname * addr) :=
  let* o := deref self in
  match o with
  | ORecord c d => ret (c, d)
  | _ => beyond
  end.

Definition dict_items (d : addr) : M state (list (string * val)) :=
  let* o := deref d in
  match o with
  | ODict items => ret items
  | _ => beyond
  end.

(** [_check_key_format(formatter)] over the cached [key_dirs]: a dict
    formatter must not hold a reserved key, a string formatter must not be
    one. *)
Fixpoint _check_key_format (key_dirs : list string)
  (formatter : list (string * val) + string) : M state unit :=
  match key_dirs with
  | [] => ret tt
  | _key :: r =>
      if match formatter with
         | inl d => dict_mem _key d
         | inr s => String.eqb _key s
         end
      then raise RuntimeError
      else _check_key_format r formatter
  end.

(** [object.__setattr__(self, key, value)]: a plain store into
    [self.__dict__]. *)
Definition object_setattr (self : addr) (key : string) (value : val)
  : M state unit :=
  let* (_, d) := record_parts self in
  let* items := dict_items d in
  put d (ODict (dict_set key value items)).

(** [getattr(self, key)] for a key that is not a class attribute. *)
Definition getattr (self : addr) (key : string) : M state val :=
  let* (_, d) := record_parts self in
  let* items := dict_items d in
  match dict_get key items with
  | Some v => ret v
  | None => raise AttributeError
  end.

(** [self.name] for a data attribute of the class, read as [attr] from the
    class definition.  Python looks in [self.__dict__] first: an entry
    under [name] there shadows the class attribute, and what it holds is
    not followed. *)
Definition self_attr {A} (self : addr) (name : string)
  (attr : class_def -> A) : M state A :=
  let* (c, d) := record_parts self in
  let* items := dict_items d in
  if dict_mem name items then beyond
  else
    let* cls := get_class c in
    ret (attr cls).

(** [DATA_DEFAULT_FORMAT.get(key)] *)
Definition schema_get (cls : class_def) (key : string) : val :=
  match dict_get key (DATA_DEFAULT_FORMAT cls) with
  | Some v => v
  | None => VNone
  end.

Definition is_None (v : val) : bool :=
  match v with VNone => true | _ => false end.

(** [BaseDataModel.__setattr__].  The guard runs first; [self.STRICT_MODE]
    is read next, [self.DATA_DEFAULT_FORMAT] for the membership test only
    in strict mode, and again for the descriptor. *)
Definition BaseDataModel___setattr__ (self : addr) (key : string) (value : val)
  : M state unit :=
  let* (c, _) := record_parts self in
  let* cls := get_class c in
  _check_key_format (_keys_limited cls) (inr key);;
  let* strict := self_attr self "STRICT_MODE" STRICT_MODE in
  (if strict then
     let* declared :=
       self_attr self "DATA_DEFAULT_FORMAT"
         (fun cls => dict_mem key (DATA_DEFAULT_FORMAT cls)) in
     if negb declared then raise RuntimeError else ret tt
   else ret tt);;
  let* _value :=
    self_attr self "DATA_DEFAULT_FORMAT" (fun cls => schema_get cls key) in
  if negb (is_None _value) then
    let* t_value := typeof _value in
    let* t_raw := typeof value in
    if pytype_eqb t_value t_raw then object_setattr self key value
    else
      let* of_type :=
        match _value with
        | VType t => isinstance value t
        | _ => ret false
        end in
      if of_type then object_setattr self key value
      else
        let* marker := isinstance _value T_dict in
        let* record := (if marker then isinstance value T_BaseDataModel
                        else ret false) in
        if record then object_setattr self key value
        else
          let* limited := isinstance _value T_LimitedValueModel in
          if limited then
            let* current := getattr self key in
            call_apply current value;;
            ret tt
          else
            let* wrapped := isinstance _value T_BaseValueModel in
            if wrapped then object_setattr self key value
            else ret tt
  else object_setattr self key value.

Fixpoint setattr_each (self : addr) (items : list (string * val))
  : M state unit :=
  match items with
  | [] => ret tt
  | (k, v) :: r =>
      BaseDataModel___setattr__ self k v;;
      setattr_each self r
  end.

(** [BaseDataModel.update]: assignment per key; any other argument than a
    dict is skipped. *)
Definition BaseDataModel_update (self : addr) (dict_value : val)
  : M state addr :=
  let* is_dict := isinstance dict_value T_dict in
  (if is_dict then
     match dict_value with
     | VRef d => let* items := dict_items d in setattr_each self items
     | _ => beyond
     end
   else ret tt);;
  ret self.

(** [BaseDataModel.upgrade]: straight into [self.__dict__]. *)
Definition BaseDataModel_upgrade (self : addr) (dict_value : val)
  : M state addr :=
  let* is_dict := isinstance dict_value T_dict in
  (if is_dict then
     match dict_value with
     | VRef d =>
         let* items := dict_items d in
         let* (_, sd) := record_parts self in
         let* own := dict_items sd in
         put sd (ODict (dict_update own items))
     | _ => beyond
     end
   else ret tt);;
  ret self.

(** Instantiating the class [c] with keyword overrides: the instance is
    allocated, then [BaseDataModel.__init__] guards the schema keys,
    deep-copies the schema into [self.__dict__] ([pre_new] is the identity)
    and assigns the overrides. *)
Definition BaseDataModel___init__ (fuel : nat) (c : cname)
  (kwargs : list (string * val)) : M state addr :=
  let* cls := get_class c in
  let* d := alloc (ODict []) in
  let* self := alloc (ORecord c d) in
  _check_key_format (_keys_limited cls) (inl (DATA_DEFAULT_FORMAT cls));;
  let* (data_formatter, _) :=
    lift_heap (copy_items (deepcopy fuel) (DATA_DEFAULT_FORMAT cls) []) in
  let* own := dict_items d in
  put d (ODict (dict_update own data_formatter));;
  setattr_each self kwargs;;
  ret self.

(** ** The value wrappers: [value] *)

(** [ComplexValueModel.value]: [assert self.default_value] when required. *)
Definition ComplexValueModel_value (default_value : val) (required : bool)
  : M state val :=
  (if required then let* b := py_bool default_value in assert b else ret tt);;
  ret default_value.

(** [DateTimeValueModel.value] and [DateTimeIntValueModel.value]: after the
    inherited check, a truthy stored value must be a [datetime], which no
    value of the model is; for a falsy one the clock is read, which is not
    embedded. *)
Definition DateTime_value (default_value : val) (required : bool)
  : M state val :=
  let* dt := ComplexValueModel_value default_value required in
  let* b := py_bool dt in
  if b then raise AssertionError else beyond.

(** [FixedValueModel.value] *)
Definition FixedValueModel_value (default_value : val) (required : bool)
  (value_cls : option pytype) : M state val :=
  let* tmp_value := ComplexValueModel_value default_value required in
  let* b := py_bool tmp_value in
  (if negb b then ret tt
   else match value_cls with
        | Some t => let* ok := isinstance tmp_value t in assert ok
        | None => raise TypeError
        end);;
  ret tmp_value.

(** [t()] for a class [t] called without arguments. *)
Definition instantiate (fuel : nat) (t : pytype) : M state val :=
  match t with
  | T_record c => let* a := BaseDataModel___init__ fuel c [] in ret (VRef a)
  | T_NoneType => ret VNone
  | T_bool => ret (VBool false)
  | T_int => ret (VInt 0)
  | T_str => ret (VStr "")
  | T_list => let* a := alloc (OList []) in ret (VRef a)
  | T_dict => let* a := alloc (ODict []) in ret (VRef a)
  | T_type => raise TypeError
  | T_wrapper _ => beyond
  end.

(** A [str] never equals a [list], whatever they hold. *)
Definition str_eq_list (e : string) (l : list string) : bool := false.

(** [s1 in s0] where [s0] is a list of strings and [s1] is a list: the
    membership test of Python compares [s1] with each element of [s0]. *)
Definition list_in_strings (s1 : list string) (s0 : list string) : bool :=
  existsb (fun e => str_eq_list e s1) s0.

(** The [for index, k in enumerate(tmp_value)] loop of
    [ListComplexValueModel.value].  The loop ends by exhausting the list or
    by one of the [return tmp_value] statements inside it; both ways the
    method returns [tmp_value], so the loop itself yields no value. *)
Fixpoint check_elements (fuel : nat) (value_cls : pytype)
  (support_dict_value : bool) (l : list val) : M state unit :=
  match l with
  | [] => ret tt
  | k :: r =>
      let* ok := isinstance k value_cls in
      if ok then check_elements fuel value_cls support_dict_value r
      else
        let* is_dict := isinstance k T_dict in
        let* of_record :=
          (if is_dict then
             let* inst := instantiate fuel value_cls in
             isinstance inst T_BaseDataModel
           else ret false) in
        let* returned :=
          (if of_record then
             if support_dict_value then ret true
             else
               match k, value_cls with
               | VRef ka, T_record c =>
                   let* items := dict_items ka in
                   let* cls := get_class c in
                   let s0 := sorted (dict_keys items) in
                   let s1 := sorted (dict_keys (DATA_DEFAULT_FORMAT cls)) in
                   if STRICT_MODE cls then ret (strings_eqb s0 s1)
                   else ret (list_in_strings s1 s0)
               | _, _ => beyond
               end
           else ret false) in
        if returned then ret tt else raise AssertionError
  end.

(** [ListComplexValueModel.value] *)
Definition ListComplexValueModel_value (fuel : nat) (default_value : val)
  (required need_size : bool) (value_cls : option pytype)
  (support_dict_value : bool) : M state val :=
  let* tmp_value := ComplexValueModel_value default_value required in
  let* is_list := isinstance tmp_value T_list in
  assert is_list;;
  match tmp_value with
  | VRef l =>
      let* o := deref l in
      match o with
      | OList items =>
          (if required && need_size then assert (nonempty items) else ret tt);;
          match value_cls with
          | Some t =>
              if nonempty items
              then check_elements fuel t support_dict_value items
              else ret tt
          | None => ret tt
          end;;
          ret tmp_value
      | _ => beyond
      end
  | _ => beyond
  end.

(** [w.value()] for the wrapper stored at [a], by the class of [w]. *)
Definition wrapper_value (fuel : nat) (a : addr) : M state val :=
  let* o := deref a in
  match o with
  | OWrapper w =>
      log (CallValue a);;
      match w with
      | BaseValueModel | BaseDBValueModel => raise TypeError
      | LimitedValueModel d | BetweenValueModel d
      | NumberBetweenValueModel d _ _ | ListBetweenValueModel d _ => ret d
      | ComplexValueModel d r => ComplexValueModel_value d r
      | DateTimeValueModel _ d r | DateTimeIntValueModel d r =>
          DateTime_value d r
      | FixedValueModel d r c => FixedValueModel_value d r c
      | ListComplexValueModel d r n c s =>
          ListComplexValueModel_value fuel d r n c s
      end
  | OList _ | ODict _ => raise AttributeError
  | ORecord _ _ => beyond
  end.

(** ** The validate walk *)

Fixpoint check_list (rec : string -> val -> M state unit) (k : string)
  (i : nat) (l : list val) : M state unit :=
  match l with
  | [] => ret tt
  | p :: r =>
      rec (k ++ "[" ++ str_of_nat i ++ "]")%string p;;
      check_list rec k (S i) r
  end.

Fixpoint check_items (rec : string -> val -> M state unit) (k : string)
  (l : list (string * val)) : M state unit :=
  match l with
  | [] => ret tt
  | (_k, _v) :: r =>
      rec (k ++ "." ++ _k)%string _v;;
      check_items rec k r
  end.

(** [cls._check_value(k, v)], [cls] being the class named [c].  The loops
    run over the elements the container holds when the loop starts. *)
Fixpoint _check_value (fuel : nat) (c : cname) (k : string) (v : val)
  : M state unit :=
  match fuel with
  | O => out_of_fuel
  | S n =>
      let* cls := get_class c in
      let* t := typeof v in
      if pytype_eqb t T_type then raise ValueError
      else
        let* is_record := isinstance v T_BaseDataModel in
        if is_record then
          match v with
          | VRef a =>
              let* (vc, d) := record_parts a in
              _check_value n vc (k ++ "(" ++ vc ++ ")")%string (VRef d)
          | _ => beyond
          end
        else
          let* is_list := isinstance v T_list in
          if is_list then
            match v with
            | VRef a =>
                let* o := deref a in
                match o with
                | OList items => check_list (_check_value n c) k 0 items
                | _ => beyond
                end
            | _ => beyond
            end
          else
            let* is_dict := isinstance v T_dict in
            if is_dict then
              match v with
              | VRef a =>
                  let* items := dict_items a in
                  check_items (_check_value n c) k items
              | _ => beyond
              end
            else
              let* described :=
                match dict_get k (DATA_DEFAULT_FORMAT cls) with
                | Some d => isinstance d T_BaseValueModel
                | None => ret false
                end in
              if described then
                call_apply (schema_get cls k) v;;
                ret tt
              else
                let* limited := isinstance v T_LimitedValueModel in
                if limited then
                  match v with
                  | VRef a => wrapper_value n a;; ret tt
                  | _ => beyond
                  end
                else ret tt
  end.

(** [BaseDataModel.check] *)
Definition BaseDataModel_check (fuel : nat) (self : addr) : M state addr :=
  let* (c, d) := record_parts self in
  _check_value fuel c "self" (VRef d);;
  ret self.

(** ** Loading a document *)

(** The [for k, v in self.DATA_DEFAULT_FORMAT.items()] loop of
    [load_db_data]; [rec] is the recursive [load_db_data] and [new] the
    constructor call [v()]. *)
Fixpoint load_fields (rec : addr -> val -> M state addr)
  (new : cname -> M state addr) (self : addr) (db_value : addr)
  (schema : list (string * val)) : M state unit :=
  match schema with
  | [] => ret tt
  | (k, v) :: r =>
      let* doc := dict_items db_value in
      match dict_get k doc with
      | Some sub =>
          let* nested := isinstance v T_BaseMGDBDataModel in
          if nested then
            match v with
            | VRef va =>
                let* loaded := rec va sub in
                BaseDataModel___setattr__ self k (VRef loaded)
            | _ => beyond
            end
          else if val_is v (VType T_BaseMGDBDataModel) then
            let* fresh := new "BaseMGDBDataModel" in
            let* loaded := rec fresh sub in
            BaseDataModel___setattr__ self k (VRef loaded)
          else BaseDataModel___setattr__ self k sub
      | None => ret tt
      end;;
      load_fields rec new self db_value r
  end.

(** [BaseMGDBDataModel.load_db_data]; the schema it iterates over is
    [self.DATA_DEFAULT_FORMAT], read through the instance. *)
Fixpoint BaseMGDBDataModel_load_db_data (fuel : nat) (strict_mode : bool)
  (self : addr) (db_value : val) : M state addr :=
  match fuel with
  | O => out_of_fuel
  | S n =>
      let* is_dict := isinstance db_value T_dict in
      if is_dict then
        match db_value with
        | VRef db =>
            let* schema :=
              self_attr self "DATA_DEFAULT_FORMAT" DATA_DEFAULT_FORMAT in
            load_fields (BaseMGDBDataModel_load_db_data n strict_mode)
              (fun c' => BaseDataModel___init__ n c' [])
              self db schema;;
            ret self
        | _ => beyond
        end
      else raise ValueError
  end.

(** ** The compare walk *)

(** [b.keys()] *)
Definition keys_of (b : val) : M state (list string) :=
  match b with
  | VRef a =>
      let* o := deref a in
      match o with
      | ODict items => ret (dict_keys items)
      | OList _ => raise AttributeError
      | _ => beyond
      end
  | VType _ => beyond
  | _ => raise AttributeError
  end.

(** [b[k]] for a string key *)
Definition subscript (b : val) (k : string) : M state val :=
  match b with
  | VRef a =>
      let* o := deref a in
      match o with
      | ODict items =>
          match dict_get k items with
          | Some v => ret v
          | None => raise KeyError
          end
      | _ => beyond
      end
  | _ => beyond
  end.

(** [b[i]] for a list index *)
Definition index (b : val) (i : nat) : M state val :=
  match b with
  | VRef a =>
      let* o := deref a in
      match o with
      | OList items =>
          match items !! i with
          | Some v => ret v
          | None => beyond
          end
      | _ => beyond
      end
  | _ => beyond
  end.

(** The per-key loop of [_equals] over a record or a dict [a]: [ignore]
    is the list read at each key ([a.EQUALS_IGNORE_KEYS] for a record,
    nothing for a dict); keys it lists are skipped, the first unequal field
    returns [False], and the loop falls through to [return True]. *)
Fixpoint equals_fields (rec : val -> val -> M state bool)
  (ignore : M state (list string)) (own : list (string * val)) (b : val)
  : M state bool :=
  match own with
  | [] => ret true
  | (k, v) :: r =>
      let* skipped := ignore in
      if existsb (String.eqb k) skipped then equals_fields rec ignore r b
      else
        let* bk := subscript b k in
        let* same := rec v bk in
        if same then equals_fields rec ignore r b else ret false
  end.

Fixpoint equals_elements (rec : val -> val -> M state bool) (i : nat)
  (l : list val) (b : val) : M state bool :=
  match l with
  | [] => ret true
  | v :: r =>
      let* bi := index b i in
      let* same := rec v bi in
      if same then equals_elements rec (S i) r b else ret false
  end.

Definition list_length (v : val) : M state nat :=
  match v with
  | VRef a =>
      let* o := deref a in
      match o with
      | OList items => ret (length items)
      | _ => beyond
      end
  | _ => beyond
  end.

(** [cls._equals(text, a, b)].  The [text] argument only feeds the messages
    of the assertions and is left out.  For a record [a] the ignore list is
    [a.EQUALS_IGNORE_KEYS], read through the instance inside the loop. *)
Fixpoint _equals (fuel : nat) (a b : val) : M state bool :=
  match fuel with
  | O => out_of_fuel
  | S n =>
      let* is_record := isinstance a T_BaseDataModel in
      if is_record then
        match a with
        | VRef ra =>
            let* (_, d) := record_parts ra in
            let* own := dict_items d in
            let* bkeys := keys_of b in
            assert (strings_eqb (sorted (dict_keys own)) (sorted bkeys));;
            equals_fields (_equals n)
              (self_attr ra "EQUALS_IGNORE_KEYS" EQUALS_IGNORE_KEYS) own b
        | _ => beyond
        end
      else
        let* ta := typeof a in
        let* tb := typeof b in
        assert (pytype_eqb ta tb);;
        let* is_dict := isinstance a T_dict in
        if is_dict then
          match a with
          | VRef da =>
              let* own := dict_items da in
              let* bkeys := keys_of b in
              assert (strings_eqb (sorted (dict_keys own)) (sorted bkeys));;
              equals_fields (_equals n) (ret []) own b
          | _ => beyond
          end
        else
          let* is_list := isinstance a T_list in
          if is_list then
            match a with
            | VRef la =>
                let* o := deref la in
                match o with
                | OList items =>
                    let* len_b := list_length b in
                    assert (Nat.eqb (length items) len_b);;
                    equals_elements (_equals n) 0 items b
                | _ => beyond
                end
            | _ => beyond
            end
          else
            fun st =>
              match py_eq (store st) a b with
              | Some r => (Ok r, st)
              | None => (Beyond, st)
              end
  end.

(** [BaseDataModel.equals] *)
Definition BaseDataModel_equals (fuel : nat) (self : addr) (data : val)
  : M state bool :=
  let* is_dict := isinstance data T_dict in
  assert is_dict;;
  _equals fuel (VRef self) data.

(** ** Observations on states *)

(** The value a record instance holds under [key]. *)
Definition field (st : state) (self : addr) (key : string) : option val :=
  match store st !! self with
  | Some (ORecord _ d) =>
      match store st !! d with
      | Some (ODict items) => dict_get key items
      | _ => None
      end
  | _ => None
  end.

(** The list a [ListBetweenValueModel] has accumulated, when its stored
    value is a list. *)
Definition accumulated (st : state) (a : addr) : option (list val) :=
  match store st !! a with
  | Some (OWrapper (ListBetweenValueModel (VRef l) _)) =>
      match store st !! l with
      | Some (OList items) => Some items
      | _ => None
      end
  | _ => None
  end.

(** What the next successful [apply] appends to: the stored list, or
    nothing when the stored value is not a list. *)
Definition prior (st : state) (a : addr) : list val :=
  match accumulated st a with
  | Some items => items
  | None => []
  end.

(** The descriptor a class declares for [key]. *)
Definition declared (st : state) (c : cname) (key : string) : option val :=
  match dict_get c (classes st) with
  | Some cls => dict_get key (DATA_DEFAULT_FORMAT cls)
  | None => None
  end.

Definition is_apply (e : event) : bool :=
  match e with CallApply _ _ => true | CallValue _ => false end.

(** The [apply] calls of a call log. *)
Definition applies (l : list event) : list event := List.filter is_apply l.

(** Whether [k] is a schema key of [cls] bound to a wrapper instance: the
    condition of the [apply] branch of [_check_value]. *)
Definition schema_wrapper_at (st : state) (cls : class_def) (k : string)
  : option bool :=
  match dict_get k (DATA_DEFAULT_FORMAT cls) with
  | Some d =>
      match type_of (store st) d with
      | Some t => Some (issubclass (classes st) t T_BaseValueModel)
      | None => None
      end
  | None => Some false
  end.

(** [s.startswith(p)] *)
Fixpoint starts_with (p s : string) : bool :=
  match p with
  | EmptyString => true
  | String a p' =>
      match s with
      | String b s' => Ascii.eqb a b && starts_with p' s'
      | EmptyString => false
      end
  end.

(** No class declares a schema key that starts with [self], the shape of
    the paths built by the validate walk. *)
Definition no_self_keys (cs : list (cname * class_def)) : bool :=
  forallb
    (fun entry =>
       forallb (fun kv => negb (starts_with "self" (fst kv)))
         (DATA_DEFAULT_FORMAT (snd entry)))
    cs.

(** No class declares a schema key that starts with [self.], the shape of
    every path that the validate walk builds below its root. *)
Definition no_path_keys (cs : list (cname * class_def)) : bool :=
  forallb
    (fun entry =>
       forallb (fun kv => negb (starts_with "self." (fst kv)))
         (DATA_DEFAULT_FORMAT (snd entry)))
    cs.

(** A computation is calm over the class table [cs] when it leaves the
    table alone and adds no [apply] call to the log. *)
Definition calm {A} (cs : list (cname * class_def)) (c : M state A) : Prop :=
  forall st,
    classes st = cs ->
    classes (snd (c st)) = cs /\
    applies (calls (snd (c st))) = applies (calls st).

(** A heap computation stays above [base] when it leaves every object
    below that address as it was (and removes nothing). *)
Definition below {A} (base : nat) (c : M heap A) : Prop :=
  forall h,
    base <= length h ->
    base <= length (snd (c h)) /\
    forall a, a < base -> snd (c h) !! a = h !! a.

(** The schema of [cls] passes the key guard, as [__init__] requires of
    every class that has an instance. *)
Definition schema_keys_allowed (cls : class_def) : bool :=
  forallb (fun _key => negb (dict_mem _key (DATA_DEFAULT_FORMAT cls)))
    (_keys_limited cls).

(** Values that are false under [bool] without looking at the store. *)
Definition falsy_scalar (v : val) : bool :=
  match v with
  | VNone | VBool false | VInt 0 | VStr EmptyString => true
  | _ => false
  end.

(** ** The record classes of the module *)

(** [dir(BaseDataModel)]: the names the class body defines and the ones
    inherited from [object]. *)
Definition BaseDataModel_dir : list string :=
  ["DATA_DEFAULT_FORMAT"; "EQUALS_IGNORE_KEYS"; "STRICT_MODE";
   "__class__"; "__delattr__"; "__dict__"; "__dir__"; "__doc__"; "__eq__";
   "__format__"; "__ge__"; "__getattribute__"; "__getitem__"; "__getstate__";
   "__gt__"; "__hash__"; "__init__"; "__init_subclass__"; "__le__"; "__lt__";
   "__module__"; "__ne__"; "__new__"; "__reduce__"; "__reduce_ex__";
   "__repr__"; "__setattr__"; "__setitem__"; "__sizeof__"; "__str__";
   "__subclasshook__"; "__weakref__"; "_check_key_format"; "_check_value";
   "_equals"; "_to_dict"; "check"; "default_value"; "equals"; "pre_new";
   "to_dict"; "to_json"; "update"; "upgrade"].

Definition BaseExtraDictDataModel_dir : list string :=
  BaseDataModel_dir ++ ["load_easy_data"].

Definition BaseMGDBDataModel_dir : list string :=
  BaseDataModel_dir ++ ["is_exists"; "load_db_data"; "load_easy_data"].

Definition mro_BaseDataModel : list cname := ["BaseDataModel"].
Definition mro_BaseStrictDataModel : list cname :=
  ["BaseStrictDataModel"; "BaseDataModel"].
Definition mro_BaseExtraDictDataModel : list cname :=
  ["BaseExtraDictDataModel"; "BaseDataModel"].
Definition mro_BaseDBDataModel : list cname :=
  ["BaseDBDataModel"; "BaseExtraDictDataModel"; "BaseDataModel"].
Definition mro_BaseMGDBDataModel : list cname :=
  ["BaseMGDBDataModel"; "BaseDBDataModel"; "BaseExtraDictDataModel";
   "BaseDataModel"].
Definition mro_CommDictModel : list cname := ["CommDictModel"; "BaseDataModel"].

(** A class statement [class name(base)] that sets the schema and the
    ignore list and inherits the rest. *)
Definition subclass (name : cname) (base_mro : list cname) (strict : bool)
  (dir : list string) (schema : list (string * val)) (ignore : list string)
  : cname * class_def :=
  (name,
   {| mro := name :: base_mro;
      DATA_DEFAULT_FORMAT := schema;
      STRICT_MODE := strict;
      EQUALS_IGNORE_KEYS := ignore;
      _keys_limited := dir |}).

Definition library : list (cname * class_def) :=
  [("BaseDataModel",
    {| mro := mro_BaseDataModel; DATA_DEFAULT_FORMAT := [];
       STRICT_MODE := false; EQUALS_IGNORE_KEYS := [];
       _keys_limited := BaseDataModel_dir |});
   ("BaseStrictDataModel",
    {| mro := mro_BaseStrictDataModel; DATA_DEFAULT_FORMAT := [];
       STRICT_MODE := true; EQUALS_IGNORE_KEYS := [];
       _keys_limited := BaseDataModel_dir |});
   ("BaseExtraDictDataModel",
    {| mro := mro_BaseExtraDictDataModel; DATA_DEFAULT_FORMAT := [];
       STRICT_MODE := false; EQUALS_IGNORE_KEYS := [];
       _keys_limited := BaseExtraDictDataModel_dir |});
   ("BaseDBDataModel",
    {| mro := mro_BaseDBDataModel; DATA_DEFAULT_FORMAT := [];
       STRICT_MODE := false; EQUALS_IGNORE_KEYS := [];
       _keys_limited := BaseMGDBDataModel_dir |});
   ("BaseMGDBDataModel",
    {| mro := mro_BaseMGDBDataModel; DATA_DEFAULT_FORMAT := [];
       STRICT_MODE := false; EQUALS_IGNORE_KEYS := [];
       _keys_limited := BaseMGDBDataModel_dir |});
   ("CommDictModel",
    {| mro := mro_CommDictModel; DATA_DEFAULT_FORMAT := [];
       STRICT_MODE := false; EQUALS_IGNORE_KEYS := [];
       _keys_limited := BaseDataModel_dir |})].

Definition program (user : list (cname * class_def)) (h : heap) : state :=
  {| classes := library ++ user; store := h; calls := [] |}.

(** ** Example programs *)

(** A record whose field is declared with a [BaseDBValueModel] marker. *)
Definition st_tagged : state :=
  program
    [subclass "Tagged" mro_BaseDataModel false BaseDataModel_dir
       [("w", VRef 0)] []]
    [OWrapper BaseDBValueModel].

(** A record whose schema also declares the path-shaped key ["self.x"]. *)
Definition st_shadow : state :=
  program
    [subclass "Shadow" mro_BaseDataModel false BaseDataModel_dir
       [("x", VRef 0); ("self.x", VRef 1)] []]
    [OWrapper (LimitedValueModel (VInt 1));
     OWrapper (LimitedValueModel (VInt 2))].

(** Construct an instance of [c] and validate it. *)
Definition construct_and_check (c : cname) : M state addr :=
  let* r := BaseDataModel___init__ 8 c [] in
  BaseDataModel_check 8 r.

(** An instance (address 2) of a class that declares [level] with a
    required wrapper; the instance's own wrapper is at address 3. *)
Definition st_account : state :=
  program
    [subclass "Account" mro_BaseDataModel false BaseDataModel_dir
       [("owner", VStr ""); ("level", VRef 0)] []]
    [OWrapper (ComplexValueModel VNone true);
     ODict [("owner", VStr "ann"); ("level", VRef 3)];
     ORecord "Account" 1;
     OWrapper (ComplexValueModel VNone true)].

(** [Parent] declares its field with an instance of [Child] (address 1,
    built when the class body ran); addresses 2 to 5 hold the documents
    [{"child": {"n": 1}}] and [{"child": {"n": 2}}]. *)
Definition st_family : state :=
  program
    [subclass "Child" mro_BaseMGDBDataModel false BaseMGDBDataModel_dir
       [("n", VInt 0)] [];
     subclass "Parent" mro_BaseMGDBDataModel false BaseMGDBDataModel_dir
       [("child", VRef 1)] []]
    [ODict [("n", VInt 0)]; ORecord "Child" 0;
     ODict [("n", VInt 1)]; ODict [("child", VRef 2)];
     ODict [("n", VInt 2)]; ODict [("child", VRef 4)]].

(** Two instances of [Parent], the first of which loads its document. *)
Definition family_first_load : M state (addr * addr) :=
  let* a := BaseDataModel___init__ 8 "Parent" [] in
  let* b := BaseDataModel___init__ 8 "Parent" [] in
  BaseMGDBDataModel_load_db_data 8 false a (VRef 3);;
  ret (a, b).

(** The same, after which the second instance loads its own document. *)
Definition family_both_load : M state (addr * addr) :=
  let* (a, b) := family_first_load in
  BaseMGDBDataModel_load_db_data 8 false b (VRef 5);;
  ret (a, b).

(** [Holder] declares its field with the class [Child] itself, [Generic]
    with the class [BaseMGDBDataModel]; address 1 holds the document
    [{"child": {"n": 1}}]. *)
Definition st_holder : state :=
  program
    [subclass "Child" mro_BaseMGDBDataModel false BaseMGDBDataModel_dir
       [("n", VInt 0)] [];
     subclass "Holder" mro_BaseMGDBDataModel false BaseMGDBDataModel_dir
       [("child", VType (T_record "Child"))] [];
     subclass "Generic" mro_BaseMGDBDataModel false BaseMGDBDataModel_dir
       [("child", VType T_BaseMGDBDataModel)] []]
    [ODict [("n", VInt 1)]; ODict [("child", VRef 0)]].

Definition holder_load (c : cname) : M state addr :=
  let* h := BaseDataModel___init__ 8 c [] in
  BaseMGDBDataModel_load_db_data 8 false h (VRef 1).

(** [Person] is permissive, [StrictPerson] strict, both with the schema
    [{"name": ""}].  Address 1 is the list [[{"name": "x", "extra": 1}]],
    address 5 the list [[{"name": "x"}]]; the wrappers at 2, 3, 6 and 7
    constrain them to one of the two classes. *)
Definition st_people : state :=
  program
    [subclass "Person" mro_BaseDataModel false BaseDataModel_dir
       [("name", VStr "")] [];
     subclass "StrictPerson" mro_BaseStrictDataModel true BaseDataModel_dir
       [("name", VStr "")] []]
    [ODict [("name", VStr "x"); ("extra", VInt 1)];
     OList [VRef 0];
     OWrapper (ListComplexValueModel (VRef 1) false false
                 (Some (T_record "Person")) false);
     OWrapper (ListComplexValueModel (VRef 1) false false
                 (Some (T_record "StrictPerson")) false);
     ODict [("name", VStr "x")];
     OList [VRef 4];
     OWrapper (ListComplexValueModel (VRef 5) false false
                 (Some (T_record "Person")) false);
     OWrapper (ListComplexValueModel (VRef 5) false false
                 (Some (T_record "StrictPerson")) false)].

(** [Stamped] ignores its field [ts] in comparisons.  Address 0 is the
    target [{"name": "a"}], address 1 the target [{"name": "a", "ts": 99}]. *)
Definition st_stamped : state :=
  program
    [subclass "Stamped" mro_BaseDataModel false BaseDataModel_dir
       [("name", VStr ""); ("ts", VInt 0)] ["ts"]]
    [ODict [("name", VStr "a")];
     ODict [("name", VStr "a"); ("ts", VInt 99)]].

Definition stamped_equals (target : addr) : M state bool :=
  let* r := BaseDataModel___init__ 8 "Stamped"
              [("name", VStr "a"); ("ts", VInt 5)] in
  BaseDataModel_equals 8 r (VRef target).

(** The same class with an instance at address 1, whose [ts] differs from
    the one of the target at address 2. *)
Definition st_stamped_instance : state :=
  program
    [subclass "Stamped" mro_BaseDataModel false BaseDataModel_dir
       [("name", VStr ""); ("ts", VInt 0)] ["ts"]]
    [ODict [("name", VStr "a"); ("ts", VInt 5)]; ORecord "Stamped" 0;
     ODict [("ts", VInt 99); ("name", VStr "a")]].

(** An instance (address 1) of a permissive class with the schema
    [{"name": "", "age": 0}]. *)
Definition st_person : state :=
  program
    [subclass "Person" mro_BaseDataModel false BaseDataModel_dir
       [("name", VStr ""); ("age", VInt 0)] []]
    [ODict [("name", VStr "ann"); ("age", VInt 30)]; ORecord "Person" 0].

(** Two strict classes, one declaring [x] with [None], one not declaring
    it, with an instance of each (addresses 1 and 3). *)
Definition st_strict : state :=
  program
    [subclass "Declared" mro_BaseStrictDataModel true BaseDataModel_dir
       [("x", VNone)] [];
     subclass "Bare" mro_BaseStrictDataModel true BaseDataModel_dir
       [] []]
    [ODict [("x", VNone)]; ORecord "Declared" 0;
     ODict []; ORecord "Bare" 2].

(** A permissive class that declares [x] with [None], with an instance at
    address 1, and the same program with a class body that does not
    declare [x]. *)
Definition st_loose : state :=
  program
    [subclass "Loose" mro_BaseDataModel false BaseDataModel_dir
       [("x", VNone)] []]
    [ODict [("x", VNone)]; ORecord "Loose" 0].

Definition st_loose_undeclared : state :=
  program
    [subclass "Loose" mro_BaseDataModel false BaseDataModel_dir [] []]
    [ODict [("x", VNone)]; ORecord "Loose" 0].

(** A range wrapper with bounds 0 and 10. *)
Definition st_range : state :=
  program [] [OWrapper (NumberBetweenValueModel (VInt 0) 0 10)].

(** A required and an optional [ComplexValueModel]. *)
Definition st_required : state :=
  program [] [OWrapper (ComplexValueModel VNone true);
              OWrapper (ComplexValueModel VNone false)].

(** An enumeration wrapper created with [None], and one created with the
    list [[7]] (address 1). *)
Definition st_enum : state :=
  program []
    [OWrapper (ListBetweenValueModel VNone [VInt 1; VInt 2; VInt 3]);
     OList [VInt 7];
     OWrapper (ListBetweenValueModel (VRef 1) [VInt 1; VInt 2; VInt 3])].

(** Three successive calls of [apply] on one wrapper, with what they
    returned. *)
Definition apply3 (a : addr) (v1 v2 v3 : val) : M state (list val) :=
  let* r1 := wrapper_apply a v1 in
  let* r2 := wrapper_apply a v2 in
  let* r3 := wrapper_apply a v3 in
  ret [r1; r2; r3].

(** ** Further methods of the module *)

(** The attribute names each class statement of the module defines;
    [BaseDataModel_dir] also lists what [object] provides. *)
Definition defined_names (c : cname) : list string :=
  if String.eqb c "BaseDataModel" then BaseDataModel_dir
  else if String.eqb c "BaseExtraDictDataModel" then ["load_easy_data"]
  else if String.eqb c "BaseDBDataModel" then ["is_exists"; "load_db_data"]
  else if String.eqb c "BaseMGDBDataModel" then ["load_db_data"]
  else [].

(** Whether [item] is an attribute of the class or of one of its bases,
    [_keys_limited] (set by the key guard) included. *)
Definition class_attribute (cls : class_def) (item : string) : bool :=
  existsb (fun c => existsb (String.eqb item) (defined_names c)) (mro cls)
  || String.eqb item "_keys_limited".

(** [BaseDataModel.__setitem__]: [setattr(self, key, value)]. *)
Definition BaseDataModel___setitem__ (self : addr) (key : string) (value : val)
  : M state unit :=
  BaseDataModel___setattr__ self key value.

(** [BaseDataModel.__getitem__]: [getattr(self, item)].  A name of the class
    answers with a method or a class attribute, which the model does not
    follow; any other name is looked up in [self.__dict__]. *)
Definition BaseDataModel___getitem__ (self : addr) (item : string)
  : M state val :=
  let* (c, d) := record_parts self in
  let* cls := get_class c in
  if class_attribute cls item then beyond
  else
    let* items := dict_items d in
    match dict_get item items with
    | Some v => ret v
    | None => raise AttributeError
    end.

(** [BaseExtraDictDataModel.load_easy_data] *)
Definition BaseExtraDictDataModel_load_easy_data (self : addr) (db_dict : val)
  : M state val :=
  let* is_dict := isinstance db_dict T_dict in
  if is_dict then
    BaseDataModel_update self db_dict;;
    ret (VRef self)
  else ret VNone.

(** [try: ... except AssertionError: raise ValueError(...)] *)
Definition catch_AssertionError {A} (c : M state A) : M state A :=
  fun st =>
    match c st with
    | (Raise AssertionError, st') => (Raise ValueError, st')
    | r => r
    end.

(** The list loop of [_to_dict]: [tmp.append(cls._to_dict(..., p))]. *)
Fixpoint export_list (rec : val -> M state val) (tmp : addr) (l : list val)
  : M state unit :=
  match l with
  | [] => ret tt
  | p :: r =>
      let* x := rec p in
      list_append (VRef tmp) x;;
      export_list rec tmp r
  end.

(** The dict loop of [_to_dict]: [tmp[_k] = cls._to_dict(..., _v)]. *)
Fixpoint export_items (rec : val -> M state val) (tmp : addr)
  (l : list (string * val)) : M state unit :=
  match l with
  | [] => ret tt
  | (_k, _v) :: r =>
      let* x := rec _v in
      let* cur := dict_items tmp in
      put tmp (ODict (dict_set _k x cur));;
      export_items rec tmp r
  end.

(** [cls._to_dict(k, v)].  The path [k] only feeds the messages of the
    errors and is left out, and with it the class, which the body uses for
    nothing else. *)
Fixpoint _to_dict (fuel : nat) (v : val) : M state val :=
  match fuel with
  | O => out_of_fuel
  | S n =>
      let* t := typeof v in
      if pytype_eqb t T_type then raise ValueError
      else
        catch_AssertionError
          (let* is_record := isinstance v T_BaseDataModel in
           if is_record then
             match v with
             | VRef a =>
                 let* (_, d) := record_parts a in
                 _to_dict n (VRef d)
             | _ => beyond
             end
           else
             let* is_list := isinstance v T_list in
             if is_list then
               match v with
               | VRef a =>
                   let* o := deref a in
                   match o with
                   | OList items =>
                       let* tmp := alloc (OList []) in
                       export_list (_to_dict n) tmp items;;
                       ret (VRef tmp)
                   | _ => beyond
                   end
               | _ => beyond
               end
             else
               let* is_dict := isinstance v T_dict in
               if is_dict then
                 match v with
                 | VRef a =>
                     let* items := dict_items a in
                     let* tmp := alloc (ODict []) in
                     export_items (_to_dict n) tmp items;;
                     ret (VRef tmp)
                 | _ => beyond
                 end
               else
                 let* wrapped := isinstance v T_BaseValueModel in
                 if wrapped then
                   match v with
                   | VRef a =>
                       let* x := wrapper_value n a in
                       _to_dict n x
                   | _ => beyond
                   end
                 else ret v)
  end.

(** [BaseDataModel.to_dict] *)
Definition BaseDataModel_to_dict (fuel : nat) (self : addr) : M state val :=
  let* (_, d) := record_parts self in
  _to_dict fuel (VRef d).

(** The dict loop of [default_value]: [value[k] = cls.default_value(v)]. *)
Fixpoint default_items (rec : val -> M state val) (d : addr)
  (l : list (string * val)) : M state unit :=
  match l with
  | [] => ret tt
  | (k, v) :: r =>
      let* x := rec v in
      let* cur := dict_items d in
      put d (ODict (dict_set k x cur));;
      default_items rec d r
  end.

(** [BaseDataModel.default_value].  Every test has the form
    [isinstance(value, T) or isinstance(value, T.__class__)], and
    [T.__class__] is [type] for each of the built-in classes, so a class
    object is caught by the first test.  The [float] and [datetime]
    branches concern values that are not embedded. *)
Fixpoint default_value (fuel : nat) (value : val) : M state val :=
  match fuel with
  | O => out_of_fuel
  | S n =>
      let* is_str := isinstance value T_str in
      let* is_class := isinstance value T_type in
      if is_str || is_class then ret (VStr "")
      else
        let* is_list := isinstance value T_list in
        if is_list then
          let* a := alloc (OList []) in
          ret (VRef a)
        else
          let* is_dict := isinstance value T_dict in
          if is_dict then
            match value with
            | VRef d =>
                let* items := dict_items d in
                default_items (default_value n) d items;;
                ret value
            | _ => beyond
            end
          else
            let* is_int := isinstance value T_int in
            if is_int then ret (VInt 0)
            else
              let* wrapped := isinstance value T_BaseValueModel in
              if wrapped then
                match value with
                | VRef a => wrapper_value n a
                | _ => beyond
                end
              else ret VNone
  end.

(** ** Further notions for statements *)

(** [None], a [bool], an [int] or a [str]. *)
Definition plain_scalar (v : val) : bool :=
  match v with
  | VNone | VBool _ | VInt _ | VStr _ => true
  | VType _ | VRef _ => false
  end.

(** Anything but a reference to an object of the store. *)
Definition immediate (v : val) : bool :=
  match v with
  | VRef _ => false
  | _ => true
  end.

(** What [default_value] makes of an immediate value. *)
Definition scalar_default (v : val) : val :=
  match v with
  | VStr _ | VType _ => VStr ""
  | VBool _ | VInt _ => VInt 0
  | _ => VNone
  end.

(** A computation is quiet over the class table [cs] and above [base] when
    it leaves the table alone, adds no [apply] call to the log, and leaves
    every object below [base] as it was (and removes nothing). *)
Definition quiet {A} (cs : list (cname * class_def)) (base : nat)
  (c : M state A) : Prop :=
  forall st,
    classes st = cs ->
    base <= length (store st) ->
    classes (snd (c st)) = cs /\
    applies (calls (snd (c st))) = applies (calls st) /\
    base <= length (store (snd (c st))) /\
    forall a, a < base -> store (snd (c st)) !! a = store st !! a.

(** A computation is read-only when it returns the state it was given. *)
Definition read_only {A} (c : M state A) : Prop :=
  forall st, snd (c st) = st.

(** ** Further example programs and notions *)

(** A class whose schema declares a field under the name of a method. *)
Definition st_clash : state :=
  program
    [subclass "Clash" mro_BaseDataModel false BaseDataModel_dir
       [("update", VInt 0)] []]
    [].

(** Two [FixedValueModel] wrappers that require an [int], one holding the
    empty string and one the string ["a"], and one created without
    [value_cls] that holds the string ["a"]. *)
Definition st_fixed : state :=
  program []
    [OWrapper (FixedValueModel (VStr "") false (Some T_int));
     OWrapper (FixedValueModel (VStr "a") false (Some T_int));
     OWrapper (FixedValueModel (VStr "a") false None)].

(** The list [[1, True]] under a required wrapper that constrains its
    elements to [int]. *)
Definition st_numbers : state :=
  program []
    [OList [VInt 1; VBool true];
     OWrapper (ListComplexValueModel (VRef 0) true true (Some T_int) false)].

(** The state after [self.__dict__[key] = value], where [d] is the address
    of [self.__dict__] and [items] what it held. *)
Definition stored (st : state) (d : addr) (items : list (string * val))
  (key : string) (value : val) : state :=
  set_store st (<[d:=ODict (dict_set key value items)]> (store st)).

(** Whether an outcome is a raised [AssertionError]. *)
Definition is_AssertionError {A} (r : outcome A) : bool :=
  match r with
  | Raise AssertionError => true
  | _ => false
  end.

(** A value that does not refer to an object below [base]. *)
Definition fresh_val (base : nat) (v : val) : bool :=
  match v with
  | VRef a => Nat.leb base a
  | _ => true
  end.

(** A memo whose copies all live at or above [base]. *)
Definition memo_fresh (base : nat) (m : memo) : Prop :=
  Forall (fun p => base <= snd p) m.

(** A heap computation started on a heap of at least [base] objects ends
    on such a heap, and a result it returns satisfies [P]. *)
Definition yields {A} (base : nat) (P : A -> Prop) (c : M heap A) : Prop :=
  forall h,
    base <= length h ->
    base <= length (snd (c h)) /\
    match fst (c h) with
    | Ok x => P x
    | _ => True
    end.

(** What a copy returns: a value that is fresh, and a memo that is. *)
Definition copied (base : nat) (r : val * memo) : Prop :=
  fresh_val base (fst r) = true /\ memo_fresh base (snd r).

(** A dict that holds a string, an integer, the class [list], a boolean
    and [None]. *)
Definition st_defaults : state :=
  program []
    [ODict [("name", VStr "ann"); ("age", VInt 30); ("kind", VType T_list);
            ("flag", VBool true); ("none", VNone)]].

(** A strict class that declares [x], an instance of it (address 1), and
    the dict [{"x": 5, "y": 6, "z": 7}] whose second key is not
    declared. *)
Definition st_partial : state :=
  program
    [subclass "Pair" mro_BaseStrictDataModel true BaseDataModel_dir
       [("x", VNone)] []]
    [ODict [("x", VNone)]; ORecord "Pair" 0;
     ODict [("x", VInt 5); ("y", VInt 6); ("z", VInt 7)]].

(** * Properties *)

(** Unfold the monad and the state readers, leaving lookups in place for
    rewriting with hypotheses. *)
Ltac run :=
  cbv beta iota delta
    [bind ret raise beyond out_of_fuel assert deref get_class record_parts
     dict_items typeof isinstance py_bool put alloc log object_setattr
     getattr contains self_attr].

(** ** Basic facts about the store and the key guard *)

Lemma lookup_put_same (h : heap) (a : addr) (o o' : obj) :
  h !! a = Some o -> <[a:=o']> h !! a = Some o'.
Proof.
  intros H. apply list_lookup_insert_eq. eapply lookup_lt_Some; eauto.
Qed.

Lemma lookup_put_other (h : heap) (a b : addr) (o' : obj) :
  a <> b -> <[a:=o']> h !! b = h !! b.
Proof. intros H. by apply list_lookup_insert_ne. Qed.

Lemma length_put (h : heap) (a : addr) (o' : obj) :
  length (<[a:=o']> h) = length h.
Proof. apply length_insert. Qed.

Lemma lookup_alloc_old (h : heap) (a : addr) (o o' : obj) :
  h !! a = Some o -> (h ++ [o']) !! a = Some o.
Proof. intros H. by apply lookup_app_l_Some. Qed.

Lemma lookup_alloc_new (h : heap) (o' : obj) :
  (h ++ [o']) !! length h = Some o'.
Proof. rewrite lookup_app_r by lia. by rewrite Nat.sub_diag. Qed.

(** A key of a schema that passed the guard is not a reserved name. *)
Lemma guard_passes_key (key_dirs : list string) (d : list (string * val))
  (key : string) (st : state) :
  forallb (fun _key => negb (dict_mem _key d)) key_dirs = true ->
  dict_mem key d = true ->
  _check_key_format key_dirs (inr key) st = (Ok tt, st).
Proof.
  intros Hall Hmem. induction key_dirs as [|k r IH]; simpl in *; [reflexivity|].
  apply andb_prop in Hall as [Hk Hr].
  destruct (String.eqb k key) eqn:E.
  - apply String.eqb_eq in E. subst k. rewrite Hmem in Hk. discriminate.
  - auto.
Qed.

Lemma dict_get_mem {A} (k : string) (d : list (string * A)) (v : A) :
  dict_get k d = Some v -> dict_mem k d = true.
Proof. unfold dict_mem. intros ->. reflexivity. Qed.

Lemma check_key_format_state (key_dirs : list string)
  (formatter : list (string * val) + string) (st : state) :
  snd (_check_key_format key_dirs formatter st) = st.
Proof.
  induction key_dirs as [|k r IH]; simpl; [reflexivity|].
  destruct (match formatter with
            | inl d => dict_mem k d
            | inr s => String.eqb k s
            end); [reflexivity | exact IH].
Qed.

Lemma check_key_format_reserved (key_dirs : list string) (key : string)
  (st : state) :
  existsb (String.eqb key) key_dirs = true ->
  _check_key_format key_dirs (inr key) st = (Raise RuntimeError, st).
Proof.
  induction key_dirs as [|k r IH]; simpl; [discriminate|].
  rewrite (String.eqb_sym key k). destruct (String.eqb k key); simpl; auto.
Qed.

Lemma check_key_format_free (key_dirs : list string) (key : string)
  (st : state) :
  existsb (String.eqb key) key_dirs = false ->
  _check_key_format key_dirs (inr key) st = (Ok tt, st).
Proof.
  induction key_dirs as [|k r IH]; simpl; [reflexivity|].
  rewrite (String.eqb_sym key k). destruct (String.eqb k key); simpl; auto.
  discriminate.
Qed.

Lemma bind_ok {A B} (c : M state A) (k : A -> M state B) (x : A)
  (st st' : state) :
  c st = (Ok x, st') -> bind c k st = k x st'.
Proof. intros H. unfold bind. by rewrite H. Qed.

(** ** Range wrapper *)

(** The range test lets the lower bound through: [apply(min)] stores and
    returns it. *)
Lemma NumberBetweenValueModel_apply_accepts_min (st : state) (a : addr)
  (d : val) (lo hi : Z) :
  store st !! a = Some (OWrapper (NumberBetweenValueModel d lo hi)) ->
  wrapper_apply a (VInt lo) st =
    (Ok (VInt lo),
     {| classes := classes st;
        store := <[a:=OWrapper (NumberBetweenValueModel (VInt lo) lo hi)]>
                   (store st);
        calls := CallApply a (VInt lo) :: calls st |}).
Proof.
  intros Ha. unfold wrapper_apply, bind, deref. rewrite Ha. simpl.
  unfold NumberBetweenValueModel_apply, bind, le_bound, ge_bound. simpl.
  rewrite Z.leb_refl. reflexivity.
Qed.

(** A wrapper with bounds 0 and 10 accepts 0. *)
Lemma NumberBetweenValueModel_apply_accepts_min_witness :
  wrapper_apply 0 (VInt 0) st_range =
    (Ok (VInt 0),
     {| classes := classes st_range;
        store := <[0:=OWrapper (NumberBetweenValueModel (VInt 0) 0 10)]>
                   (store st_range);
        calls := CallApply 0 (VInt 0) :: calls st_range |}).
Proof.
  apply (NumberBetweenValueModel_apply_accepts_min st_range 0 (VInt 0) 0 10).
  reflexivity.
Defined.

(** C3 (code defect).  The claim is that [apply(v)] succeeds for every [v]
    strictly between the bounds.  [NumberBetweenValueModel.apply] tests
    [self.min <= value <= self.min], so for every wrapper and every integer
    [v] with [min < v < max] it raises [ValueError] and stores nothing. *)
Theorem NumberBetweenValueModel_apply_inside_raises (st : state) (a : addr)
  (d : val) (lo hi v : Z) :
  store st !! a = Some (OWrapper (NumberBetweenValueModel d lo hi)) ->
  (lo < v)%Z -> (v < hi)%Z ->
  wrapper_apply a (VInt v) st =
    (Raise ValueError,
     {| classes := classes st; store := store st;
        calls := CallApply a (VInt v) :: calls st |}).
Proof.
  intros Ha Hlo Hhi. unfold wrapper_apply, bind, deref. rewrite Ha. simpl.
  unfold NumberBetweenValueModel_apply, bind, le_bound, ge_bound. simpl.
  destruct (Z.leb_spec lo v); [|lia].
  destruct (Z.leb_spec v lo); [lia|]. reflexivity.
Qed.

(** With bounds 0 and 10, [apply(5)] raises. *)
Lemma NumberBetweenValueModel_apply_inside_raises_witness :
  wrapper_apply 0 (VInt 5) st_range =
    (Raise ValueError,
     {| classes := classes st_range; store := store st_range;
        calls := CallApply 0 (VInt 5) :: calls st_range |}).
Proof.
  apply (NumberBetweenValueModel_apply_inside_raises st_range 0 (VInt 0) 0 10 5);
    [reflexivity | lia | lia].
Defined.

(** ** Required wrapper *)

Lemma falsy_scalar_truthy (h : heap) (v : val) :
  falsy_scalar v = true -> truthy h v = Some false.
Proof.
  destruct v as [| [|] | [| |] | [|] | |]; simpl; intros H;
    try discriminate; reflexivity.
Qed.

(** C8.  For a [ComplexValueModel], [apply(0)] stores 0 and returns it;
    [value()] then raises [AssertionError] when [required] is set and
    returns 0 when it is not.  The same holds for every falsy scalar
    (0, [False], the empty string, [None]). *)
Theorem ComplexValueModel_apply_falsy_then_value (n : nat) (st : state)
  (a : addr) (d : val) (required : bool) (v : val) :
  store st !! a = Some (OWrapper (ComplexValueModel d required)) ->
  falsy_scalar v = true ->
  let st1 :=
    {| classes := classes st;
       store := <[a:=OWrapper (ComplexValueModel v required)]> (store st);
       calls := CallApply a v :: calls st |} in
  let st2 :=
    {| classes := classes st; store := store st1;
       calls := CallValue a :: calls st1 |} in
  wrapper_apply a v st = (Ok v, st1) /\
  wrapper_value n a st1 =
    (if required then Raise AssertionError else Ok v, st2).
Proof.
  intros Ha Hv st1 st2. split.
  - unfold wrapper_apply, bind, deref. rewrite Ha. reflexivity.
  - unfold wrapper_value, bind, deref. subst st1 st2. simpl.
    rewrite (lookup_put_same _ _ _ _ Ha). simpl.
    unfold ComplexValueModel_value, bind, py_bool. simpl.
    destruct required; simpl; [|reflexivity].
    rewrite (falsy_scalar_truthy _ _ Hv). reflexivity.
Qed.

(** The required and the optional wrapper of [st_required], after [apply(0)]. *)
Lemma ComplexValueModel_apply_falsy_then_value_witness :
  (wrapper_apply 0 (VInt 0) st_required =
     (Ok (VInt 0),
      {| classes := classes st_required;
         store := <[0:=OWrapper (ComplexValueModel (VInt 0) true)]>
                    (store st_required);
         calls := [CallApply 0 (VInt 0)] |}) /\
   wrapper_value 1 0
     {| classes := classes st_required;
        store := <[0:=OWrapper (ComplexValueModel (VInt 0) true)]>
                   (store st_required);
        calls := [CallApply 0 (VInt 0)] |} =
     (Raise AssertionError,
      {| classes := classes st_required;
         store := <[0:=OWrapper (ComplexValueModel (VInt 0) true)]>
                    (store st_required);
         calls := [CallValue 0; CallApply 0 (VInt 0)] |})) /\
  (wrapper_apply 1 (VInt 0) st_required =
     (Ok (VInt 0),
      {| classes := classes st_required;
         store := <[1:=OWrapper (ComplexValueModel (VInt 0) false)]>
                    (store st_required);
         calls := [CallApply 1 (VInt 0)] |}) /\
   wrapper_value 1 1
     {| classes := classes st_required;
        store := <[1:=OWrapper (ComplexValueModel (VInt 0) false)]>
                   (store st_required);
        calls := [CallApply 1 (VInt 0)] |} =
     (Ok (VInt 0),
      {| classes := classes st_required;
         store := <[1:=OWrapper (ComplexValueModel (VInt 0) false)]>
                    (store st_required);
         calls := [CallValue 1; CallApply 1 (VInt 0)] |})).
Proof.
  split.
  - apply (ComplexValueModel_apply_falsy_then_value 1 st_required 0 VNone
             true (VInt 0)); reflexivity.
  - apply (ComplexValueModel_apply_falsy_then_value 1 st_required 1 VNone
             false (VInt 0)); reflexivity.
Defined.

(** ** Assignment dispatch *)

(** Reading a class attribute through an instance that holds no field of
    that name. *)
Lemma self_attr_class {A} (st : state) (self d : addr) (c : cname)
  (cls : class_def) (items : list (string * val)) (name : string)
  (attr : class_def -> A) :
  store st !! self = Some (ORecord c d) ->
  store st !! d = Some (ODict items) ->
  dict_get c (classes st) = Some cls ->
  dict_mem name items = false ->
  self_attr self name attr st = (Ok (attr cls), st).
Proof.
  intros Hself Hd Hcls Hname. unfold self_attr. run.
  rewrite Hself. cbv beta iota. rewrite Hd. cbv beta iota.
  rewrite Hname, Hcls. reflexivity.
Qed.

(** The assignment up to the point where the descriptor is looked up, for
    a key that passes the guard. *)
Lemma setattr_guarded (st : state) (self d : addr) (c : cname)
  (cls : class_def) (items : list (string * val)) (key : string)
  (value : val) (k : val -> M state unit) :
  store st !! self = Some (ORecord c d) ->
  store st !! d = Some (ODict items) ->
  dict_get c (classes st) = Some cls ->
  dict_mem "STRICT_MODE" items = false ->
  dict_mem "DATA_DEFAULT_FORMAT" items = false ->
  _check_key_format (_keys_limited cls) (inr key) st = (Ok tt, st) ->
  (let* (c, _) := record_parts self in
   let* cls := get_class c in
   _check_key_format (_keys_limited cls) (inr key);;
   let* strict := self_attr self "STRICT_MODE" STRICT_MODE in
   (if strict then
      let* declared :=
        self_attr self "DATA_DEFAULT_FORMAT"
          (fun cls => dict_mem key (DATA_DEFAULT_FORMAT cls)) in
      if negb declared then raise RuntimeError else ret tt
    else ret tt);;
   let* _value :=
     self_attr self "DATA_DEFAULT_FORMAT" (fun cls => schema_get cls key) in
   k _value) st =
  (if STRICT_MODE cls && negb (dict_mem key (DATA_DEFAULT_FORMAT cls))
   then (Raise RuntimeError, st)
   else k (schema_get cls key) st).
Proof.
  intros Hself Hd Hcls Hmode Hschema Hkey.
  unfold bind at 1. unfold record_parts. unfold bind at 1. unfold deref.
  rewrite Hself. cbv beta iota. unfold ret at 1. cbv beta iota.
  unfold bind at 1. unfold get_class. rewrite Hcls. cbv beta iota.
  unfold bind at 1. rewrite Hkey. cbv beta iota.
  unfold bind at 1.
  rewrite (self_attr_class st self d c cls items _ _ Hself Hd Hcls Hmode).
  cbv beta iota. unfold bind at 1.
  destruct (STRICT_MODE cls); cbn [andb].
  - unfold bind at 1.
    rewrite (self_attr_class st self d c cls items _ _ Hself Hd Hcls Hschema).
    cbv beta iota.
    destruct (dict_mem key (DATA_DEFAULT_FORMAT cls)); cbn [negb];
      [|reflexivity].
    unfold ret at 1. cbv beta iota. unfold bind at 1.
    rewrite (self_attr_class st self d c cls items _ _ Hself Hd Hcls Hschema).
    reflexivity.
  - unfold ret at 1. cbv beta iota. unfold bind at 1.
    rewrite (self_attr_class st self d c cls items _ _ Hself Hd Hcls Hschema).
    reflexivity.
Qed.

(** On a permissive record, a key that passes the guard and that the schema
    does not declare is stored as it is. *)
Lemma setattr_undeclared_permissive (st : state) (self d : addr) (c : cname)
  (cls : class_def) (items : list (string * val)) (key : string)
  (value : val) :
  store st !! self = Some (ORecord c d) ->
  store st !! d = Some (ODict items) ->
  dict_get c (classes st) = Some cls ->
  dict_mem "STRICT_MODE" items = false ->
  dict_mem "DATA_DEFAULT_FORMAT" items = false ->
  _check_key_format (_keys_limited cls) (inr key) st = (Ok tt, st) ->
  STRICT_MODE cls = false ->
  dict_get key (DATA_DEFAULT_FORMAT cls) = None ->
  BaseDataModel___setattr__ self key value st =
    (Ok tt, stored st d items key value).
Proof.
  intros Hself Hd Hcls Hmode Hschema Hkey Hstrict Hnone.
  unfold BaseDataModel___setattr__.
  rewrite (setattr_guarded st self d c cls items key value _
             Hself Hd Hcls Hmode Hschema Hkey).
  rewrite Hstrict. cbn [andb]. unfold schema_get. rewrite Hnone.
  cbn [negb is_None]. unfold object_setattr. run.
  rewrite Hself. cbv beta iota. rewrite Hd. reflexivity.
Qed.

(** On a strict record, a key that the schema does not declare is
    refused, by the guard or by the test of the mode. *)
Lemma setattr_undeclared_strict (st : state) (self d : addr) (c : cname)
  (cls : class_def) (items : list (string * val)) (key : string)
  (value : val) :
  store st !! self = Some (ORecord c d) ->
  store st !! d = Some (ODict items) ->
  dict_get c (classes st) = Some cls ->
  dict_mem "STRICT_MODE" items = false ->
  dict_mem "DATA_DEFAULT_FORMAT" items = false ->
  STRICT_MODE cls = true ->
  dict_get key (DATA_DEFAULT_FORMAT cls) = None ->
  BaseDataModel___setattr__ self key value st = (Raise RuntimeError, st).
Proof.
  intros Hself Hd Hcls Hmode Hschema Hstrict Hnone.
  destruct (existsb (String.eqb key) (_keys_limited cls)) eqn:E.
  - unfold BaseDataModel___setattr__. run.
    rewrite Hself. cbv beta iota. rewrite Hcls.
    rewrite (check_key_format_reserved _ _ _ E). reflexivity.
  - unfold BaseDataModel___setattr__.
    rewrite (setattr_guarded st self d c cls items key value _
               Hself Hd Hcls Hmode Hschema (check_key_format_free _ _ _ E)).
    unfold dict_mem. rewrite Hstrict, Hnone. reflexivity.
Qed.

Section Assignment.

(** A record instance [self] of a class [cls] whose schema passed the key
    guard, as the constructor requires of every class that has an
    instance, and an assignment to [key].  The instance holds its fields in
    [items], none of them under the names [STRICT_MODE] and
    [DATA_DEFAULT_FORMAT]: no field collides with a name of the class, so
    the attributes that the assignment reads through [self] are the ones of
    the class. *)
Variables (st : state) (self d : addr) (c : cname) (cls : class_def).
Variable items : list (string * val).
Variable key : string.
Hypothesis Hself : store st !! self = Some (ORecord c d).
Hypothesis Hd : store st !! d = Some (ODict items).
Hypothesis Hcls : dict_get c (classes st) = Some cls.
Hypothesis Hmode : dict_mem "STRICT_MODE" items = false.
Hypothesis Hschema : dict_mem "DATA_DEFAULT_FORMAT" items = false.
Hypothesis Hguard : schema_keys_allowed cls = true.

(** The assignment up to the point where the descriptor is looked at. *)
Lemma setattr_declared (value _value : val) :
  dict_get key (DATA_DEFAULT_FORMAT cls) = Some _value ->
  BaseDataModel___setattr__ self key value st =
    (if negb (is_None _value) then
       let* t_value := typeof _value in
       let* t_raw := typeof value in
       if pytype_eqb t_value t_raw then object_setattr self key value
       else
         let* of_type :=
           match _value with
           | VType t => isinstance value t
           | _ => ret false
           end in
         if of_type then object_setattr self key value
         else
           let* marker := isinstance _value T_dict in
           let* record := (if marker then isinstance value T_BaseDataModel
                           else ret false) in
           if record then object_setattr self key value
           else
             let* limited := isinstance _value T_LimitedValueModel in
             if limited then
               let* current := getattr self key in
               call_apply current value;;
               ret tt
             else
               let* wrapped := isinstance _value T_BaseValueModel in
               if wrapped then object_setattr self key value
               else ret tt
     else object_setattr self key value) st.
Proof.
  intros Hkey.
  unfold BaseDataModel___setattr__.
  rewrite (setattr_guarded st self d c cls items key value _
             Hself Hd Hcls Hmode Hschema
             (guard_passes_key _ _ key st Hguard (dict_get_mem _ _ _ Hkey))).
  rewrite (dict_get_mem _ _ _ Hkey), andb_false_r.
  unfold schema_get. rewrite Hkey. reflexivity.
Qed.



End Assignment.




(** The strict instance of the counterexample stores the value as well, and
    the permissive instance ends in the same store whether or not its class
    declares [x]. *)
Example none_descriptor_examples :
  field (snd (BaseDataModel___setattr__ 1 "x" (VInt 5) st_strict)) 1 "x" =
    Some (VInt 5) /\
  store (snd (BaseDataModel___setattr__ 1 "x" (VInt 5) st_loose)) =
  store (snd (BaseDataModel___setattr__ 1 "x" (VInt 5) st_loose_undeclared)).
Proof. split; reflexivity. Qed.

(** ** Enumeration wrapper *)

Lemma py_in_true_nonempty (v : val) (l : list val) :
  (forall h, py_in h v l = Some true) -> nonempty l = true.
Proof.
  intros H. destruct l; [|reflexivity]. specialize (H []). discriminate.
Qed.

Lemma pytype_eqb_T_list (t : pytype) :
  pytype_eqb t T_list = true -> t = T_list.
Proof. destruct t; simpl; intros H; try discriminate; reflexivity. Qed.

Lemma issubclass_T_list (cs : list (cname * class_def)) (t : pytype) :
  issubclass cs t T_list = pytype_eqb t T_list.
Proof. unfold issubclass. destruct t; reflexivity. Qed.

Lemma type_of_list (h : heap) (d : val) :
  type_of h d = Some T_list ->
  exists l items, d = VRef l /\ h !! l = Some (OList items).
Proof.
  destruct d; simpl; try discriminate.
  destruct (h !! a) as [[| |w|]|] eqn:E; try discriminate.
  intros _. eauto.
Qed.

(** One allowed [apply]: the value is appended to the stored list, or
    starts a new list when the stored value is not a list. *)
Lemma ListBetweenValueModel_apply_allowed (st : state) (a : addr) (d : val)
  (vl : list val) (t : pytype) (v : val) :
  store st !! a = Some (OWrapper (ListBetweenValueModel d vl)) ->
  type_of (store st) d = Some t ->
  (forall h, py_in h v vl = Some true) ->
  exists st' l,
    wrapper_apply a v st = (Ok v, st') /\
    store st' !! a = Some (OWrapper (ListBetweenValueModel (VRef l) vl)) /\
    store st' !! l = Some (OList (prior st a ++ [v])).
Proof.
  intros Ha Ht Hin.
  unfold wrapper_apply. run. rewrite Ha. run.
  unfold ListBetweenValueModel_apply. run.
  rewrite (py_in_true_nonempty _ _ Hin). simpl store. rewrite Hin. run.
  simpl store. rewrite Ht. run. rewrite issubclass_T_list.
  destruct (pytype_eqb t T_list) eqn:E.
  - apply pytype_eqb_T_list in E. subst t.
    destruct (type_of_list _ _ Ht) as (l & items & -> & Hl).
    unfold list_append. run. simpl store. rewrite Hl. run.
    assert (Hne : l <> a) by (intros ->; congruence).
    eexists _, l. split; [reflexivity|]. simpl store.
    rewrite (lookup_put_other _ _ _ _ Hne), (lookup_put_same _ _ _ _ Hl).
    unfold prior, accumulated. rewrite Ha, Hl. auto.
  - run. eexists _, (length (store st)). split; [reflexivity|].
    simpl store. split.
    + apply (lookup_put_same _ _ (OWrapper (ListBetweenValueModel d vl))).
      by apply lookup_alloc_old.
    + assert (Hne : a <> length (store st)).
      { apply lookup_lt_Some in Ha. lia. }
      rewrite (lookup_put_other _ _ _ _ Hne), lookup_alloc_new.
      unfold prior, accumulated. rewrite Ha.
      destruct d as [| | | | |l]; try reflexivity.
      simpl in Ht. destruct (store st !! l) as [[| |w|]|]; try reflexivity.
      injection Ht as <-. discriminate.
Qed.

Lemma prior_after (st : state) (a l : addr) (vl : list val) (items : list val) :
  store st !! a = Some (OWrapper (ListBetweenValueModel (VRef l) vl)) ->
  store st !! l = Some (OList items) ->
  prior st a = items /\ type_of (store st) (VRef l) = Some T_list.
Proof.
  intros Ha Hl. unfold prior, accumulated. simpl. rewrite Ha, Hl. auto.
Qed.

(** C9, counterexample.  A wrapper created with the list [[7]] as its
    default holds four elements, not three, after three allowed calls. *)
Lemma ListBetweenValueModel_three_calls_four_elements :
  fst (apply3 2 (VInt 1) (VInt 2) (VInt 3) st_enum) =
    Ok [VInt 1; VInt 2; VInt 3] /\
  accumulated (snd (apply3 2 (VInt 1) (VInt 2) (VInt 3) st_enum)) 2 =
    Some [VInt 7; VInt 1; VInt 2; VInt 3].
Proof. split; reflexivity. Qed.

(** C9, as amended.  Three successive [apply] calls with allowed values
    return those values and leave the wrapper holding the list it held
    before (nothing, when its stored value was not a list) followed by the
    three values in call order; in particular a wrapper that starts from a
    value that is not a list, or from the empty list, ends with exactly
    those three elements.  A further [apply] with a value outside the
    allowed ones raises [ValueError] and leaves the store as it was. *)
Theorem ListBetweenValueModel_accumulates (st : state) (a : addr) (d : val)
  (vl : list val) (t : pytype) (v1 v2 v3 : val) :
  store st !! a = Some (OWrapper (ListBetweenValueModel d vl)) ->
  type_of (store st) d = Some t ->
  (forall h, py_in h v1 vl = Some true) ->
  (forall h, py_in h v2 vl = Some true) ->
  (forall h, py_in h v3 vl = Some true) ->
  exists st3,
    apply3 a v1 v2 v3 st = (Ok [v1; v2; v3], st3) /\
    accumulated st3 a = Some (prior st a ++ [v1; v2; v3]) /\
    forall v4,
      (forall h, py_in h v4 vl = Some false) ->
      wrapper_apply a v4 st3 =
        (Raise ValueError,
         {| classes := classes st3; store := store st3;
            calls := CallApply a v4 :: calls st3 |}).
Proof.
  intros Ha Ht H1 H2 H3.
  destruct (ListBetweenValueModel_apply_allowed st a d vl t v1 Ha Ht H1)
    as (st1 & l1 & E1 & Ha1 & Hl1).
  destruct (prior_after _ _ _ _ _ Ha1 Hl1) as [P1 T1].
  destruct (ListBetweenValueModel_apply_allowed st1 a _ vl _ v2 Ha1 T1 H2)
    as (st2 & l2 & E2 & Ha2 & Hl2).
  destruct (prior_after _ _ _ _ _ Ha2 Hl2) as [P2 T2].
  destruct (ListBetweenValueModel_apply_allowed st2 a _ vl _ v3 Ha2 T2 H3)
    as (st3 & l3 & E3 & Ha3 & Hl3).
  exists st3. split; [|split].
  - unfold apply3, bind. rewrite E1, E2, E3. reflexivity.
  - unfold accumulated. rewrite Ha3, Hl3, P2, P1, <- !app_assoc. reflexivity.
  - intros v4 H4. unfold wrapper_apply. run. rewrite Ha3. run.
    unfold ListBetweenValueModel_apply. run.
    rewrite (py_in_true_nonempty _ _ H1). simpl store. rewrite H4.
    reflexivity.
Qed.

(** The wrapper of [st_enum] that was created with [None]. *)
Lemma ListBetweenValueModel_accumulates_witness :
  exists st3,
    apply3 0 (VInt 1) (VInt 2) (VInt 3) st_enum =
      (Ok [VInt 1; VInt 2; VInt 3], st3) /\
    accumulated st3 0 = Some (prior st_enum 0 ++ [VInt 1; VInt 2; VInt 3]) /\
    forall v4,
      (forall h, py_in h v4 [VInt 1; VInt 2; VInt 3] = Some false) ->
      wrapper_apply 0 v4 st3 =
        (Raise ValueError,
         {| classes := classes st3; store := store st3;
            calls := CallApply 0 v4 :: calls st3 |}).
Proof.
  apply (ListBetweenValueModel_accumulates st_enum 0 VNone
           [VInt 1; VInt 2; VInt 3] T_NoneType (VInt 1) (VInt 2) (VInt 3));
    try reflexivity; intros h; reflexivity.
Defined.

(** ** Comparison with a plain tree *)

(** The per-key loop returns [True] when every key that is not ignored
    compares equal; the values under ignored keys are never read. *)
Lemma equals_fields_true (rec : val -> val -> M state bool)
  (ignore : M state (list string)) (skipped : list string)
  (own target : list (string * val)) (b : addr) (st : state) :
  store st !! b = Some (ODict target) ->
  ignore st = (Ok skipped, st) ->
  Forall (fun kv =>
            existsb (String.eqb (fst kv)) skipped = true \/
            exists bk, dict_get (fst kv) target = Some bk /\
                       rec (snd kv) bk st = (Ok true, st)) own ->
  equals_fields rec ignore own (VRef b) st = (Ok true, st).
Proof.
  intros Hb Hig Hall. induction Hall as [|[k v] r Hkv _ IH]; [reflexivity|].
  cbn [equals_fields]. rewrite (bind_ok _ _ _ _ _ Hig).
  cbn [fst snd] in Hkv. destruct Hkv as [Hin | (bk & Hget & Hrec)].
  - rewrite Hin. exact IH.
  - destruct (existsb (String.eqb k) skipped); [exact IH|].
    unfold subscript. run. rewrite Hb. run. rewrite Hget. run.
    rewrite Hrec. exact IH.
Qed.

(** [equals] on a record instance and a mapping: the key-set assertion,
    then the per-key loop. *)
Lemma equals_record_walk (n : nat) (st : state) (self d b : addr)
  (c : cname) (own target : list (string * val)) :
  store st !! self = Some (ORecord c d) ->
  store st !! d = Some (ODict own) ->
  issubclass (classes st) (T_record c) T_BaseDataModel = true ->
  store st !! b = Some (ODict target) ->
  BaseDataModel_equals (S n) self (VRef b) st =
  (let* _ := assert (strings_eqb (sorted (dict_keys own))
                       (sorted (dict_keys target))) in
   equals_fields (_equals n)
     (self_attr self "EQUALS_IGNORE_KEYS" EQUALS_IGNORE_KEYS) own
     (VRef b)) st.
Proof.
  intros Hself Hd Hrec Hb. unfold BaseDataModel_equals.
  unfold bind at 1. unfold isinstance at 1. simpl type_of. rewrite Hb.
  cbv beta iota.
  change (issubclass (classes st) T_dict T_dict) with true.
  unfold bind at 1. unfold assert at 1. unfold ret at 1. cbv beta iota.
  cbn [_equals].
  unfold bind at 1. unfold isinstance at 1. simpl type_of. rewrite Hself.
  cbv beta iota. rewrite Hrec.
  unfold bind at 1. unfold record_parts. unfold bind at 1. unfold deref.
  rewrite Hself. cbv beta iota. unfold ret at 1. cbv beta iota.
  unfold bind at 1. unfold dict_items. unfold bind at 1. unfold deref.
  rewrite Hd. cbv beta iota. unfold ret at 1. cbv beta iota.
  unfold bind at 1. unfold keys_of. unfold bind at 1. unfold deref.
  rewrite Hb. cbv beta iota. unfold ret at 1. cbv beta iota.
  reflexivity.
Qed.




(** ** Validation *)

Lemma starts_with_append (p s t : string) :
  starts_with p s = true -> starts_with p (s ++ t)%string = true.
Proof.
  revert s. induction p as [|a p IH]; intros s H; [reflexivity|].
  destruct s as [|b s]; simpl in *; [discriminate|].
  apply andb_prop in H as [Hab Hps]. rewrite Hab. simpl. auto.
Qed.

Lemma dict_get_In {A} (k : string) (d : list (string * A)) (v : A) :
  dict_get k d = Some v -> In (k, v) d.
Proof.
  induction d as [|[k' v'] r IH]; simpl; [discriminate|].
  destruct (String.eqb k k') eqn:E.
  - apply String.eqb_eq in E. subst k'. intros [= ->]. auto.
  - auto.
Qed.

(** Under [no_self_keys], a path of the walk is no schema key. *)
Lemma path_not_declared (cs : list (cname * class_def)) (c : cname)
  (cls : class_def) (k : string) :
  no_self_keys cs = true ->
  dict_get c cs = Some cls ->
  starts_with "self" k = true ->
  dict_get k (DATA_DEFAULT_FORMAT cls) = None.
Proof.
  intros Hno Hc Hk. unfold no_self_keys in Hno.
  rewrite forallb_forall in Hno.
  specialize (Hno _ (dict_get_In _ _ _ Hc)). cbn [fst snd] in Hno.
  rewrite forallb_forall in Hno.
  destruct (dict_get k (DATA_DEFAULT_FORMAT cls)) as [d|] eqn:E; [|reflexivity].
  specialize (Hno _ (dict_get_In _ _ _ E)). cbn [fst snd] in Hno.
  rewrite Hk in Hno. discriminate.
Qed.

(** Under [no_path_keys], a path below the root of the walk is no schema
    key. *)
Lemma path_key_not_declared (cs : list (cname * class_def)) (c : cname)
  (cls : class_def) (k : string) :
  no_path_keys cs = true ->
  dict_get c cs = Some cls ->
  starts_with "self." k = true ->
  dict_get k (DATA_DEFAULT_FORMAT cls) = None.
Proof.
  intros Hno Hc Hk. unfold no_path_keys in Hno.
  rewrite forallb_forall in Hno.
  specialize (Hno _ (dict_get_In _ _ _ Hc)). cbn [fst snd] in Hno.
  rewrite forallb_forall in Hno.
  destruct (dict_get k (DATA_DEFAULT_FORMAT cls)) as [d|] eqn:E; [|reflexivity].
  specialize (Hno _ (dict_get_In _ _ _ E)). cbn [fst snd] in Hno.
  rewrite Hk in Hno. discriminate.
Qed.

(** The following lemmas are about one class table [cs]. *)
Section Calm.

Variable cs : list (cname * class_def).

Lemma calm_bind {A B} (c : M state A) (k : A -> M state B) :
  calm cs c -> (forall x, calm cs (k x)) -> calm cs (bind c k).
Proof.
  intros Hc Hk st Hst. unfold bind. destruct (Hc st Hst) as [Hcs Hlog].
  destruct (c st) as [[x|e| |] st']; simpl in *; auto.
  destruct (Hk x st' Hcs) as [Hcs' Hlog']. split; congruence.
Qed.

Lemma calm_ret_bind {A B} (x : A) (k : A -> M state B) :
  calm cs (k x) -> calm cs (bind (ret x) k).
Proof. intros H st Hst. exact (H st Hst). Qed.

Lemma calm_bind_get_class {B} (c : cname) (k : class_def -> M state B) :
  (forall cls, dict_get c cs = Some cls -> calm cs (k cls)) ->
  calm cs (bind (get_class c) k).
Proof.
  intros Hk st Hst. unfold bind, get_class.
  destruct (dict_get c (classes st)) as [cls|] eqn:Hc; [|auto].
  rewrite Hst in Hc. exact (Hk cls Hc st Hst).
Qed.

Lemma calm_const {A} (r : outcome A) :
  calm cs (fun st => (r, st)).
Proof. intros st Hst. auto. Qed.

Lemma calm_deref (a : addr) : calm cs (deref a).
Proof. intros st Hst. unfold deref. destruct (store st !! a); auto. Qed.

Lemma calm_get_class (c : cname) : calm cs (get_class c).
Proof.
  intros st Hst. unfold get_class. destruct (dict_get c (classes st)); auto.
Qed.

Lemma calm_typeof (v : val) : calm cs (typeof v).
Proof.
  intros st Hst. unfold typeof. destruct (type_of (store st) v); auto.
Qed.

Lemma calm_isinstance (v : val) (t : pytype) : calm cs (isinstance v t).
Proof.
  intros st Hst. unfold isinstance. destruct (type_of (store st) v); auto.
Qed.

Lemma calm_py_bool (v : val) : calm cs (py_bool v).
Proof.
  intros st Hst. unfold py_bool. destruct (truthy (store st) v); auto.
Qed.

Lemma calm_alloc (o : obj) : calm cs (alloc o).
Proof. intros st Hst. auto. Qed.

Lemma calm_put (a : addr) (o : obj) : calm cs (put a o).
Proof. intros st Hst. auto. Qed.

Lemma calm_lift_heap {A} (c : M heap A) : calm cs (lift_heap c).
Proof.
  intros st Hst. unfold lift_heap. destruct (c (store st)). auto.
Qed.

Lemma calm_log_value (a : addr) : calm cs (log (CallValue a)).
Proof. intros st Hst. auto. Qed.

Lemma calm_assert (b : bool) : calm cs (@assert state b).
Proof. destruct b; apply calm_const. Qed.

Create HintDb calm.
#[local] Hint Resolve calm_deref calm_get_class calm_typeof calm_isinstance
  calm_py_bool calm_alloc calm_put calm_lift_heap calm_log_value
  calm_assert : calm.

Ltac calm_tac :=
  repeat first
    [ apply calm_bind; [|intros]
    | solve [auto with calm]
    | apply calm_const
    | match goal with
      | |- calm _ (if ?b then _ else _) => destruct b
      | |- calm _ (match ?x with _ => _ end) => destruct x
      | |- calm _ (let (_, _) := ?x in _) => destruct x
      end ].

Lemma calm_dict_items (d : addr) : calm cs (dict_items d).
Proof. unfold dict_items. calm_tac. Qed.

Lemma calm_record_parts (a : addr) : calm cs (record_parts a).
Proof. unfold record_parts. calm_tac. Qed.

Lemma calm_check_key_format (key_dirs : list string)
  (formatter : list (string * val) + string) :
  calm cs (_check_key_format key_dirs formatter).
Proof.
  induction key_dirs as [|k r IH]; simpl; [apply calm_const|].
  destruct (match formatter with
            | inl d => dict_mem k d
            | inr s => String.eqb k s
            end); [apply calm_const | exact IH].
Qed.

#[local] Hint Resolve calm_dict_items calm_record_parts
  calm_check_key_format : calm.

(** Construction without overrides assigns nothing, so it applies nothing. *)
Lemma calm_init (fuel : nat) (c : cname) :
  calm cs (BaseDataModel___init__ fuel c []).
Proof. unfold BaseDataModel___init__. simpl setattr_each. calm_tac. Qed.

#[local] Hint Resolve calm_init : calm.

Lemma calm_instantiate (fuel : nat) (t : pytype) :
  calm cs (instantiate fuel t).
Proof. unfold instantiate. calm_tac. Qed.

#[local] Hint Resolve calm_instantiate : calm.

Lemma calm_check_elements (fuel : nat) (t : pytype) (s : bool)
  (l : list val) :
  calm cs (check_elements fuel t s l).
Proof. induction l as [|k r IH]; simpl; calm_tac. Qed.

#[local] Hint Resolve calm_check_elements : calm.

(** [value()] of any wrapper calls no [apply]. *)
Lemma calm_wrapper_value (fuel : nat) (a : addr) :
  calm cs (wrapper_value fuel a).
Proof.
  unfold wrapper_value, DateTime_value, FixedValueModel_value,
    ListComplexValueModel_value, ComplexValueModel_value.
  calm_tac.
Qed.

#[local] Hint Resolve calm_wrapper_value : calm.

Lemma calm_check_list (rec : string -> val -> M state unit) (k : string)
  (i : nat) (l : list val) :
  (forall k' v, starts_with "self." k' = true -> calm cs (rec k' v)) ->
  starts_with "self." k = true ->
  calm cs (check_list rec k i l).
Proof.
  intros Hrec Hk. revert i. induction l as [|p r IH]; intros i; simpl.
  - apply calm_const.
  - apply calm_bind; [|intros; apply IH].
    apply Hrec. by apply starts_with_append.
Qed.

Lemma calm_check_items (rec : string -> val -> M state unit) (k : string)
  (l : list (string * val)) :
  (forall k' v, starts_with "self." k' = true -> calm cs (rec k' v)) ->
  (forall s, starts_with "self." (k ++ "." ++ s)%string = true) ->
  calm cs (check_items rec k l).
Proof.
  intros Hrec Hk. induction l as [|[k1 v1] r IH]; simpl.
  - apply calm_const.
  - apply calm_bind; [|intros; apply IH].
    apply Hrec. apply Hk.
Qed.

(** When no schema declares a key that starts with [self.], no path below
    the root of the walk meets the [apply] branch. *)
Lemma calm_check_value (n : nat) :
  no_path_keys cs = true ->
  forall (c : cname) (k : string) (v : val),
    starts_with "self." k = true -> calm cs (_check_value n c k v).
Proof.
  intros Hno. induction n as [|n IH]; intros c k v Hk; simpl.
  - apply calm_const.
  - apply calm_bind_get_class. intros cls Hc.
    rewrite (path_key_not_declared cs c cls k Hno Hc Hk).
    apply calm_bind; [auto with calm|]. intros t.
    destruct (pytype_eqb t T_type); [apply calm_const|].
    apply calm_bind; [auto with calm|]. intros [|].
    { destruct v; try apply calm_const.
      apply calm_bind; [auto with calm|]. intros [vc d].
      apply IH. by apply starts_with_append. }
    apply calm_bind; [auto with calm|]. intros [|].
    { destruct v; try apply calm_const.
      apply calm_bind; [auto with calm|]. intros [| | |]; try apply calm_const.
      apply calm_check_list; auto. }
    apply calm_bind; [auto with calm|]. intros [|].
    { destruct v; try apply calm_const.
      apply calm_bind; [auto with calm|]. intros items.
      apply calm_check_items; [auto|].
      intros s. by apply starts_with_append. }
    apply calm_ret_bind. calm_tac.
Qed.

(** The walk over the fields of an instance, whose paths are [self.f]. *)
Lemma calm_check_fields (n : nat) (c : cname) (items : list (string * val)) :
  no_path_keys cs = true ->
  calm cs (check_items (_check_value n c) "self" items;; ret tt).
Proof.
  intros Hno. apply calm_bind; [|intros; apply calm_const].
  apply calm_check_items; [by apply calm_check_value|].
  intros s. reflexivity.
Qed.

End Calm.

Lemma check_items_app (rec : string -> val -> M state unit) (k : string)
  (l1 l2 : list (string * val)) (st : state) :
  check_items rec k (l1 ++ l2) st =
  (check_items rec k l1;; check_items rec k l2) st.
Proof.
  revert st. induction l1 as [|[k1 v1] r IH]; intros st; [reflexivity|].
  simpl. unfold bind in *.
  destruct (rec _ v1 st) as [[[]|e| |] st']; try reflexivity.
  apply IH.
Qed.

(** [check] walks the fields of the instance in order. *)
Lemma check_walks_fields (n : nat) (st : state) (self d : addr) (c : cname)
  (cls : class_def) (items : list (string * val)) :
  store st !! self = Some (ORecord c d) ->
  store st !! d = Some (ODict items) ->
  dict_get c (classes st) = Some cls ->
  BaseDataModel_check (S n) self st =
  (check_items (_check_value n c) "self" items;; ret self) st.
Proof.
  intros Hself Hd Hcls. unfold BaseDataModel_check. run.
  rewrite Hself. run. simpl _check_value. run. rewrite Hcls.
  simpl type_of. rewrite Hd. run.
  change (pytype_eqb T_dict T_type) with false.
  run. simpl type_of. rewrite Hd. run.
  change (issubclass (classes st) T_dict T_BaseDataModel) with false.
  run. simpl type_of. rewrite Hd. run.
  change (issubclass (classes st) T_dict T_list) with false.
  run. simpl type_of. rewrite Hd. run.
  change (issubclass (classes st) T_dict T_dict) with true.
  run. rewrite Hd. run. reflexivity.
Qed.

(** The walk at a wrapper: the [apply] branch when the path is a schema key
    bound to a wrapper, else [value()] for a wrapper below
    [LimitedValueModel], else nothing. *)
Lemma check_value_at_wrapper (n : nat) (st : state) (c : cname)
  (cls : class_def) (k : string) (a : addr) (w : wrapper) :
  dict_get c (classes st) = Some cls ->
  store st !! a = Some (OWrapper w) ->
  _check_value (S n) c k (VRef a) st =
    match schema_wrapper_at st cls k with
    | Some true => (call_apply (schema_get cls k) (VRef a);; ret tt) st
    | Some false =>
        if issubclass (classes st) (T_wrapper (wclass_of w))
             T_LimitedValueModel
        then (wrapper_value n a;; ret tt) st
        else (Ok tt, st)
    | None => (Beyond, st)
    end.
Proof.
  intros Hcls Ha. simpl _check_value. run. rewrite Hcls.
  simpl type_of. rewrite Ha. run.
  change (pytype_eqb (T_wrapper (wclass_of w)) T_type) with false.
  run. simpl type_of. rewrite Ha. run.
  change (issubclass (classes st) (T_wrapper (wclass_of w)) T_BaseDataModel)
    with false.
  run. simpl type_of. rewrite Ha. run.
  change (issubclass (classes st) (T_wrapper (wclass_of w)) T_list)
    with (pytype_eqb (T_wrapper (wclass_of w)) T_list || false).
  change (pytype_eqb (T_wrapper (wclass_of w)) T_list || false) with false.
  run. simpl type_of. rewrite Ha. run.
  change (issubclass (classes st) (T_wrapper (wclass_of w)) T_dict)
    with false.
  run. unfold schema_wrapper_at.
  destruct (dict_get k (DATA_DEFAULT_FORMAT cls)) as [dsc|].
  - destruct (type_of (store st) dsc) as [t|]; [|reflexivity].
    destruct (issubclass (classes st) t T_BaseValueModel); [reflexivity|].
    run. simpl type_of. rewrite Ha. run.
    destruct (issubclass (classes st) (T_wrapper (wclass_of w))
                T_LimitedValueModel); reflexivity.
  - run. simpl type_of. rewrite Ha. run.
    destruct (issubclass (classes st) (T_wrapper (wclass_of w))
                T_LimitedValueModel); reflexivity.
Qed.

(** [check] on an instance whose walk has passed the fields before [f]. *)
Lemma check_reaches_field (n : nat) (st st1 : state) (self d : addr)
  (c : cname) (cls : class_def) (pre post : list (string * val))
  (f : string) (v : val) :
  store st !! self = Some (ORecord c d) ->
  store st !! d = Some (ODict (pre ++ (f, v) :: post)) ->
  dict_get c (classes st) = Some cls ->
  check_items (_check_value (S n) c) "self" pre st = (Ok tt, st1) ->
  BaseDataModel_check (S (S n)) self st =
    (_check_value (S n) c ("self." ++ f)%string v;;
     check_items (_check_value (S n) c) "self" post;;
     ret self) st1.
Proof.
  intros Hself Hd Hcls Hpre.
  rewrite (check_walks_fields _ _ _ _ _ _ _ Hself Hd Hcls).
  unfold bind at 1. rewrite check_items_app.
  unfold bind at 1. rewrite Hpre.
  change (check_items (_check_value (S n) c) "self" ((f, v) :: post))
    with (_check_value (S n) c ("self." ++ f)%string v;;
          check_items (_check_value (S n) c) "self" post).
  unfold bind.
  destruct (_check_value (S n) c ("self." ++ f)%string v st1)
    as [[[]|e| |] st2]; try reflexivity.
Qed.




(** The required wrapper of the account is empty, so validation fails with
    the failure of its [value()]. *)
Example check_account_fails :
  fst (BaseDataModel_check 3 2 st_account) = Raise AssertionError /\
  calls (snd (BaseDataModel_check 3 2 st_account)) = [CallValue 3].
Proof. split; reflexivity. Qed.

(** ** Construction and the deep copy *)

Section DeepCopy.

(** Objects below address [base] are those that existed before the copy
    started. *)
Variable base : nat.

Lemma below_bind {A B} (c : M heap A) (k : A -> M heap B) :
  below base c -> (forall x, below base (k x)) -> below base (bind c k).
Proof.
  intros Hc Hk h Hlen. unfold bind. destruct (Hc h Hlen) as [Hl Hsame].
  destruct (c h) as [[x|e| |] h']; simpl in *; auto.
  destruct (Hk x h' Hl) as [Hl' Hsame']. split; [exact Hl'|].
  intros a Ha. rewrite (Hsame' a Ha). auto.
Qed.

Lemma below_const {A} (r : outcome A) : below base (fun h => (r, h)).
Proof. intros h Hlen. auto. Qed.

Lemma below_hderef (a : addr) : below base (hderef a).
Proof. intros h Hlen. unfold hderef. case_match; simpl; auto. Qed.

(** A fresh address is not below [base]. *)
Lemma below_halloc {B} (o : obj) (k : addr -> M heap B) :
  (forall y, base <= y -> below base (k y)) ->
  below base (bind (halloc o) k).
Proof.
  intros Hk h Hlen. unfold bind, halloc.
  assert (Hl : base <= length (h ++ [o])) by (rewrite length_app; lia).
  destruct (Hk (length h) Hlen (h ++ [o]) Hl) as [Hl' Hsame].
  split; [exact Hl'|]. intros a Ha. rewrite (Hsame a Ha).
  apply lookup_app_l. lia.
Qed.

Lemma below_hstore (y : addr) (o : obj) :
  base <= y -> below base (hstore y o).
Proof.
  intros Hy h Hlen. unfold hstore. cbn [snd]. split.
  - rewrite length_put. exact Hlen.
  - intros a Ha. apply lookup_put_other. lia.
Qed.

Lemma below_copy_vals (rec : val -> memo -> M heap (val * memo))
  (l : list val) :
  (forall x m, below base (rec x m)) ->
  forall m, below base (copy_vals rec l m).
Proof.
  intros Hrec. induction l as [|x r IH]; intros m; simpl.
  - apply below_const.
  - apply below_bind; [apply Hrec|]. intros [x' m1].
    apply below_bind; [apply IH|]. intros [r' m2]. apply below_const.
Qed.

Lemma below_copy_items (rec : val -> memo -> M heap (val * memo))
  (l : list (string * val)) :
  (forall x m, below base (rec x m)) ->
  forall m, below base (copy_items rec l m).
Proof.
  intros Hrec. induction l as [|[k x] r IH]; intros m; simpl.
  - apply below_const.
  - apply below_bind; [apply Hrec|]. intros [x' m1].
    apply below_bind; [apply IH|]. intros [r' m2]. apply below_const.
Qed.

Lemma below_copy_wrapper (rec : val -> memo -> M heap (val * memo))
  (w : wrapper) (m : memo) :
  (forall x m', below base (rec x m')) ->
  below base (copy_wrapper rec w m).
Proof.
  intros Hrec. destruct w; simpl; try apply below_const;
    try (apply below_bind; [apply Hrec|]; intros [d' m1]; apply below_const).
  apply below_bind; [by apply below_copy_vals|]. intros [l' m1].
  apply below_bind; [apply Hrec|]. intros [d' m2]. apply below_const.
Qed.

(** [deepcopy] writes to fresh addresses only. *)
Lemma below_deepcopy (n : nat) :
  forall x m, below base (deepcopy n x m).
Proof.
  induction n as [|n IH]; intros x m; simpl; [apply below_const|].
  destruct x; try apply below_const.
  destruct (memo_get a m); [apply below_const|].
  apply below_bind; [apply below_hderef|]. intros [items|items|w|c d].
  - apply below_halloc. intros y Hy.
    apply below_bind; [by apply below_copy_vals|]. intros [items' m'].
    apply below_bind; [by apply below_hstore|]. intros _. apply below_const.
  - apply below_halloc. intros y Hy.
    apply below_bind; [by apply below_copy_items|]. intros [items' m'].
    apply below_bind; [by apply below_hstore|]. intros _. apply below_const.
  - apply below_halloc. intros y Hy.
    apply below_bind; [by apply below_copy_wrapper|]. intros [w' m'].
    apply below_bind; [by apply below_hstore|]. intros _. apply below_const.
  - apply below_halloc. intros yd Hyd. apply below_halloc. intros y Hy.
    apply below_bind; [apply IH|]. intros [state m'].
    destruct state; try apply below_const.
    apply below_bind; [apply below_hderef|].
    intros [?|items|?|? ?]; try apply below_const.
    apply below_bind; [by apply below_hstore|]. intros _. apply below_const.
Qed.

End DeepCopy.

(** What a successful construction without overrides leaves behind: the
    new instance and its [__dict__] at the two next addresses, the class
    table and the call log as they were, and every object that existed
    before untouched. *)
Lemma init_result (fuel : nat) (c : cname) (st st1 : state) (i : addr) :
  BaseDataModel___init__ fuel c [] st = (Ok i, st1) ->
  classes st1 = classes st /\
  calls st1 = calls st /\
  i = S (length (store st)) /\
  store st1 !! i = Some (ORecord c (length (store st))) /\
  forall a, a < length (store st) -> store st1 !! a = store st !! a.
Proof.
  unfold BaseDataModel___init__. run. intros H.
  destruct (dict_get c (classes st)) as [cls|]; [|discriminate].
  cbv beta iota in H. unfold set_store in H. simpl store in H.
  simpl classes in H. simpl calls in H.
  match type of H with
  | context [_check_key_format ?l ?f ?s] =>
      pose proof (check_key_format_state l f s) as Hg;
      destruct (_check_key_format l f s) as [[[]|e| |] s']
  end; simpl in Hg; subst s'; try discriminate.
  unfold lift_heap in H. simpl store in H.
  simpl classes in H. simpl calls in H.
  match type of H with
  | context [copy_items ?r ?l ?m ?h] =>
      destruct (below_copy_items (S (S (length (store st)))) r l
                  (below_deepcopy _ fuel) m h) as [Hlen Hsame];
      [ rewrite !length_app; simpl; lia | ];
      destruct (copy_items r l m h) as [[[data m']|e| |] h2]
  end; try discriminate.
  simpl in Hlen, Hsame. simpl store in H.
  assert (Hd : h2 !! length (store st) = Some (ODict [])).
  { rewrite Hsame by lia. rewrite lookup_app_l by (rewrite length_app; simpl; lia).
    apply lookup_alloc_new. }
  assert (Hi : h2 !! S (length (store st)) =
               Some (ORecord c (length (store st)))).
  { rewrite Hsame by lia.
    replace (S (length (store st))) with (length (store st ++ [ODict []]))
      by (rewrite length_app; simpl; lia).
    apply lookup_alloc_new. }
  match type of H with
  | context [@lookup ?K ?V ?T ?I ?k ?h] =>
      let E := fresh in
      assert (E : @lookup K V T I k h = Some (ODict [])) by exact Hd;
      rewrite E in H; clear E
  end.
  simpl in H. injection H as <- <-. simpl.
  rewrite length_app. simpl.
  replace (length (store st) + 1) with (S (length (store st))) by lia.
  repeat split; try reflexivity.
  - rewrite lookup_put_other by lia. exact Hi.
  - intros a Ha. rewrite lookup_put_other by lia.
    rewrite Hsame by lia.
    rewrite lookup_app_l by (rewrite length_app; simpl; lia).
    apply lookup_app_l. lia.
Qed.

(** Construction without overrides writes to fresh addresses only, whatever
    its outcome: every object that existed before, the objects bound in the
    class-level schemas and the other instances among them, is left as it
    was. *)
Theorem construction_keeps_existing_objects (fuel : nat) (c : cname)
  (st : state) (a : addr) :
  a < length (store st) ->
  store (snd (BaseDataModel___init__ fuel c [] st)) !! a = store st !! a.
Proof.
  intros Ha. unfold BaseDataModel___init__. run.
  destruct (dict_get c (classes st)) as [cls|]; [|reflexivity].
  cbv beta iota. unfold set_store. simpl store. simpl classes. simpl calls.
  assert (Hnew : forall h2 : heap,
            (forall b, b < S (S (length (store st))) ->
                       h2 !! b =
                       ((store st ++ [ODict []]) ++
                        [ORecord c (length (store st))]) !! b) ->
            h2 !! a = store st !! a).
  { intros h2 Hsame. rewrite Hsame by lia.
    rewrite lookup_app_l by (rewrite length_app; simpl; lia).
    apply lookup_app_l. lia. }
  match goal with
  | |- context [_check_key_format ?l ?f ?s] =>
      pose proof (check_key_format_state l f s) as Hg;
      destruct (_check_key_format l f s) as [[[]|e| |] s']
  end; simpl in Hg; subst s'; simpl; try (apply Hnew; reflexivity).
  unfold lift_heap. simpl store. simpl classes. simpl calls.
  match goal with
  | |- context [copy_items ?r ?l ?m ?h] =>
      destruct (below_copy_items (S (S (length (store st)))) r l
                  (below_deepcopy _ fuel) m h) as [Hlen Hsame];
      [ rewrite !length_app; simpl; lia | ];
      destruct (copy_items r l m h) as [[[data m']|e| |] h2]
  end; simpl in Hlen, Hsame; simpl; try (apply Hnew; exact Hsame).
  assert (Hd : h2 !! length (store st) = Some (ODict [])).
  { rewrite Hsame by lia.
    rewrite lookup_app_l by (rewrite length_app; simpl; lia).
    apply lookup_alloc_new. }
  match goal with
  | |- context [@lookup ?K ?V ?T ?I ?k ?h] =>
      let E := fresh in
      assert (E : @lookup K V T I k h = Some (ODict [])) by exact Hd;
      rewrite E; clear E
  end.
  simpl. rewrite lookup_put_other by lia. apply Hnew; exact Hsame.
Qed.

(** Constructing a [Parent] leaves the [Child] bound in its schema alone. *)
Lemma construction_keeps_existing_objects_witness :
  store (snd (BaseDataModel___init__ 8 "Parent" [] st_family)) !! 1 =
  store st_family !! 1.
Proof.
  apply (construction_keeps_existing_objects 8 "Parent" st_family 1).
  simpl. lia.
Defined.

(** ** Isolation of instances *)

(** C2 (code defect).  The claim is that no operation on one instance is
    observable through another instance or through the class-level schema.
    [load_db_data] loads a nested document into the instance bound in the
    schema itself (address 1), not into the copy the instance owns, and
    stores that shared object in the field.  After the first instance (7)
    loads [{"child": {"n": 1}}], the schema's instance has [n = 1] and is
    the first instance's [child]; after the second instance (12) loads
    [{"child": {"n": 2}}], the first instance's [child] has [n = 2]. *)
Theorem load_db_data_shares_schema_instance :
  declared st_family "Parent" "child" = Some (VRef 1) /\
  field st_family 1 "n" = Some (VInt 0) /\
  fst (family_first_load st_family) = Ok (7, 12) /\
  field (snd (family_first_load st_family)) 7 "child" = Some (VRef 1) /\
  field (snd (family_first_load st_family)) 1 "n" = Some (VInt 1) /\
  fst (family_both_load st_family) = Ok (7, 12) /\
  field (snd (family_both_load st_family)) 7 "child" = Some (VRef 1) /\
  field (snd (family_both_load st_family)) 12 "child" = Some (VRef 1) /\
  field (snd (family_both_load st_family)) 1 "n" = Some (VInt 2).
Proof. repeat split; reflexivity. Qed.

(** Construction alone does keep the instances apart: each gets a copy of
    the schema's nested instance at an address of its own. *)
Example construction_copies_schema_instance :
  let st2 :=
    snd ((let* a := BaseDataModel___init__ 8 "Parent" [] in
          let* b := BaseDataModel___init__ 8 "Parent" [] in
          ret (a, b)) st_family) in
  field st2 7 "child" = Some (VRef 9) /\
  field st2 12 "child" = Some (VRef 14) /\
  field st2 1 "n" = Some (VInt 0).
Proof. repeat split; reflexivity. Qed.

(** ** Element validation of lists *)

(** The membership test of the permissive branch never succeeds. *)
Lemma list_in_strings_never (s1 s0 : list string) :
  list_in_strings s1 s0 = false.
Proof. induction s0 as [|e r IH]; simpl; auto. Qed.

(** C4 (code defect).  The claim is that under a permissive element class a
    mapping whose keys strictly contain the schema's keys passes, while it
    fails under a strict class.  The permissive branch tests [s1 in s0],
    which asks whether the list [s1] is an element of the list of strings
    [s0], so it fails: [value()] raises [AssertionError] for the element
    [{"name": "x", "extra": 1}] under the permissive class (wrapper 2) as
    under the strict one (wrapper 3), and even for [{"name": "x"}] under
    the permissive class (wrapper 6); only the strict class with the exact
    key set passes (wrapper 7). *)
Theorem ListComplexValueModel_value_rejects_superset :
  fst (wrapper_value 8 2 st_people) = Raise AssertionError /\
  fst (wrapper_value 8 3 st_people) = Raise AssertionError /\
  fst (wrapper_value 8 6 st_people) = Raise AssertionError /\
  fst (wrapper_value 8 7 st_people) = Ok (VRef 5).
Proof. repeat split; reflexivity. Qed.

(** The inherited check lets a non-empty list through, required or not. *)
Lemma ComplexValueModel_value_nonempty_list (st : state) (l : addr)
  (required : bool) (x : val) (r : list val) :
  store st !! l = Some (OList (x :: r)) ->
  ComplexValueModel_value (VRef l) required st = (Ok (VRef l), st).
Proof.
  intros Hl. unfold ComplexValueModel_value. run.
  destruct required; [|reflexivity].
  cbv beta iota. simpl truthy. rewrite Hl. reflexivity.
Qed.

(** Under a permissive element class every plain mapping is rejected,
    whatever its keys: the first element of the list that is a dict makes
    [value()] raise [AssertionError] (unless [support_dict_value] is set). *)
Theorem ListComplexValueModel_value_permissive_rejects_mapping (fuel : nat)
  (st st1 : state) (a l k i : addr) (c : cname) (cls : class_def)
  (required need_size : bool) (rest : list val)
  (items : list (string * val)) :
  store st !! a =
    Some (OWrapper (ListComplexValueModel (VRef l) required need_size
                      (Some (T_record c)) false)) ->
  store st !! l = Some (OList (VRef k :: rest)) ->
  store st !! k = Some (ODict items) ->
  dict_get c (classes st) = Some cls ->
  STRICT_MODE cls = false ->
  issubclass (classes st) (T_record c) T_BaseDataModel = true ->
  BaseDataModel___init__ fuel c []
    {| classes := classes st; store := store st;
       calls := CallValue a :: calls st |} = (Ok i, st1) ->
  fst (wrapper_value fuel a st) = Raise AssertionError.
Proof.
  intros Ha Hl Hk Hcls Hstrict Hsub Hinit.
  destruct (init_result _ _ _ _ _ Hinit) as (Hc1 & _ & Hi & Hrec & Hold).
  simpl in Hc1, Hi, Hrec, Hold.
  assert (Hk1 : store st1 !! k = Some (ODict items)).
  { rewrite Hold; [exact Hk|]. eapply lookup_lt_Some; eauto. }
  subst i.
  assert (Hcls1 : dict_get c (classes st1) = Some cls) by (by rewrite Hc1).
  assert (Hsub1 : issubclass (classes st1) (T_record c) T_BaseDataModel = true)
    by (by rewrite Hc1).
  unfold wrapper_value. unfold bind at 1. unfold deref. rewrite Ha.
  cbv beta iota. unfold bind at 1. unfold log. cbv beta iota.
  remember {| classes := classes st; store := store st;
              calls := CallValue a :: calls st |} as st' eqn:Est in *.
  assert (Hs : store st' = store st) by (subst st'; reflexivity).
  assert (Hc : classes st' = classes st) by (subst st'; reflexivity).
  clear Est.
  assert (Hl' : store st' !! l = Some (OList (VRef k :: rest)))
    by (rewrite Hs; exact Hl).
  assert (Hk' : store st' !! k = Some (ODict items))
    by (rewrite Hs; exact Hk).
  rewrite <- Hc in Hsub, Hcls.
  unfold ListComplexValueModel_value. unfold bind at 1.
  rewrite (ComplexValueModel_value_nonempty_list st' l required _ _ Hl').
  cbv beta iota. run. simpl type_of. rewrite Hl'. cbv beta iota.
  change (issubclass (classes st') T_list T_list) with true.
  cbv beta iota. rewrite Hl'. cbv beta iota.
  destruct (required && need_size);
    change (nonempty (VRef k :: rest)) with true; cbv beta iota.
  all: simpl check_elements; run; simpl type_of; rewrite Hk'; cbv beta iota.
  all: change (issubclass (classes st') T_dict (T_record c)) with false.
  all: cbv beta iota; simpl type_of; rewrite Hk'; cbv beta iota.
  all: change (issubclass (classes st') T_dict T_dict) with true.
  all: cbv beta iota; unfold instantiate; run; rewrite Hinit; cbv beta iota.
  all: simpl type_of; rewrite Hrec; cbv beta iota; rewrite Hsub1.
  all: cbv beta iota; rewrite Hk1; cbv beta iota; rewrite Hcls1.
  all: cbv beta iota; rewrite Hstrict, list_in_strings_never; reflexivity.
Qed.

(** The list [[{"name": "x"}]] under the permissive class [Person]. *)
Lemma ListComplexValueModel_value_permissive_rejects_mapping_witness :
  fst (wrapper_value 8 6 st_people) = Raise AssertionError.
Proof.
  apply (ListComplexValueModel_value_permissive_rejects_mapping 8 st_people
           (snd (BaseDataModel___init__ 8 "Person" []
                   {| classes := classes st_people;
                      store := store st_people;
                      calls := CallValue 6 :: calls st_people |}))
           6 5 4 9 "Person"
           (snd (subclass "Person" mro_BaseDataModel false BaseDataModel_dir
                   [("name", VStr "")] []))
           false false [] [("name", VStr "x")]);
    reflexivity.
Defined.

(** ** Document load *)

(** C7 (code defect).  The claim is that a field declared with a record
    class is loaded into a fresh instance of that class, for every such
    class.  [load_db_data] tests [v is BaseMGDBDataModel], so only the base
    class itself qualifies: for [Holder], whose field is declared with the
    subclass [Child], the document [{"child": {"n": 1}}] is handed to the
    assignment dispatch, which drops it; no instance is constructed and the
    field still holds the class.  For [Generic], declared with the base
    class, a fresh (empty) instance is stored. *)
Theorem load_db_data_ignores_subclass_reference :
  fst (holder_load "Holder" st_holder) = Ok 3 /\
  field (snd (holder_load "Holder" st_holder)) 3 "child" =
    Some (VType (T_record "Child")) /\
  store (snd (holder_load "Holder" st_holder)) =
    store st_holder ++
      [ODict [("child", VType (T_record "Child"))]; ORecord "Holder" 2] /\
  fst (holder_load "Generic" st_holder) = Ok 3 /\
  field (snd (holder_load "Generic" st_holder)) 3 "child" = Some (VRef 5) /\
  store (snd (holder_load "Generic" st_holder)) !! 5 =
    Some (ORecord "BaseMGDBDataModel" 4).
Proof. repeat split; reflexivity. Qed.

(** Rewrite with a lookup equation whose two sides may be typed through
    [addr] and [heap] or through [nat] and [list obj]. *)
Ltac rewrite_lookup H :=
  match type of H with
  | _ = ?r =>
      match goal with
      | |- context [@lookup ?K ?V ?T ?I ?k ?h] =>
          let E := fresh in
          assert (E : @lookup K V T I k h = r) by exact H;
          rewrite E; clear E
      end
  end.

(** ** The key guard and strict mode *)

Lemma check_key_format_schema_reserved (key_dirs : list string)
  (d : list (string * val)) (st : state) :
  forallb (fun _key => negb (dict_mem _key d)) key_dirs = false ->
  _check_key_format key_dirs (inl d) st = (Raise RuntimeError, st).
Proof.
  induction key_dirs as [|k r IH]; simpl; [discriminate|].
  destruct (dict_mem k d); simpl; auto.
Qed.





(** A class whose schema declares a key that is in its cached list of
    reserved names ([_keys_limited]) cannot be instantiated: the
    constructor raises [RuntimeError], whatever the overrides, before
    anything is copied or assigned. *)
Theorem init_reserved_schema_key_raises (fuel : nat) (st : state) (c : cname)
  (cls : class_def) (kwargs : list (string * val)) :
  dict_get c (classes st) = Some cls ->
  schema_keys_allowed cls = false ->
  BaseDataModel___init__ fuel c kwargs st =
    (Raise RuntimeError,
     set_store st
       ((store st ++ [ODict []]) ++ [ORecord c (length (store st))])).
Proof.
  intros Hcls Hbad. unfold BaseDataModel___init__. run. rewrite Hcls.
  cbv beta iota.
  rewrite (check_key_format_schema_reserved _ _ _ Hbad). reflexivity.
Qed.

(** [Clash] declares a field named [update]. *)
Lemma init_reserved_schema_key_raises_witness :
  BaseDataModel___init__ 8 "Clash" [] st_clash =
    (Raise RuntimeError,
     set_store st_clash
       ((store st_clash ++ [ODict []]) ++
        [ORecord "Clash" (length (store st_clash))])).
Proof.
  apply (init_reserved_schema_key_raises 8 st_clash "Clash"
           (snd (subclass "Clash" mro_BaseDataModel false BaseDataModel_dir
                   [("update", VInt 0)] []))
           []);
    reflexivity.
Defined.

(** ** Arguments that are no dict *)

Lemma issubclass_T_dict (cs : list (cname * class_def)) (t : pytype) :
  issubclass cs t T_dict = pytype_eqb t T_dict.
Proof. unfold issubclass. destruct t; reflexivity. Qed.

(** Handed anything but a dict, [update] and [upgrade] return the instance,
    [load_easy_data] returns [None] and [load_db_data] raises [ValueError];
    none of them changes the state. *)
Theorem non_dict_argument_is_skipped (n : nat) (strict_mode : bool)
  (st : state) (self : addr) (v : val) (t : pytype) :
  type_of (store st) v = Some t ->
  pytype_eqb t T_dict = false ->
  BaseDataModel_update self v st = (Ok self, st) /\
  BaseDataModel_upgrade self v st = (Ok self, st) /\
  BaseExtraDictDataModel_load_easy_data self v st = (Ok VNone, st) /\
  BaseMGDBDataModel_load_db_data (S n) strict_mode self v st =
    (Raise ValueError, st).
Proof.
  intros Ht Hd.
  unfold BaseDataModel_update, BaseDataModel_upgrade,
    BaseExtraDictDataModel_load_easy_data.
  simpl BaseMGDBDataModel_load_db_data.
  run. rewrite Ht, issubclass_T_dict, Hd. repeat split; reflexivity.
Qed.

(** The integer 3 handed to the person of [st_person]. *)
Lemma non_dict_argument_is_skipped_witness :
  BaseDataModel_update 1 (VInt 3) st_person = (Ok 1, st_person) /\
  BaseDataModel_upgrade 1 (VInt 3) st_person = (Ok 1, st_person) /\
  BaseExtraDictDataModel_load_easy_data 1 (VInt 3) st_person =
    (Ok VNone, st_person) /\
  BaseMGDBDataModel_load_db_data 1 false 1 (VInt 3) st_person =
    (Raise ValueError, st_person).
Proof.
  apply (non_dict_argument_is_skipped 0 false st_person 1 (VInt 3) T_int);
    reflexivity.
Defined.

(** ** Documents without schema keys *)

Lemma load_fields_absent (rec : addr -> val -> M state addr)
  (new : cname -> M state addr) (self db : addr)
  (doc schema : list (string * val)) (st : state) :
  store st !! db = Some (ODict doc) ->
  forallb (fun kv => negb (dict_mem (fst kv) doc)) schema = true ->
  load_fields rec new self db schema st = (Ok tt, st).
Proof.
  intros Hdb. induction schema as [|[k v] r IH]; [reflexivity|].
  simpl. intros H. apply andb_prop in H as [Hk Hr].
  run. rewrite Hdb. cbv beta iota. unfold dict_mem in Hk.
  destruct (dict_get k doc); [discriminate|]. cbv beta iota. auto.
Qed.

(** [load_db_data] reads the document under the keys of the schema only:
    for an instance that holds no field under the name
    [DATA_DEFAULT_FORMAT] (so that the schema read through the instance is
    the one of its class), a document that holds none of the schema's keys
    is ignored altogether, its other keys included, and the instance is
    returned unchanged. *)
Theorem load_db_data_without_schema_keys (n : nat) (strict_mode : bool)
  (st : state) (self d db : addr) (c : cname) (cls : class_def)
  (items doc : list (string * val)) :
  store st !! self = Some (ORecord c d) ->
  store st !! d = Some (ODict items) ->
  dict_get c (classes st) = Some cls ->
  dict_mem "DATA_DEFAULT_FORMAT" items = false ->
  store st !! db = Some (ODict doc) ->
  forallb (fun kv => negb (dict_mem (fst kv) doc)) (DATA_DEFAULT_FORMAT cls)
    = true ->
  BaseMGDBDataModel_load_db_data (S n) strict_mode self (VRef db) st =
    (Ok self, st).
Proof.
  intros Hself Hd Hcls Hschema Hdb Habs. cbn [BaseMGDBDataModel_load_db_data].
  unfold bind at 1. unfold isinstance at 1. simpl type_of. rewrite Hdb.
  cbv beta iota.
  change (issubclass (classes st) T_dict T_dict) with true. cbv beta iota.
  rewrite (bind_ok _ _ _ _ _
             (self_attr_class st self d c cls items _ _
                Hself Hd Hcls Hschema)).
  rewrite (bind_ok _ _ _ _ _ (load_fields_absent _ _ _ _ _ _ _ Hdb Habs)).
  reflexivity.
Qed.

(** The [Child] of [st_family] declares [n]; the document at address 3
    only holds [child]. *)
Lemma load_db_data_without_schema_keys_witness :
  BaseMGDBDataModel_load_db_data 1 false 1 (VRef 3) st_family =
    (Ok 1, st_family).
Proof.
  apply (load_db_data_without_schema_keys 0 false st_family 1 0 3 "Child"
           (snd (subclass "Child" mro_BaseMGDBDataModel false
                   BaseMGDBDataModel_dir [("n", VInt 0)] []))
           [("n", VInt 0)] [("child", VRef 2)]);
    reflexivity.
Defined.

(** ** Wrappers: type check, element check and the size flag *)

(** The type check of [FixedValueModel.value] only concerns truthy values.
    A falsy stored value is returned whatever [value_cls] is (or refused
    by the inherited check when the wrapper is required).  A truthy one is
    returned when [value_cls] is a class it is an instance of, raises
    [AssertionError] when [value_cls] is a class it is no instance of, and
    raises [TypeError] when [value_cls] is [None], the default of the
    constructor, which [isinstance] does not accept. *)
Theorem FixedValueModel_value_checks_truthy_only (n : nat) (st : state)
  (a : addr) (d : val) (required : bool) (vc : option pytype) :
  store st !! a = Some (OWrapper (FixedValueModel d required vc)) ->
  let st' :=
    {| classes := classes st; store := store st;
       calls := CallValue a :: calls st |} in
  (truthy (store st) d = Some false ->
   wrapper_value n a st =
     (if required then Raise AssertionError else Ok d, st')) /\
  (forall t u,
     truthy (store st) d = Some true ->
     type_of (store st) d = Some t ->
     vc = Some u ->
     wrapper_value n a st =
       (if issubclass (classes st) t u then Ok d else Raise AssertionError,
        st')) /\
  (truthy (store st) d = Some true ->
   vc = None ->
   wrapper_value n a st = (Raise TypeError, st')).
Proof.
  intros Ha st'. subst st'. split; [|split].
  - intros Hf. unfold wrapper_value. run. rewrite Ha. cbv beta iota.
    unfold FixedValueModel_value, ComplexValueModel_value. run.
    destruct required; simpl; rewrite Hf; simpl; rewrite ?Hf; reflexivity.
  - intros t u Ht Hty ->. unfold wrapper_value. run. rewrite Ha.
    cbv beta iota.
    unfold FixedValueModel_value, ComplexValueModel_value. run.
    destruct required; simpl; rewrite Ht; simpl; rewrite ?Ht; simpl;
      rewrite Hty; simpl;
      destruct (issubclass (classes st) t u); reflexivity.
  - intros Ht ->. unfold wrapper_value. run. rewrite Ha. cbv beta iota.
    unfold FixedValueModel_value, ComplexValueModel_value. run.
    destruct required; simpl; rewrite Ht; simpl; rewrite ?Ht; reflexivity.
Qed.

(** The empty string and the string ["a"] under [value_cls = int], and the
    string ["a"] under the default [value_cls]. *)
Lemma FixedValueModel_value_checks_truthy_only_witness :
  wrapper_value 1 0 st_fixed =
    (Ok (VStr ""),
     {| classes := classes st_fixed; store := store st_fixed;
        calls := [CallValue 0] |}) /\
  wrapper_value 1 1 st_fixed =
    (Raise AssertionError,
     {| classes := classes st_fixed; store := store st_fixed;
        calls := [CallValue 1] |}) /\
  wrapper_value 1 2 st_fixed =
    (Raise TypeError,
     {| classes := classes st_fixed; store := store st_fixed;
        calls := [CallValue 2] |}).
Proof.
  split; [|split].
  - apply (proj1 (FixedValueModel_value_checks_truthy_only 1 st_fixed 0
                    (VStr "") false (Some T_int) eq_refl)).
    reflexivity.
  - apply (proj1 (proj2 (FixedValueModel_value_checks_truthy_only 1 st_fixed 1
                           (VStr "a") false (Some T_int) eq_refl))
             T_str T_int);
      reflexivity.
  - apply (proj2 (proj2 (FixedValueModel_value_checks_truthy_only 1 st_fixed 2
                           (VStr "a") false None eq_refl)));
      reflexivity.
Defined.

Lemma check_elements_instances (fuel : nat) (t : pytype) (s : bool)
  (l : list val) (st : state) :
  Forall (fun e => exists te, type_of (store st) e = Some te /\
                              issubclass (classes st) te t = true) l ->
  check_elements fuel t s l st = (Ok tt, st).
Proof.
  induction 1 as [|e r (te & Hte & Hsub) _ IH]; [reflexivity|].
  simpl. run. rewrite Hte. cbv beta iota. rewrite Hsub. exact IH.
Qed.

(** [ListComplexValueModel.value] returns the stored list when it is not
    empty and each of its elements is an instance of [value_cls], whatever
    the other flags are. *)
Theorem ListComplexValueModel_value_accepts_instances (fuel : nat)
  (st : state) (a l : addr) (required need_size s : bool) (t : pytype)
  (x : val) (rest : list val) :
  store st !! a =
    Some (OWrapper (ListComplexValueModel (VRef l) required need_size
                      (Some t) s)) ->
  store st !! l = Some (OList (x :: rest)) ->
  Forall (fun e => exists te, type_of (store st) e = Some te /\
                              issubclass (classes st) te t = true)
    (x :: rest) ->
  wrapper_value fuel a st =
    (Ok (VRef l),
     {| classes := classes st; store := store st;
        calls := CallValue a :: calls st |}).
Proof.
  intros Ha Hl Hall. unfold wrapper_value. unfold bind at 1. unfold deref.
  rewrite Ha. cbv beta iota. unfold bind at 1. unfold log. cbv beta iota.
  remember {| classes := classes st; store := store st;
              calls := CallValue a :: calls st |} as st' eqn:Est in *.
  assert (Hs : store st' = store st) by (subst st'; reflexivity).
  assert (Hc : classes st' = classes st) by (subst st'; reflexivity).
  clear Est. rewrite <- Hs in Hl, Hall. rewrite <- Hc in Hall.
  unfold ListComplexValueModel_value. unfold bind at 1.
  rewrite (ComplexValueModel_value_nonempty_list st' l required _ _ Hl).
  cbv beta iota. run. simpl type_of. rewrite Hl. cbv beta iota.
  change (issubclass (classes st') T_list T_list) with true.
  cbv beta iota. rewrite Hl. cbv beta iota.
  change (nonempty (x :: rest)) with true.
  destruct (required && need_size); cbv beta iota;
    rewrite (check_elements_instances fuel t s _ st' Hall); reflexivity.
Qed.

(** The list [[1, True]] under [value_cls = int]: [bool] derives from
    [int]. *)
Lemma ListComplexValueModel_value_accepts_instances_witness :
  wrapper_value 1 1 st_numbers =
    (Ok (VRef 0),
     {| classes := classes st_numbers; store := store st_numbers;
        calls := [CallValue 1] |}).
Proof.
  apply (ListComplexValueModel_value_accepts_instances 1 st_numbers 1 0
           true true false T_int (VInt 1) [VBool true]);
    try reflexivity.
  constructor; [exists T_int; split; reflexivity|].
  constructor; [exists T_bool; split; reflexivity|]. constructor.
Defined.

(** The [need_size] flag never changes what [ListComplexValueModel.value]
    does: its assertion is only reached when the wrapper is required, and
    then the inherited check has already refused the empty list. *)
Theorem ListComplexValueModel_need_size_is_dead (fuel : nat) (d : val)
  (required need_size : bool) (vc : option pytype) (s : bool) (st : state) :
  ListComplexValueModel_value fuel d required need_size vc s st =
  ListComplexValueModel_value fuel d required false vc s st.
Proof.
  destruct need_size; [|reflexivity]. destruct required; [|reflexivity].
  unfold ListComplexValueModel_value, ComplexValueModel_value. run.
  destruct (truthy (store st) d) as [[|]|] eqn:Ht; try reflexivity.
  cbv beta iota.
  destruct (type_of (store st) d) as [t|]; [|reflexivity]. cbv beta iota.
  destruct (issubclass (classes st) t T_list); [|reflexivity]. cbv beta iota.
  destruct d as [| | | | |l]; try reflexivity.
  simpl in Ht. destruct (store st !! l) as [[items| |w|]|]; try reflexivity.
  cbv beta iota. injection Ht as ->. reflexivity.
Qed.

(** ** The wrapper contract *)

(** A wrapper of a class that is not below [LimitedValueModel] (the bare
    [BaseValueModel] and the [BaseDBValueModel] marker) implements neither
    half of the contract: [apply] and [value] run
    [raise NotImplemented(...)], which is a [TypeError], and store
    nothing. *)
Theorem marker_wrapper_contract_raises (n : nat) (st : state) (a : addr)
  (w : wrapper) (v : val) :
  store st !! a = Some (OWrapper w) ->
  existsb (wclass_eqb C_LimitedValueModel) (wclass_mro (wclass_of w)) = false ->
  wrapper_apply a v st =
    (Raise TypeError,
     {| classes := classes st; store := store st;
        calls := CallApply a v :: calls st |}) /\
  wrapper_value n a st =
    (Raise TypeError,
     {| classes := classes st; store := store st;
        calls := CallValue a :: calls st |}).
Proof.
  intros Ha Hw. unfold wrapper_apply, wrapper_value. run. rewrite Ha.
  destruct w; simpl in Hw; try discriminate; split; reflexivity.
Qed.

(** The marker of [st_tagged]. *)
Lemma marker_wrapper_contract_raises_witness :
  wrapper_apply 0 (VInt 1) st_tagged =
    (Raise TypeError,
     {| classes := classes st_tagged; store := store st_tagged;
        calls := [CallApply 0 (VInt 1)] |}) /\
  wrapper_value 1 0 st_tagged =
    (Raise TypeError,
     {| classes := classes st_tagged; store := store st_tagged;
        calls := [CallValue 0] |}).
Proof.
  apply (marker_wrapper_contract_raises 1 st_tagged 0 BaseDBValueModel
           (VInt 1));
    reflexivity.
Defined.

(** For the two classes that inherit both halves of the contract from
    [LimitedValueModel] unchanged, [value()] returns what the last [apply]
    was given, whatever that is. *)
Theorem LimitedValueModel_apply_then_value (n : nat) (st : state) (a : addr)
  (w : wrapper) (v : val) :
  store st !! a = Some (OWrapper w) ->
  wclass_of w = C_LimitedValueModel \/ wclass_of w = C_BetweenValueModel ->
  exists st1,
    wrapper_apply a v st = (Ok v, st1) /\
    wrapper_value n a st1 =
      (Ok v,
       {| classes := classes st1; store := store st1;
          calls := CallValue a :: calls st1 |}).
Proof.
  intros Ha Hw. eexists. split.
  - unfold wrapper_apply. run. rewrite Ha.
    destruct w; destruct Hw as [Hw|Hw]; try discriminate; reflexivity.
  - unfold wrapper_value. run. simpl store.
    destruct w; destruct Hw as [Hw|Hw]; try discriminate;
      cbn [set_default_value]; rewrite (lookup_put_same _ _ _ _ Ha);
      reflexivity.
Qed.

(** The first wrapper of [st_shadow]. *)
Lemma LimitedValueModel_apply_then_value_witness :
  exists st1,
    wrapper_apply 0 (VStr "x") st_shadow = (Ok (VStr "x"), st1) /\
    wrapper_value 1 0 st1 =
      (Ok (VStr "x"),
       {| classes := classes st1; store := store st1;
          calls := CallValue 0 :: calls st1 |}).
Proof.
  apply (LimitedValueModel_apply_then_value 1 st_shadow 0
           (LimitedValueModel (VInt 1)) (VStr "x"));
    [reflexivity | left; reflexivity].
Defined.

(** ** Computations that only read *)

Lemma read_only_bind {A B} (c : M state A) (k : A -> M state B) :
  read_only c -> (forall x, read_only (k x)) -> read_only (bind c k).
Proof.
  intros Hc Hk st. unfold bind. specialize (Hc st).
  destruct (c st) as [[x|e| |] st']; simpl in *; subst; auto. apply Hk.
Qed.

Lemma read_only_const {A} (r : outcome A) : read_only (fun st => (r, st)).
Proof. intros st. reflexivity. Qed.

Lemma read_only_deref (a : addr) : read_only (deref a).
Proof. intros st. unfold deref. destruct (store st !! a); reflexivity. Qed.

Lemma read_only_get_class (c : cname) : read_only (get_class c).
Proof.
  intros st. unfold get_class. destruct (dict_get c (classes st)); reflexivity.
Qed.

Lemma read_only_typeof (v : val) : read_only (typeof v).
Proof.
  intros st. unfold typeof. destruct (type_of (store st) v); reflexivity.
Qed.

Lemma read_only_isinstance (v : val) (t : pytype) :
  read_only (isinstance v t).
Proof.
  intros st. unfold isinstance. destruct (type_of (store st) v); reflexivity.
Qed.

Lemma read_only_py_bool (v : val) : read_only (py_bool v).
Proof.
  intros st. unfold py_bool. destruct (truthy (store st) v); reflexivity.
Qed.

Lemma read_only_assert (b : bool) : read_only (@assert state b).
Proof. destruct b; apply read_only_const. Qed.

Lemma read_only_check_key_format (key_dirs : list string)
  (formatter : list (string * val) + string) :
  read_only (_check_key_format key_dirs formatter).
Proof. intros st. apply check_key_format_state. Qed.

Create HintDb read_only.
#[local] Hint Resolve read_only_deref read_only_get_class read_only_typeof
  read_only_isinstance read_only_py_bool read_only_assert
  read_only_check_key_format : read_only.

Ltac read_only_tac :=
  repeat first
    [ apply read_only_bind; [|intros]
    | solve [auto with read_only]
    | apply read_only_const
    | match goal with
      | |- read_only (if ?b then _ else _) => destruct b
      | |- read_only (match ?x with _ => _ end) => destruct x
      | |- read_only (let (_, _) := ?x in _) => destruct x
      end ].

Lemma read_only_dict_items (d : addr) : read_only (dict_items d).
Proof. unfold dict_items. read_only_tac. Qed.

Lemma read_only_record_parts (a : addr) : read_only (record_parts a).
Proof. unfold record_parts. read_only_tac. Qed.

Lemma read_only_keys_of (b : val) : read_only (keys_of b).
Proof. unfold keys_of. read_only_tac. Qed.

Lemma read_only_subscript (b : val) (k : string) : read_only (subscript b k).
Proof. unfold subscript. read_only_tac. Qed.

Lemma read_only_index (b : val) (i : nat) : read_only (index b i).
Proof. unfold index. read_only_tac. Qed.

Lemma read_only_list_length (v : val) : read_only (list_length v).
Proof. unfold list_length. read_only_tac. Qed.

#[local] Hint Resolve read_only_dict_items read_only_record_parts
  read_only_keys_of read_only_subscript read_only_index
  read_only_list_length : read_only.

Lemma read_only_self_attr {A} (self : addr) (name : string)
  (attr : class_def -> A) :
  read_only (self_attr self name attr).
Proof. unfold self_attr. read_only_tac. Qed.

Lemma read_only_equals_fields (rec : val -> val -> M state bool)
  (ignore : M state (list string)) (own : list (string * val)) (b : val) :
  (forall x y, read_only (rec x y)) ->
  read_only ignore ->
  read_only (equals_fields rec ignore own b).
Proof.
  intros Hrec Hig. induction own as [|[k v] r IH]; simpl.
  - apply read_only_const.
  - apply read_only_bind; [exact Hig|]. intros skipped.
    destruct (existsb (String.eqb k) skipped); [exact IH|].
    apply read_only_bind; [auto with read_only|]. intros bk.
    apply read_only_bind; [apply Hrec|]. intros [|];
      [exact IH | apply read_only_const].
Qed.

Lemma read_only_equals_elements (rec : val -> val -> M state bool)
  (l : list val) (b : val) :
  (forall x y, read_only (rec x y)) ->
  forall i, read_only (equals_elements rec i l b).
Proof.
  intros Hrec. induction l as [|v r IH]; intros i; simpl.
  - apply read_only_const.
  - apply read_only_bind; [auto with read_only|]. intros bi.
    apply read_only_bind; [apply Hrec|]. intros [|];
      [apply IH | apply read_only_const].
Qed.

Lemma read_only_equals (n : nat) :
  forall a b, read_only (_equals n a b).
Proof.
  induction n as [|n IH]; intros a b; simpl; [apply read_only_const|].
  apply read_only_bind; [auto with read_only|]. intros [|].
  - destruct a; try apply read_only_const.
    apply read_only_bind; [auto with read_only|]. intros [c d].
    apply read_only_bind; [auto with read_only|]. intros own.
    apply read_only_bind; [auto with read_only|]. intros bkeys.
    apply read_only_bind; [auto with read_only|]. intros _.
    apply read_only_equals_fields; [exact IH | apply read_only_self_attr].
  - apply read_only_bind; [auto with read_only|]. intros ta.
    apply read_only_bind; [auto with read_only|]. intros tb.
    apply read_only_bind; [auto with read_only|]. intros _.
    apply read_only_bind; [auto with read_only|]. intros [|].
    { destruct a; try apply read_only_const.
      apply read_only_bind; [auto with read_only|]. intros own.
      apply read_only_bind; [auto with read_only|]. intros bkeys.
      apply read_only_bind; [auto with read_only|]. intros _.
      apply read_only_equals_fields; [exact IH | apply read_only_const]. }
    apply read_only_bind; [auto with read_only|]. intros [|].
    { destruct a; try apply read_only_const.
      apply read_only_bind; [auto with read_only|].
      intros [items| | |]; try apply read_only_const.
      apply read_only_bind; [auto with read_only|]. intros len_b.
      apply read_only_bind; [auto with read_only|]. intros _.
      by apply read_only_equals_elements. }
    intros st. destruct (py_eq (store st) a b); reflexivity.
Qed.


(** ** Computations that only allocate *)

Section Quiet.

Variable cs : list (cname * class_def).
Variable base : nat.

Lemma quiet_bind {A B} (c : M state A) (k : A -> M state B) :
  quiet cs base c -> (forall x, quiet cs base (k x)) ->
  quiet cs base (bind c k).
Proof.
  intros Hc Hk st Hst Hlen. unfold bind.
  destruct (Hc st Hst Hlen) as (Hcs & Hlog & Hl & Hsame).
  destruct (c st) as [[x|e| |] st']; simpl in *; auto.
  destruct (Hk x st' Hcs Hl) as (Hcs' & Hlog' & Hl' & Hsame').
  repeat split; try congruence.
  intros a Ha. rewrite (Hsame' a Ha). auto.
Qed.

Lemma quiet_read_only {A} (c : M state A) :
  read_only c -> quiet cs base c.
Proof. intros Hc st Hst Hlen. rewrite (Hc st). auto. Qed.

Lemma quiet_const {A} (r : outcome A) : quiet cs base (fun st => (r, st)).
Proof. apply quiet_read_only, read_only_const. Qed.

Lemma quiet_ret_bind {A B} (x : A) (k : A -> M state B) :
  quiet cs base (k x) -> quiet cs base (bind (ret x) k).
Proof. intros H st Hst Hlen. exact (H st Hst Hlen). Qed.

Lemma quiet_bind_get_class {B} (c : cname) (k : class_def -> M state B) :
  (forall cls, dict_get c cs = Some cls -> quiet cs base (k cls)) ->
  quiet cs base (bind (get_class c) k).
Proof.
  intros Hk st Hst Hlen. unfold bind, get_class.
  destruct (dict_get c (classes st)) as [cls|] eqn:Hc; [|simpl; auto].
  rewrite Hst in Hc. exact (Hk cls Hc st Hst Hlen).
Qed.

(** A fresh address is not below [base]. *)
Lemma quiet_alloc {B} (o : obj) (k : addr -> M state B) :
  (forall y, base <= y -> quiet cs base (k y)) ->
  quiet cs base (bind (alloc o) k).
Proof.
  intros Hk st Hst Hlen. unfold bind, alloc.
  assert (Hl : base <= length (store (set_store st (store st ++ [o])))).
  { simpl. rewrite length_app. lia. }
  destruct (Hk (length (store st)) Hlen (set_store st (store st ++ [o])) Hst Hl)
    as (Hcs & Hlog & Hl' & Hsame).
  repeat split; auto.
  intros a Ha. rewrite (Hsame a Ha). simpl. apply lookup_app_l. lia.
Qed.

Lemma quiet_put (y : addr) (o : obj) :
  base <= y -> quiet cs base (put y o).
Proof.
  intros Hy st Hst Hlen. unfold put. cbn [snd]. simpl.
  repeat split; auto.
  - rewrite length_put. exact Hlen.
  - intros a Ha. apply lookup_put_other. lia.
Qed.

Lemma quiet_log_value (a : addr) : quiet cs base (log (CallValue a)).
Proof. intros st Hst Hlen. simpl. auto. Qed.

Lemma quiet_lift_heap {A} (c : M heap A) :
  below base c -> quiet cs base (lift_heap c).
Proof.
  intros Hc st Hst Hlen. unfold lift_heap.
  destruct (Hc (store st) Hlen) as [Hl Hsame].
  destruct (c (store st)) as [r h]. simpl in *. auto.
Qed.

Create HintDb quiet.
#[local] Hint Resolve quiet_read_only quiet_log_value : quiet.
#[local] Hint Resolve read_only_deref read_only_get_class read_only_typeof
  read_only_isinstance read_only_py_bool read_only_assert
  read_only_check_key_format read_only_dict_items read_only_record_parts
  : quiet.

Ltac quiet_tac :=
  repeat first
    [ apply quiet_bind; [|intros]
    | solve [auto with quiet]
    | apply quiet_const
    | match goal with
      | |- quiet _ _ (if ?b then _ else _) => destruct b
      | |- quiet _ _ (match ?x with _ => _ end) => destruct x
      | |- quiet _ _ (let (_, _) := ?x in _) => destruct x
      end ].

(** Construction without overrides. *)
Lemma quiet_init (fuel : nat) (c : cname) :
  quiet cs base (BaseDataModel___init__ fuel c []).
Proof.
  unfold BaseDataModel___init__. simpl setattr_each.
  apply quiet_bind; [auto with quiet|]. intros cls.
  apply quiet_alloc. intros d Hd. apply quiet_alloc. intros self Hself.
  apply quiet_bind; [auto with quiet|]. intros _.
  apply quiet_bind.
  { apply quiet_lift_heap, below_copy_items, below_deepcopy. }
  intros [data m]. apply quiet_bind; [auto with quiet|]. intros own.
  apply quiet_bind; [by apply quiet_put|]. intros _.
  apply quiet_bind; apply quiet_const || (intros; apply quiet_const).
Qed.

Lemma quiet_instantiate (fuel : nat) (t : pytype) :
  quiet cs base (instantiate fuel t).
Proof.
  unfold instantiate. destruct t; try apply quiet_const.
  - apply quiet_alloc. intros; apply quiet_const.
  - apply quiet_alloc. intros; apply quiet_const.
  - apply quiet_bind; [apply quiet_init|]. intros; apply quiet_const.
Qed.

#[local] Hint Resolve quiet_init quiet_instantiate : quiet.

Lemma quiet_check_elements (fuel : nat) (t : pytype) (s : bool)
  (l : list val) :
  quiet cs base (check_elements fuel t s l).
Proof. induction l as [|k r IH]; simpl; quiet_tac. Qed.

#[local] Hint Resolve quiet_check_elements : quiet.

(** [value()] of any wrapper. *)
Lemma quiet_wrapper_value (fuel : nat) (a : addr) :
  quiet cs base (wrapper_value fuel a).
Proof.
  unfold wrapper_value, DateTime_value, FixedValueModel_value,
    ListComplexValueModel_value, ComplexValueModel_value.
  quiet_tac.
Qed.

Lemma quiet_list_append (tmp : addr) (x : val) :
  base <= tmp -> quiet cs base (list_append (VRef tmp) x).
Proof.
  intros Htmp. unfold list_append.
  apply quiet_bind; [auto with quiet|].
  intros [items| | |]; try apply quiet_const. by apply quiet_put.
Qed.

Lemma quiet_export_list (rec : val -> M state val) (tmp : addr)
  (l : list val) :
  (forall v, quiet cs base (rec v)) -> base <= tmp ->
  quiet cs base (export_list rec tmp l).
Proof.
  intros Hrec Htmp. induction l as [|p r IH]; simpl.
  - apply quiet_const.
  - apply quiet_bind; [apply Hrec|]. intros x.
    apply quiet_bind; [by apply quiet_list_append|]. intros _. exact IH.
Qed.

Lemma quiet_export_items (rec : val -> M state val) (tmp : addr)
  (l : list (string * val)) :
  (forall v, quiet cs base (rec v)) -> base <= tmp ->
  quiet cs base (export_items rec tmp l).
Proof.
  intros Hrec Htmp. induction l as [|[k v] r IH]; simpl.
  - apply quiet_const.
  - apply quiet_bind; [apply Hrec|]. intros x.
    apply quiet_bind; [auto with quiet|]. intros cur.
    apply quiet_bind; [by apply quiet_put|]. intros _. exact IH.
Qed.

Lemma quiet_catch_AssertionError {A} (c : M state A) :
  quiet cs base c -> quiet cs base (catch_AssertionError c).
Proof.
  intros Hc st Hst Hlen. unfold catch_AssertionError.
  specialize (Hc st Hst Hlen).
  destruct (c st) as [[x|[]| |] st']; exact Hc.
Qed.

Lemma quiet_to_dict (n : nat) :
  forall v, quiet cs base (_to_dict n v).
Proof.
  induction n as [|n IH]; intros v; simpl; [apply quiet_const|].
  apply quiet_bind; [auto with quiet|]. intros t.
  destruct (pytype_eqb t T_type); [apply quiet_const|].
  apply quiet_catch_AssertionError.
  apply quiet_bind; [auto with quiet|]. intros [|].
  { destruct v; try apply quiet_const.
    apply quiet_bind; [auto with quiet|]. intros [vc d]. apply IH. }
  apply quiet_bind; [auto with quiet|]. intros [|].
  { destruct v; try apply quiet_const.
    apply quiet_bind; [auto with quiet|].
    intros [items| | |]; try apply quiet_const.
    apply quiet_alloc. intros tmp Htmp.
    apply quiet_bind; [by apply quiet_export_list|].
    intros _. apply quiet_const. }
  apply quiet_bind; [auto with quiet|]. intros [|].
  { destruct v; try apply quiet_const.
    apply quiet_bind; [auto with quiet|]. intros items.
    apply quiet_alloc. intros tmp Htmp.
    apply quiet_bind; [by apply quiet_export_items|].
    intros _. apply quiet_const. }
  apply quiet_bind; [auto with quiet|]. intros [|]; [|apply quiet_const].
  destruct v; try apply quiet_const.
  apply quiet_bind; [apply quiet_wrapper_value|]. intros x. apply IH.
Qed.

Lemma quiet_check_list (rec : string -> val -> M state unit) (k : string)
  (i : nat) (l : list val) :
  (forall k' v, starts_with "self" k' = true -> quiet cs base (rec k' v)) ->
  starts_with "self" k = true ->
  quiet cs base (check_list rec k i l).
Proof.
  intros Hrec Hk. revert i. induction l as [|p r IH]; intros i; simpl.
  - apply quiet_const.
  - apply quiet_bind; [|intros; apply IH].
    apply Hrec. by apply starts_with_append.
Qed.

Lemma quiet_check_items (rec : string -> val -> M state unit) (k : string)
  (l : list (string * val)) :
  (forall k' v, starts_with "self" k' = true -> quiet cs base (rec k' v)) ->
  starts_with "self" k = true ->
  quiet cs base (check_items rec k l).
Proof.
  intros Hrec Hk. induction l as [|[k1 v1] r IH]; simpl.
  - apply quiet_const.
  - apply quiet_bind; [|intros; apply IH].
    apply Hrec. by apply starts_with_append.
Qed.

Lemma quiet_check_value (n : nat) :
  no_self_keys cs = true ->
  forall (c : cname) (k : string) (v : val),
    starts_with "self" k = true -> quiet cs base (_check_value n c k v).
Proof.
  intros Hno. induction n as [|n IH]; intros c k v Hk; simpl.
  - apply quiet_const.
  - apply quiet_bind_get_class. intros cls Hc.
    rewrite (path_not_declared cs c cls k Hno Hc Hk).
    apply quiet_bind; [auto with quiet|]. intros t.
    destruct (pytype_eqb t T_type); [apply quiet_const|].
    apply quiet_bind; [auto with quiet|]. intros [|].
    { destruct v; try apply quiet_const.
      apply quiet_bind; [auto with quiet|]. intros [vc d].
      apply IH. by apply starts_with_append. }
    apply quiet_bind; [auto with quiet|]. intros [|].
    { destruct v; try apply quiet_const.
      apply quiet_bind; [auto with quiet|].
      intros [| | |]; try apply quiet_const.
      apply quiet_check_list; auto. }
    apply quiet_bind; [auto with quiet|]. intros [|].
    { destruct v; try apply quiet_const.
      apply quiet_bind; [auto with quiet|]. intros items.
      apply quiet_check_items; auto. }
    apply quiet_ret_bind.
    apply quiet_bind; [auto with quiet|]. intros [|]; [|apply quiet_const].
    destruct v; try apply quiet_const.
    apply quiet_bind; [apply quiet_wrapper_value|]. intros; apply quiet_const.
Qed.

End Quiet.

(** What a quiet computation leaves behind: the store it started from,
    followed by fresh objects. *)
Lemma quiet_extends {A} (c : M state A) (st : state) :
  quiet (classes st) (length (store st)) c ->
  classes (snd (c st)) = classes st /\
  applies (calls (snd (c st))) = applies (calls st) /\
  exists fresh, store (snd (c st)) = store st ++ fresh.
Proof.
  intros Hc. destruct (Hc st eq_refl (le_n _)) as (Hcs & Hlog & Hl & Hsame).
  repeat split; auto.
  exists (drop (length (store st)) (store (snd (c st)))).
  rewrite <- (take_drop (length (store st)) (store (snd (c st)))) at 1.
  f_equal. apply list_eq. intros i.
  destruct (decide (i < length (store st))) as [Hi|Hi].
  - rewrite lookup_take_lt by exact Hi. by apply Hsame.
  - rewrite lookup_take_ge by lia. symmetry. apply lookup_ge_None. lia.
Qed.

(** [to_dict] changes no object that exists and returns a new one: whatever
    the instance holds and however the export ends, the store afterwards is
    the store before followed by new objects, and no [apply] was called on
    any wrapper (the export resolves wrappers through [value()] only); when
    the export succeeds, its result is a reference to the first of the new
    objects, never to [self.__dict__] or to another object that existed
    before. *)
Theorem to_dict_only_allocates (fuel : nat) (self : addr) (st : state) :
  applies (calls (snd (BaseDataModel_to_dict fuel self st))) =
    applies (calls st) /\
  (exists fresh,
     store (snd (BaseDataModel_to_dict fuel self st)) = store st ++ fresh) /\
  (forall c d items v,
     store st !! self = Some (ORecord c d) ->
     store st !! d = Some (ODict items) ->
     fst (BaseDataModel_to_dict fuel self st) = Ok v ->
     v = VRef (length (store st))).
Proof.
  split; [|split].
  - apply (quiet_extends (BaseDataModel_to_dict fuel self) st).
    unfold BaseDataModel_to_dict.
    apply quiet_bind; [apply quiet_read_only, read_only_record_parts|].
    intros [c d]. apply quiet_to_dict.
  - apply (quiet_extends (BaseDataModel_to_dict fuel self) st).
    unfold BaseDataModel_to_dict.
    apply quiet_bind; [apply quiet_read_only, read_only_record_parts|].
    intros [c d]. apply quiet_to_dict.
  - intros c d items v Hself Hd. unfold BaseDataModel_to_dict. run.
    rewrite Hself. cbv beta iota.
    destruct fuel as [|n]; [discriminate|].
    simpl _to_dict. run. simpl type_of. rewrite Hd. cbv beta iota.
    change (pytype_eqb T_dict T_type) with false. cbv beta iota.
    unfold catch_AssertionError. cbv beta iota.
    simpl type_of. rewrite Hd. cbv beta iota.
    change (issubclass (classes st) T_dict T_BaseDataModel) with false.
    cbv beta iota. simpl type_of. rewrite Hd. cbv beta iota.
    change (issubclass (classes st) T_dict T_list) with false.
    cbv beta iota. simpl type_of. rewrite Hd. cbv beta iota.
    change (issubclass (classes st) T_dict T_dict) with true.
    cbv beta iota. rewrite Hd. cbv beta iota.
    destruct (export_items (_to_dict n) (length (store st)) items _)
      as [[[]|[]| |] st2]; simpl; intros [= <-]; reflexivity.
Qed.

(** The export of the person of [st_person] is the new object at
    address 2. *)
Lemma to_dict_only_allocates_witness :
  applies (calls (snd (BaseDataModel_to_dict 2 1 st_person))) =
    applies (calls st_person) /\
  (exists fresh,
     store (snd (BaseDataModel_to_dict 2 1 st_person)) =
     store st_person ++ fresh) /\
  (forall v,
     fst (BaseDataModel_to_dict 2 1 st_person) = Ok v -> v = VRef 2).
Proof.
  destruct (to_dict_only_allocates 2 1 st_person) as (Hlog & Hnew & Hres).
  split; [exact Hlog|]. split; [exact Hnew|].
  intros v. exact (Hres "Person" 0 [("name", VStr "ann"); ("age", VInt 30)] v
                     eq_refl eq_refl).
Defined.

(** When no class declares a schema key that starts with [self], [check]
    changes no object that exists: the store afterwards is the store before
    followed by new objects (the instances that the element check of a list
    wrapper constructs). *)
Theorem check_only_allocates (fuel : nat) (self : addr) (st : state) :
  no_self_keys (classes st) = true ->
  exists fresh,
    store (snd (BaseDataModel_check fuel self st)) = store st ++ fresh.
Proof.
  intros Hno.
  apply (quiet_extends (BaseDataModel_check fuel self) st).
  unfold BaseDataModel_check.
  apply quiet_bind; [apply quiet_read_only, read_only_record_parts|].
  intros [c d]. apply quiet_bind; [|intros; apply quiet_const].
  by apply quiet_check_value.
Qed.

(** The account of [st_account]. *)
Lemma check_only_allocates_witness :
  exists fresh,
    store (snd (BaseDataModel_check 3 2 st_account)) =
    store st_account ++ fresh.
Proof.
  apply (check_only_allocates 3 2 st_account). reflexivity.
Defined.

(** ** Dicts *)

Lemma dict_get_set_same {A} (k : string) (v : A) (d : list (string * A)) :
  dict_get k (dict_set k v d) = Some v.
Proof.
  induction d as [|[k' v'] r IH]; simpl.
  - by rewrite String.eqb_refl.
  - destruct (String.eqb k k') eqn:E; simpl.
    + by rewrite String.eqb_refl.
    + by rewrite E.
Qed.

Lemma dict_get_set_other {A} (k k' : string) (v : A) (d : list (string * A)) :
  k' <> k -> dict_get k' (dict_set k v d) = dict_get k' d.
Proof.
  intros Hne. induction d as [|[k1 v1] r IH]; simpl.
  - destruct (String.eqb_spec k' k); [contradiction | reflexivity].
  - destruct (String.eqb_spec k k1) as [->|Hk]; simpl.
    + destruct (String.eqb_spec k' k1); [contradiction | reflexivity].
    + destruct (String.eqb k' k1); [reflexivity | exact IH].
Qed.

Lemma dict_get_absent {A} (k : string) (d : list (string * A)) :
  k ∉ dict_keys d -> dict_get k d = None.
Proof.
  induction d as [|[k1 v1] r IH]; simpl; [reflexivity|]. intros Hn.
  apply not_elem_of_cons in Hn as [Hk Hr].
  destruct (String.eqb_spec k k1) as [->|_]; [contradiction|]. by apply IH.
Qed.

Lemma dict_set_absent {A} (k : string) (v : A) (d : list (string * A)) :
  k ∉ dict_keys d -> dict_set k v d = d ++ [(k, v)].
Proof.
  induction d as [|[k1 v1] r IH]; simpl; [reflexivity|]. intros Hn.
  apply not_elem_of_cons in Hn as [Hk Hr].
  destruct (String.eqb_spec k k1) as [->|_]; [contradiction|].
  by rewrite IH.
Qed.

(** [d.update(e)] read back: the keys of [e] win. *)
Lemma dict_get_update {A} (k : string) (d e : list (string * A)) :
  NoDup (dict_keys e) ->
  dict_get k (dict_update d e) =
    match dict_get k e with
    | Some v => Some v
    | None => dict_get k d
    end.
Proof.
  unfold dict_update. revert d.
  induction e as [|[k1 v1] r IH]; intros d Hnd; [reflexivity|].
  change (dict_keys ((k1, v1) :: r)) with (k1 :: dict_keys r) in Hnd.
  apply NoDup_cons in Hnd as [Hk1 Hr]. simpl. rewrite (IH _ Hr).
  destruct (String.eqb_spec k k1) as [->|Hk].
  - rewrite (dict_get_absent k1 r Hk1). apply dict_get_set_same.
  - by rewrite dict_get_set_other.
Qed.

(** [d.update(e)] appends when the keys of [e] are new. *)
Lemma dict_update_fresh {A} (d e : list (string * A)) :
  NoDup (dict_keys d ++ dict_keys e) ->
  dict_update d e = d ++ e.
Proof.
  unfold dict_update. revert d.
  induction e as [|[k1 v1] r IH]; intros d Hnd.
  - simpl. by rewrite app_nil_r.
  - change (dict_keys ((k1, v1) :: r)) with (k1 :: dict_keys r) in Hnd.
    simpl. rewrite dict_set_absent.
    + rewrite IH; [by rewrite <- app_assoc|].
      unfold dict_keys in *. rewrite map_app. simpl.
      rewrite <- app_assoc. exact Hnd.
    + apply NoDup_app in Hnd as (_ & Hdis & _).
      intros Hin. apply (Hdis k1 Hin). left.
Qed.

(** ** Fields after a store *)

Lemma field_lookup (st : state) (self d : addr) (c : cname)
  (items : list (string * val)) (key : string) :
  store st !! self = Some (ORecord c d) ->
  store st !! d = Some (ODict items) ->
  field st self key = dict_get key items.
Proof. intros Hself Hd. unfold field. by rewrite Hself, Hd. Qed.

Section Stored.

Variables (st : state) (self d : addr) (c : cname).
Variable items : list (string * val).
Hypothesis Hself : store st !! self = Some (ORecord c d).
Hypothesis Hd : store st !! d = Some (ODict items).

Lemma object_setattr_stores (key : string) (value : val) :
  object_setattr self key value st = (Ok tt, stored st d items key value).
Proof. unfold object_setattr. run. rewrite Hself. run. by rewrite Hd. Qed.

Lemma self_not_dict : d <> self.
Proof. intros ->. congruence. Qed.

Lemma stored_self (key : string) (value : val) :
  store (stored st d items key value) !! self = Some (ORecord c d).
Proof.
  unfold stored. simpl. rewrite (lookup_put_other _ _ _ _ self_not_dict).
  exact Hself.
Qed.

Lemma stored_dict (key : string) (value : val) :
  store (stored st d items key value) !! d = Some (ODict (dict_set key value items)).
Proof. unfold stored. simpl. by apply (lookup_put_same _ _ (ODict items)). Qed.

Lemma field_stored_other (key k' : string) (value : val) :
  k' <> key -> field (stored st d items key value) self k' = field st self k'.
Proof.
  intros Hne. unfold field. rewrite stored_self, stored_dict, Hself, Hd.
  by apply dict_get_set_other.
Qed.

End Stored.

(** ** Subscript access and dynamic fields *)



(** ** Forced update *)

(** [upgrade] writes every key of its argument into the instance, read back
    exactly as given, and leaves the other fields alone.  Nothing is asked
    of the class: neither the key guard nor strict mode nor the schema is
    consulted. *)
Theorem upgrade_stores_every_key (st : state) (self d u : addr) (c : cname)
  (own items : list (string * val)) :
  store st !! self = Some (ORecord c d) ->
  store st !! d = Some (ODict own) ->
  store st !! u = Some (ODict items) ->
  NoDup (dict_keys items) ->
  exists st',
    BaseDataModel_upgrade self (VRef u) st = (Ok self, st') /\
    forall k,
      field st' self k =
        match dict_get k items with
        | Some v => Some v
        | None => field st self k
        end.
Proof.
  intros Hself Hd Hu Hnd. eexists. split.
  - unfold BaseDataModel_upgrade. run. simpl type_of. rewrite Hu.
    cbv beta iota. change (issubclass (classes st) T_dict T_dict) with true.
    cbv beta iota. rewrite Hu. cbv beta iota. rewrite Hself. cbv beta iota.
    rewrite Hd. reflexivity.
  - intros k. unfold field. simpl store.
    rewrite (lookup_put_other _ _ _ _ (self_not_dict st self d c own Hself Hd)).
    rewrite Hself, (lookup_put_same _ _ _ _ Hd), Hd.
    by apply dict_get_update.
Qed.

(** The instance of [st_stamped_instance] upgraded with the dict at
    address 2. *)
Lemma upgrade_stores_every_key_witness :
  exists st',
    BaseDataModel_upgrade 1 (VRef 2) st_stamped_instance = (Ok 1, st') /\
    forall k,
      field st' 1 k =
        match dict_get k [("ts", VInt 99); ("name", VStr "a")] with
        | Some v => Some v
        | None => field st_stamped_instance 1 k
        end.
Proof.
  apply (upgrade_stores_every_key st_stamped_instance 1 0 2 "Stamped"
           [("name", VStr "a"); ("ts", VInt 5)]
           [("ts", VInt 99); ("name", VStr "a")]);
    try reflexivity.
  apply NoDup_cons. split; [|apply NoDup_singleton].
  intros H. apply list_elem_of_singleton in H. discriminate.
Defined.

(** ** Assignment to a declared field *)

Lemma typeof_typed (st : state) (v : val) (t : pytype) :
  type_of (store st) v = Some t -> typeof v st = (Ok t, st).
Proof. intros H. unfold typeof. by rewrite H. Qed.

Lemma isinstance_typed (st : state) (v : val) (t u : pytype) :
  type_of (store st) v = Some t ->
  isinstance v u st = (Ok (issubclass (classes st) t u), st).
Proof. intros H. unfold isinstance. by rewrite H. Qed.



(** [apply] of a wrapper writes to wrappers and lists only: every dict and
    every record instance of the store is as it was. *)
Lemma wrapper_apply_keeps_records (st : state) (a b : addr) (v : val)
  (o : obj) :
  store st !! b = Some o ->
  (forall w, o <> OWrapper w) ->
  (forall l, o <> OList l) ->
  store (snd (wrapper_apply a v st)) !! b = Some o.
Proof.
  intros Hb Hw Hl. unfold wrapper_apply. run.
  destruct (store st !! a) as [[items|items|w|c d]|] eqn:Ha;
    try exact Hb.
  assert (Hne : a <> b) by (intros ->; rewrite Ha in Hb; naive_solver).
  cbv beta iota. simpl store. simpl classes. simpl calls.
  destruct w; try exact Hb;
    try (unfold LimitedValueModel_apply; run; simpl store;
         by rewrite (lookup_put_other _ _ _ _ Hne)).
  - unfold DateTime_apply. destruct v; exact Hb.
  - unfold DateTime_apply. destruct v; exact Hb.
  - unfold NumberBetweenValueModel_apply, le_bound, ge_bound. run.
    repeat (case_match; simplify_eq; simpl; try exact Hb);
      by rewrite (lookup_put_other _ _ _ _ Hne).
  - unfold ListBetweenValueModel_apply, list_append. run.
    repeat (case_match; simplify_eq; simpl; try exact Hb).
    all: try (rewrite (lookup_put_other _ _ _ _ Hne); by apply lookup_alloc_old).
    all: rewrite lookup_put_other; [exact Hb|].
    all: intros ->; naive_solver.
Qed.



(** ** Class objects left in a field *)



(** ** Records of plain scalars *)

Lemma strings_eqb_refl (l : list string) : strings_eqb l l = true.
Proof.
  induction l as [|x r IH]; simpl; [reflexivity|].
  by rewrite String.eqb_refl.
Qed.

Lemma set_store_same (st : state) : set_store st (store st) = st.
Proof. by destruct st. Qed.

Lemma put_unchanged (h : heap) (a : addr) (o : obj) :
  h !! a = Some o -> <[a:=o]> h = h.
Proof. apply list_insert_id. Qed.

Lemma put_twice (h : heap) (a : addr) (o o' : obj) :
  <[a:=o]> (<[a:=o']> h) = <[a:=o]> h.
Proof. apply list_insert_insert_eq. Qed.

Lemma put_last (h : heap) (o o' : obj) :
  <[length h:=o]> (h ++ [o']) = h ++ [o].
Proof.
  replace (length h) with (length h + 0) at 1 by lia.
  apply (insert_app_r h [o'] 0 o).
Qed.

Lemma to_dict_scalar (n : nat) (v : val) (st : state) :
  plain_scalar v = true -> _to_dict (S n) v st = (Ok v, st).
Proof. destruct v; simpl; intros H; try discriminate; reflexivity. Qed.

Lemma equals_scalar_refl (n : nat) (v : val) (st : state) :
  plain_scalar v = true -> _equals (S n) v v st = (Ok true, st).
Proof.
  destruct v; simpl; intros H; try discriminate; try reflexivity.
  - unfold bind, isinstance, typeof, assert, ret. simpl.
    by rewrite Z.eqb_refl.
  - unfold bind, isinstance, typeof, assert, ret. simpl.
    by rewrite Z.eqb_refl.
  - unfold bind, isinstance, typeof, assert, ret. simpl.
    by rewrite String.eqb_refl.
Qed.

Lemma check_value_scalar (n : nat) (c : cname) (cls : class_def) (k : string)
  (v : val) (st : state) :
  dict_get c (classes st) = Some cls ->
  forallb (fun kv => plain_scalar (snd kv)) (DATA_DEFAULT_FORMAT cls) = true ->
  plain_scalar v = true ->
  _check_value (S n) c k v st = (Ok tt, st).
Proof.
  intros Hcls Hsch Hv. simpl _check_value. run. rewrite Hcls.
  assert (Hdesc :
    (match dict_get k (DATA_DEFAULT_FORMAT cls) with
     | Some d => isinstance d T_BaseValueModel
     | None => ret false
     end) st = (Ok false, st)).
  { destruct (dict_get k (DATA_DEFAULT_FORMAT cls)) as [dsc|] eqn:E;
      [|reflexivity].
    rewrite forallb_forall in Hsch.
    specialize (Hsch _ (dict_get_In _ _ _ E)). simpl in Hsch.
    destruct dsc; try discriminate; reflexivity. }
  destruct v; try discriminate; simpl; fold (@ret state bool false);
    unfold isinstance in Hdesc; rewrite Hdesc; reflexivity.
Qed.

Lemma check_items_scalars (n : nat) (c : cname) (cls : class_def)
  (k : string) (items : list (string * val)) (st : state) :
  dict_get c (classes st) = Some cls ->
  forallb (fun kv => plain_scalar (snd kv)) (DATA_DEFAULT_FORMAT cls) = true ->
  forallb (fun kv => plain_scalar (snd kv)) items = true ->
  check_items (_check_value (S n) c) k items st = (Ok tt, st).
Proof.
  intros Hcls Hsch. induction items as [|[k1 v1] r IH]; [reflexivity|].
  intros H. cbn [forallb snd] in H. apply andb_prop in H as [Hv Hr].
  cbn [check_items].
  rewrite (bind_ok _ _ _ _ _ (check_value_scalar n c cls _ v1 st Hcls Hsch Hv)).
  auto.
Qed.

(** The dict loop of the export over plain scalars: the target ends up
    updated with the items. *)
Lemma export_items_scalars (n : nat) (tmp : addr)
  (items : list (string * val)) :
  forallb (fun kv => plain_scalar (snd kv)) items = true ->
  forall (acc : list (string * val)) (st : state),
    store st !! tmp = Some (ODict acc) ->
    export_items (_to_dict (S n)) tmp items st =
      (Ok tt, set_store st (<[tmp:=ODict (dict_update acc items)]> (store st))).
Proof.
  induction items as [|[k v] r IH]; intros Hall acc st Htmp.
  - change (dict_update acc []) with acc. cbn [export_items]. unfold ret.
    rewrite (put_unchanged _ _ _ Htmp). by rewrite set_store_same.
  - simpl in Hall. apply andb_prop in Hall as [Hv Hr].
    simpl export_items.
    rewrite (bind_ok _ _ _ _ _ (to_dict_scalar n v st Hv)).
    run. rewrite Htmp. cbv beta iota.
    rewrite (IH Hr (dict_set k v acc)).
    + unfold set_store. simpl. by rewrite put_twice.
    + simpl. by apply (lookup_put_same _ _ (ODict acc)).
Qed.

Lemma dict_get_member {A} (k : string) (v : A) (d : list (string * A)) :
  NoDup (dict_keys d) -> In (k, v) d -> dict_get k d = Some v.
Proof.
  induction d as [|[k1 v1] r IH]; [intros _ []|].
  change (dict_keys ((k1, v1) :: r)) with (k1 :: dict_keys r).
  intros Hnd Hin. apply NoDup_cons in Hnd as [Hk1 Hr]. simpl.
  destruct Hin as [[= -> ->]|Hin].
  - by rewrite String.eqb_refl.
  - destruct (String.eqb_spec k k1) as [->|_]; [|by apply IH].
    exfalso. apply Hk1. apply list_elem_of_In.
    change k1 with (fst (k1, v)). by apply in_map.
Qed.



(** ** Construction from a schema of plain scalars *)

Lemma check_key_format_schema_allowed (key_dirs : list string)
  (d : list (string * val)) (st : state) :
  forallb (fun _key => negb (dict_mem _key d)) key_dirs = true ->
  _check_key_format key_dirs (inl d) st = (Ok tt, st).
Proof.
  induction key_dirs as [|k r IH]; simpl; [reflexivity|].
  destruct (dict_mem k d); simpl; [discriminate | exact IH].
Qed.

Lemma plain_scalar_immediate (v : val) :
  plain_scalar v = true -> immediate v = true.
Proof. by destruct v. Qed.

Lemma copy_items_immediate (n : nat) (l : list (string * val)) (m : memo)
  (h : heap) :
  forallb (fun kv => immediate (snd kv)) l = true ->
  copy_items (deepcopy (S n)) l m h = (Ok (l, m), h).
Proof.
  induction l as [|[k v] r IH]; [reflexivity|].
  intros H. cbn [forallb snd] in H. apply andb_prop in H as [Hv Hr].
  cbn [copy_items]. unfold bind.
  assert (E : deepcopy (S n) v m h = (Ok (v, m), h)).
  { destruct v; try discriminate; reflexivity. }
  rewrite E. rewrite (IH Hr). reflexivity.
Qed.

(** For a class whose schema binds plain scalars only, the constructor
    called without overrides allocates the instance and a [__dict__] that
    holds exactly the items of the schema, and touches nothing else; the
    new instance passes [check]. *)
Theorem init_scalar_schema (n m : nat) (st : state) (c : cname)
  (cls : class_def) :
  dict_get c (classes st) = Some cls ->
  schema_keys_allowed cls = true ->
  NoDup (dict_keys (DATA_DEFAULT_FORMAT cls)) ->
  forallb (fun kv => plain_scalar (snd kv)) (DATA_DEFAULT_FORMAT cls) = true ->
  let self : addr := S (length (store st)) in
  let st1 :=
    set_store st
      (store st ++
       [ODict (DATA_DEFAULT_FORMAT cls); ORecord c (length (store st))]) in
  BaseDataModel___init__ (S n) c [] st = (Ok self, st1) /\
  BaseDataModel_check (S (S m)) self st1 = (Ok self, st1).
Proof.
  intros Hcls Hguard Hnd Hall self st1.
  assert (Himm : forallb (fun kv => immediate (snd kv))
                   (DATA_DEFAULT_FORMAT cls) = true).
  { rewrite forallb_forall in *. intros kv Hin.
    apply plain_scalar_immediate. by apply Hall. }
  assert (Happ : (store st ++ [ODict (DATA_DEFAULT_FORMAT cls)]) ++
                 [ORecord c (length (store st))] =
                 store st ++ [ODict (DATA_DEFAULT_FORMAT cls);
                              ORecord c (length (store st))]).
  { by rewrite <- app_assoc. }
  assert (Hd1 : store st1 !! (length (store st) : addr) =
                Some (ODict (DATA_DEFAULT_FORMAT cls))).
  { subst st1. simpl. rewrite <- Happ.
    apply lookup_alloc_old, lookup_alloc_new. }
  assert (Hself1 : store st1 !! self =
                   Some (ORecord c (length (store st)))).
  { subst st1 self. simpl. rewrite <- Happ.
    replace (S (length (store st)))
      with (length (store st ++ [ODict (DATA_DEFAULT_FORMAT cls)]))
      by (rewrite length_app; simpl; lia).
    apply lookup_alloc_new. }
  assert (Hcls1 : dict_get c (classes st1) = Some cls) by exact Hcls.
  split.
  - unfold BaseDataModel___init__. run. rewrite Hcls. cbv beta iota.
    rewrite (check_key_format_schema_allowed _ _ _ Hguard). cbv beta iota.
    unfold lift_heap. simpl store.
    rewrite (copy_items_immediate n _ _ _ Himm). cbv beta iota.
    simpl store.
    assert (Hd0 :
      ((store st ++ [ODict []]) ++ [ORecord c (length (store st))])
        !! (length (store st) : addr) = Some (ODict [])).
    { apply lookup_alloc_old, lookup_alloc_new. }
    rewrite_lookup Hd0. cbv beta iota. simpl setattr_each. cbv beta iota.
    subst st1 self. unfold set_store. simpl.
    rewrite (dict_update_fresh [] _ Hnd). simpl.
    rewrite length_app. simpl.
    replace (length (store st) + 1) with (S (length (store st))) by lia.
    do 2 f_equal. f_equal.
    rewrite <- !app_assoc. simpl.
    replace (length (store st)) with (length (store st) + 0) at 1 by lia.
    by rewrite (insert_app_r (store st) _ 0).
  - clearbody st1 self.
    rewrite (check_walks_fields _ _ _ _ _ _ _ Hself1 Hd1 Hcls1).
    rewrite (bind_ok _ _ _ _ _
               (check_items_scalars m c cls _ _ st1 Hcls1 Hall Hall)).
    reflexivity.
Qed.

(** The class [Person] of [st_person]. *)
Lemma init_scalar_schema_witness :
  BaseDataModel___init__ 1 "Person" [] st_person =
    (Ok 3,
     set_store st_person
       (store st_person ++
        [ODict [("name", VStr ""); ("age", VInt 0)]; ORecord "Person" 2])) /\
  BaseDataModel_check 2 3
    (set_store st_person
       (store st_person ++
        [ODict [("name", VStr ""); ("age", VInt 0)]; ORecord "Person" 2])) =
    (Ok 3,
     set_store st_person
       (store st_person ++
        [ODict [("name", VStr ""); ("age", VInt 0)]; ORecord "Person" 2])).
Proof.
  apply (init_scalar_schema 0 0 st_person "Person"
           (snd (subclass "Person" mro_BaseDataModel false BaseDataModel_dir
                   [("name", VStr ""); ("age", VInt 0)] [])));
    try reflexivity.
  apply NoDup_cons. split; [|apply NoDup_singleton].
  intros H. apply list_elem_of_singleton in H. discriminate.
Defined.

(** ** Default values *)

Lemma default_value_immediate (n : nat) (v : val) (st : state) :
  immediate v = true ->
  default_value (S n) v st = (Ok (scalar_default v), st).
Proof. destruct v; try discriminate; reflexivity. Qed.

Lemma dict_set_middle {A} (pre r : list (string * A)) (k : string) (v x : A) :
  k ∉ dict_keys pre ->
  dict_set k x (pre ++ (k, v) :: r) = pre ++ (k, x) :: r.
Proof.
  induction pre as [|[k1 v1] p IH]; simpl; intros Hn.
  - by rewrite String.eqb_refl.
  - apply not_elem_of_cons in Hn as [Hk Hp].
    destruct (String.eqb_spec k k1) as [->|_]; [contradiction|].
    by rewrite IH.
Qed.

Lemma default_items_immediate (n : nat) (d : addr)
  (items : list (string * val)) :
  forallb (fun kv => immediate (snd kv)) items = true ->
  forall (pre : list (string * val)) (st : state),
    store st !! d = Some (ODict (pre ++ items)) ->
    NoDup (dict_keys (pre ++ items)) ->
    default_items (default_value (S n)) d items st =
      (Ok tt,
       set_store st
         (<[d:=ODict (pre ++ map (fun kv => (fst kv, scalar_default (snd kv)))
                               items)]> (store st))).
Proof.
  induction items as [|[k v] r IH]; intros Hall pre st Hd Hnd.
  - cbn [default_items map]. unfold ret.
    rewrite (put_unchanged _ _ _ Hd). by rewrite set_store_same.
  - cbn [forallb snd] in Hall. apply andb_prop in Hall as [Hv Hr].
    assert (Hk : k ∉ dict_keys pre).
    { unfold dict_keys in Hnd. rewrite map_app in Hnd.
      apply NoDup_app in Hnd as (_ & Hdis & _).
      intros Hin. apply (Hdis k Hin). left. }
    cbn [default_items].
    rewrite (bind_ok _ _ _ _ _ (default_value_immediate n v st Hv)).
    run. rewrite Hd. cbv beta iota.
    rewrite (dict_set_middle pre r k v _ Hk).
    rewrite (IH Hr (pre ++ [(k, scalar_default v)])).
    + unfold set_store. simpl. rewrite put_twice.
      by rewrite <- app_assoc.
    + simpl. rewrite <- app_assoc.
      by apply (lookup_put_same _ _ (ODict (pre ++ (k, v) :: r))).
    + rewrite <- app_assoc. simpl.
      unfold dict_keys in *. rewrite map_app in *. exact Hnd.
Qed.



(** ** Failed assertions during the export *)

Lemma catch_AssertionError_never {A} (c : M state A) (st : state) :
  is_AssertionError (fst (catch_AssertionError c st)) = false.
Proof.
  unfold catch_AssertionError. by destruct (c st) as [[x|[]| |] st'].
Qed.

Lemma export_items_app (rec : val -> M state val) (tmp : addr)
  (l1 l2 : list (string * val)) (st : state) :
  export_items rec tmp (l1 ++ l2) st =
  (export_items rec tmp l1;; export_items rec tmp l2) st.
Proof.
  revert st. induction l1 as [|[k1 v1] r IH]; intros st; [reflexivity|].
  simpl. unfold bind in *.
  destruct (rec v1 st) as [[x|e| |] st']; try reflexivity.
  destruct (dict_items tmp st') as [[cur|e| |] st'']; try reflexivity.
  destruct (put tmp (ODict (dict_set k1 x cur)) st'') as [[[]|e| |] st3];
    try reflexivity.
  apply IH.
Qed.

Lemma wrapper_is_BaseValueModel (cs : list (cname * class_def)) (w : wrapper) :
  issubclass cs (T_wrapper (wclass_of w)) T_BaseValueModel = true.
Proof. by destruct w. Qed.

(** [to_dict] never ends in an [AssertionError], whatever the instance
    holds: a failed assertion inside the export is caught and raised again
    as a [ValueError]. *)
Theorem to_dict_never_raises_AssertionError (fuel : nat) (self : addr)
  (st : state) :
  is_AssertionError (fst (BaseDataModel_to_dict fuel self st)) = false.
Proof.
  unfold BaseDataModel_to_dict. run.
  destruct (store st !! self) as [[| | |c d]|]; try reflexivity.
  cbv beta iota. destruct fuel as [|k]; [reflexivity|].
  simpl _to_dict. run.
  destruct (type_of (store st) (VRef d)) as [t|]; [|reflexivity].
  cbv beta iota. destruct (pytype_eqb t T_type); [reflexivity|].
  apply catch_AssertionError_never.
Qed.



(** ** Updates that fail half way *)

Lemma setattr_each_app (self : addr) (l1 l2 : list (string * val))
  (st : state) :
  setattr_each self (l1 ++ l2) st =
  (setattr_each self l1;; setattr_each self l2) st.
Proof.
  revert st. induction l1 as [|[k1 v1] r IH]; intros st; [reflexivity|].
  cbn [app setattr_each]. unfold bind in *.
  destruct (BaseDataModel___setattr__ self k1 v1 st) as [[[]|e| |] st'];
    try reflexivity.
  apply IH.
Qed.

(** [update] assigns key by key and does not roll back: when the
    assignment of some key fails, [update] fails with that failure, the
    keys before it stay assigned and the keys after it are never looked
    at. *)
Theorem update_stops_at_first_failure (st st1 st2 : state) (self u : addr)
  (pre post : list (string * val)) (k : string) (v : val) (e : exn) :
  store st !! u = Some (ODict (pre ++ (k, v) :: post)) ->
  setattr_each self pre st = (Ok tt, st1) ->
  BaseDataModel___setattr__ self k v st1 = (Raise e, st2) ->
  BaseDataModel_update self (VRef u) st = (Raise e, st2).
Proof.
  intros Hu Hpre Hfail. unfold BaseDataModel_update. run.
  simpl type_of. rewrite Hu. cbv beta iota.
  change (issubclass (classes st) T_dict T_dict) with true. cbv beta iota.
  rewrite Hu. cbv beta iota. rewrite setattr_each_app.
  unfold bind at 1. rewrite Hpre. cbn [setattr_each].
  unfold bind at 1. rewrite Hfail. reflexivity.
Qed.

(** The strict pair of [st_partial] updated with [{"x": 5, "y": 6, "z": 7}]:
    [x] is stored, [y] is refused, [z] is never assigned. *)
Lemma update_stops_at_first_failure_witness :
  BaseDataModel_update 1 (VRef 2) st_partial =
    (Raise RuntimeError,
     stored st_partial 0 [("x", VNone)] "x" (VInt 5)).
Proof.
  apply (update_stops_at_first_failure st_partial
           (stored st_partial 0 [("x", VNone)] "x" (VInt 5))
           (stored st_partial 0 [("x", VNone)] "x" (VInt 5))
           1 2 [("x", VInt 5)] [("z", VInt 7)] "y" (VInt 6) RuntimeError);
    reflexivity.
Defined.

(** ** Freshness of what the constructor copies *)

Lemma memo_fresh_nil (base : nat) : memo_fresh base [].
Proof. constructor. Qed.

Section Fresh.

Variable base : nat.

Lemma yields_bind {A B} (P : A -> Prop) (Q : B -> Prop) (c : M heap A)
  (k : A -> M heap B) :
  yields base P c -> (forall x, P x -> yields base Q (k x)) ->
  yields base Q (bind c k).
Proof.
  intros Hc Hk h Hlen. unfold bind. destruct (Hc h Hlen) as [Hl HP].
  destruct (c h) as [[x|e| |] h']; simpl in *; auto.
  exact (Hk x HP h' Hl).
Qed.

Lemma yields_ret {A} (P : A -> Prop) (x : A) :
  P x -> yields base P (ret x).
Proof. intros HP h Hlen. simpl. auto. Qed.

Lemma yields_fail {A} (P : A -> Prop) (r : outcome A) :
  (forall x, r <> Ok x) -> yields base P (fun h => (r, h)).
Proof.
  intros Hr h Hlen. simpl. split; [exact Hlen|].
  destruct r; auto. by destruct (Hr a).
Qed.

Lemma yields_hderef (a : addr) : yields base (fun _ => True) (hderef a).
Proof. intros h Hlen. unfold hderef. case_match; simpl; auto. Qed.

Lemma yields_halloc {B} (Q : B -> Prop) (o : obj) (k : addr -> M heap B) :
  (forall y, base <= y -> yields base Q (k y)) ->
  yields base Q (bind (halloc o) k).
Proof.
  intros Hk h Hlen. unfold bind, halloc.
  apply (Hk (length h) Hlen). rewrite length_app. lia.
Qed.

Lemma yields_hstore (y : addr) (o : obj) :
  yields base (fun _ => True) (hstore y o).
Proof.
  intros h Hlen. unfold hstore. simpl. rewrite length_put. auto.
Qed.

Lemma memo_get_fresh (m : memo) (a y : addr) :
  memo_fresh base m -> memo_get a m = Some y -> base <= y.
Proof.
  unfold memo_fresh. induction 1 as [|[x z] r Hz _ IH]; simpl; [discriminate|].
  destruct (Nat.eqb a x); [intros [= <-]; exact Hz | exact IH].
Qed.

Lemma memo_fresh_cons (m : memo) (a y : addr) :
  base <= y -> memo_fresh base m -> memo_fresh base ((a, y) :: m).
Proof. intros Hy Hm. by constructor. Qed.

Lemma yields_copy_vals (rec : val -> memo -> M heap (val * memo))
  (l : list val) :
  (forall x m, memo_fresh base m -> yields base (copied base) (rec x m)) ->
  forall m, memo_fresh base m ->
    yields base (fun r => memo_fresh base (snd r)) (copy_vals rec l m).
Proof.
  intros Hrec. induction l as [|x r IH]; intros m Hm; simpl.
  - by apply yields_ret.
  - eapply yields_bind; [by apply Hrec|]. intros [x' m1] [_ Hm1].
    eapply yields_bind; [by apply IH|]. intros [r' m2] Hm2.
    by apply yields_ret.
Qed.

Lemma yields_copy_items (rec : val -> memo -> M heap (val * memo))
  (l : list (string * val)) :
  (forall x m, memo_fresh base m -> yields base (copied base) (rec x m)) ->
  forall m, memo_fresh base m ->
    yields base
      (fun r => Forall (fun kv => fresh_val base (snd kv) = true) (fst r) /\
                memo_fresh base (snd r))
      (copy_items rec l m).
Proof.
  intros Hrec. induction l as [|[k x] r IH]; intros m Hm; simpl.
  - apply yields_ret. split; [constructor | exact Hm].
  - eapply yields_bind; [by apply Hrec|]. intros [x' m1] [Hx Hm1].
    eapply yields_bind; [by apply IH|]. intros [r' m2] [Hr Hm2].
    apply yields_ret. split; [by constructor | exact Hm2].
Qed.

Lemma yields_copy_wrapper (rec : val -> memo -> M heap (val * memo))
  (w : wrapper) (m : memo) :
  (forall x m', memo_fresh base m' -> yields base (copied base) (rec x m')) ->
  memo_fresh base m ->
  yields base (fun r => memo_fresh base (snd r)) (copy_wrapper rec w m).
Proof.
  intros Hrec Hm. destruct w; simpl; try (by apply yields_ret);
    try (eapply yields_bind; [by apply Hrec|]; intros [d' m1] [_ Hm1];
         by apply yields_ret).
  eapply yields_bind; [by apply yields_copy_vals|]. intros [l' m1] Hm1.
  eapply yields_bind; [by apply Hrec|]. intros [d' m2] [_ Hm2].
  by apply yields_ret.
Qed.

(** [deepcopy] returns scalars, classes and references to objects that it
    allocated (now or earlier in the same copy). *)
Lemma yields_deepcopy (n : nat) :
  forall x m, memo_fresh base m -> yields base (copied base) (deepcopy n x m).
Proof.
  induction n as [|n IH]; intros x m Hm; simpl.
  { by apply yields_fail. }
  destruct x; try (apply yields_ret; by split).
  destruct (memo_get a m) as [y|] eqn:Hget.
  { apply yields_ret. split; [|exact Hm]. simpl.
    apply Nat.leb_le. by apply (memo_get_fresh m a y). }
  eapply yields_bind; [apply yields_hderef|]. intros [items|items|w|c d] _.
  - apply yields_halloc. intros y Hy.
    eapply yields_bind.
    { apply yields_copy_vals; [exact IH | by apply memo_fresh_cons]. }
    intros [items' m'] Hm'.
    eapply yields_bind; [apply yields_hstore|]. intros _ _.
    apply yields_ret. split; [by apply Nat.leb_le | exact Hm'].
  - apply yields_halloc. intros y Hy.
    eapply yields_bind.
    { apply yields_copy_items; [exact IH | by apply memo_fresh_cons]. }
    intros [items' m'] [_ Hm'].
    eapply yields_bind; [apply yields_hstore|]. intros _ _.
    apply yields_ret. split; [by apply Nat.leb_le | exact Hm'].
  - apply yields_halloc. intros y Hy.
    eapply yields_bind.
    { apply yields_copy_wrapper; [exact IH | by apply memo_fresh_cons]. }
    intros [w' m'] Hm'.
    eapply yields_bind; [apply yields_hstore|]. intros _ _.
    apply yields_ret. split; [by apply Nat.leb_le | exact Hm'].
  - apply yields_halloc. intros yd Hyd. apply yields_halloc. intros y Hy.
    eapply yields_bind; [apply IH; by apply memo_fresh_cons|].
    intros [state m'] [_ Hm'].
    destruct state; try (by apply yields_fail).
    eapply yields_bind; [apply yields_hderef|].
    intros [?|items|?|? ?] _; try (by apply yields_fail).
    eapply yields_bind; [apply yields_hstore|]. intros _ _.
    apply yields_ret. split; [by apply Nat.leb_le | exact Hm'].
Qed.

End Fresh.

Lemma dict_get_update_origin {A} (k : string) (v : A)
  (d e : list (string * A)) :
  dict_get k (dict_update d e) = Some v ->
  (exists k', In (k', v) e) \/ dict_get k d = Some v.
Proof.
  unfold dict_update. revert d.
  induction e as [|[k1 v1] r IH]; intros d; simpl; [auto|].
  intros H. destruct (IH _ H) as [[k' Hin]|Hd]; [left; eauto|].
  destruct (String.eqb_spec k k1) as [->|Hne].
  - rewrite dict_get_set_same in Hd. injection Hd as <-. left. eauto.
  - rewrite dict_get_set_other in Hd by exact Hne. auto.
Qed.

(** The [__dict__] a successful construction without overrides leaves: an
    update of the empty dict with copies that are fresh. *)
Lemma init_fields (fuel : nat) (c : cname) (st st1 : state) (i : addr) :
  BaseDataModel___init__ fuel c [] st = (Ok i, st1) ->
  exists data,
    Forall (fun kv => fresh_val (length (store st)) (snd kv) = true) data /\
    store st1 !! (length (store st) : addr) =
      Some (ODict (dict_update [] data)).
Proof.
  unfold BaseDataModel___init__. run. intros H.
  destruct (dict_get c (classes st)) as [cls|]; [|discriminate].
  cbv beta iota in H. unfold set_store in H. simpl store in H.
  simpl classes in H. simpl calls in H.
  match type of H with
  | context [_check_key_format ?l ?f ?s] =>
      pose proof (check_key_format_state l f s) as Hg;
      destruct (_check_key_format l f s) as [[[]|e| |] s']
  end; simpl in Hg; subst s'; try discriminate.
  unfold lift_heap in H. simpl store in H.
  simpl classes in H. simpl calls in H.
  match type of H with
  | context [copy_items ?r ?l ?m ?h] =>
      destruct (below_copy_items (S (S (length (store st)))) r l
                  (below_deepcopy _ fuel) m h) as [Hlen Hsame];
      [ rewrite !length_app; simpl; lia | ];
      destruct (yields_copy_items (length (store st)) r l
                  (yields_deepcopy _ fuel) m (memo_fresh_nil _) h) as [_ Hfresh];
      [ rewrite !length_app; simpl; lia | ];
      destruct (copy_items r l m h) as [[[data m']|e| |] h2]
  end; try discriminate.
  simpl in Hlen, Hsame, Hfresh. simpl store in H.
  assert (Hd : h2 !! length (store st) = Some (ODict [])).
  { rewrite Hsame by lia. rewrite lookup_app_l by (rewrite length_app; simpl; lia).
    apply lookup_alloc_new. }
  match type of H with
  | context [@lookup ?K ?V ?T ?I ?k ?h] =>
      let E := fresh in
      assert (E : @lookup K V T I k h = Some (ODict [])) by exact Hd;
      rewrite E in H; clear E
  end.
  simpl in H. injection H as <- <-. simpl.
  exists data. split; [exact (proj1 Hfresh)|].
  apply (lookup_put_same _ _ (ODict [])). exact Hd.
Qed.

(** The constructor hands the new instance copies: after a successful
    construction without overrides, no field of the new instance refers to
    an object that existed before, so none is an object of the schema or
    of another instance. *)
Theorem construction_fields_are_fresh (fuel : nat) (c : cname)
  (st st1 : state) (i : addr) (k : string) (a : addr) :
  BaseDataModel___init__ fuel c [] st = (Ok i, st1) ->
  field st1 i k = Some (VRef a) ->
  length (store st) <= a.
Proof.
  intros Hinit Hfield.
  destruct (init_result _ _ _ _ _ Hinit) as (_ & _ & _ & Hrec & _).
  destruct (init_fields _ _ _ _ _ Hinit) as (data & Hfresh & Hd).
  rewrite (field_lookup _ _ _ _ _ k Hrec Hd) in Hfield.
  destruct (dict_get_update_origin _ _ _ _ Hfield) as [[k' Hin]|Hnone];
    [|discriminate].
  rewrite Forall_forall in Hfresh.
  apply list_elem_of_In in Hin. specialize (Hfresh _ Hin). simpl in Hfresh.
  by apply Nat.leb_le.
Qed.

(** A new [Parent] of [st_family] holds a copy of the nested [Child]. *)
Lemma construction_fields_are_fresh_witness :
  length (store st_family) <= 9.
Proof.
  apply (construction_fields_are_fresh 8 "Parent" st_family
           (snd (BaseDataModel___init__ 8 "Parent" [] st_family))
           7 "child" 9);
    reflexivity.
Defined.
